(** * Multi-source enrichment and caching engine: a shallow embedding

    The development follows the Python sources of the backend:

    - [multi_source_service.py]: the aggregator
      ([get_comprehensive_info] and its parallel and sequential bodies);
    - [database.py]: the entity cache and the analysis cache
      ([generate_text_hash], [get_cached_analysis], [save_analysis_cache],
      [get_cached_entity], [save_entity_cache], [cleanup_expired_cache]);
    - [nlp_service.py]: the orchestrator [enrich_entity], the detection
      of entities and the analysis of a text;
    - [wikipedia_service.py]: the enrichment of one entity, with its
      fallbacks, the summary of a page and the classifications;
    - [main.py]: the three text endpoints.

    Python values are embedded as an inductive type of dynamic values,
    Python [str] as a list of Unicode code points, exceptions as a result
    type, dictionaries used as structs as records and the dictionaries
    used as maps as [gmap].

    What stays outside the embedding: an HTTP request to a provider is
    represented by its reply (no reply, or a status code and the decoded
    JSON body), which the code of the provider call then picks apart; the
    calls to the store are represented by their outcomes; the console
    output of [print] is left out, as is the sleeping of the rate limiter;
    clock readings are arguments; JSON numbers are integers. *)

From Stdlib Require Import NArith ZArith List String Ascii Lia Bool.
From Stdlib Require Import DecimalString.
From stdpp Require Import gmap strings list.

Set Warnings "-register-all".

Local Open Scope N_scope.

(** ** Python runtime values *)

Module Py.

(** A Python [str] is a sequence of Unicode code points. *)
Definition pystr : Type := list N.

(** String literals of the source are ASCII. *)
Definition lit (s : string) : pystr :=
  map N_of_ascii (list_ascii_of_string s).

(** Values that reach the program from decoded JSON and from the store. *)
Inductive pyval : Type :=
| PNone
| PBool (b : bool)
| PInt (z : Z)
| PStr (s : pystr)
| PList (xs : list pyval)
| PDict (kvs : list (pystr * pyval)).

Inductive exn : Type :=
| TypeError
| KeyError
| IndexError
| AttributeError
| ValueError
| ConnectionError
| UnicodeEncodeError.

(** The outcome of evaluating an expression or a call. *)
Inductive result (A : Type) : Type :=
| Ok (a : A)
| Raise (e : exn).

Arguments Ok {A} a.
Arguments Raise {A} e.

Definition bind {A B} (r : result A) (k : A -> result B) : result B :=
  match r with
  | Ok a => k a
  | Raise e => Raise e
  end.

#[export] Instance result_bind : MBind result :=
  fun A B k r => bind r k.

Definition is_ok {A} (r : result A) : bool :=
  match r with Ok _ => true | Raise _ => false end.

(** [bool(v)]: the truth value used by [if v], [not v] and [or]. *)
Definition truthy (v : pyval) : bool :=
  match v with
  | PNone => false
  | PBool b => b
  | PInt z => negb (Z.eqb z 0)
  | PStr s => match s with [] => false | _ => true end
  | PList xs => match xs with [] => false | _ => true end
  | PDict kvs => match kvs with [] => false | _ => true end
  end.

(** [a or b] *)
Definition py_or (a b : pyval) : pyval :=
  if truthy a then a else b.

(** [v[:n]]: defined on sequences, a [TypeError] on the other values. *)
Definition slice_to (n : nat) (v : pyval) : result pyval :=
  match v with
  | PStr s => Ok (PStr (firstn n s))
  | PList xs => Ok (PList (firstn n xs))
  | _ => Raise TypeError
  end.

(** The value under a key of a dictionary. *)
Fixpoint assoc (key : pystr) (kvs : list (pystr * pyval)) : option pyval :=
  match kvs with
  | [] => None
  | (k, v) :: rest => if bool_decide (k = key) then Some v else assoc key rest
  end.

(** [d.get(key, dflt)]: only dictionaries have the method. *)
Definition py_get (d : pyval) (key : string) (dflt : pyval) : result pyval :=
  match d with
  | PDict kvs => Ok (default dflt (assoc (lit key) kvs))
  | _ => Raise AttributeError
  end.

(** [d[key]] for a string key. *)
Definition py_item (d : pyval) (key : string) : result pyval :=
  match d with
  | PDict kvs =>
      match assoc (lit key) kvs with
      | Some v => Ok v
      | None => Raise KeyError
      end
  | _ => Raise TypeError
  end.

(** The position that an index designates in a sequence of [len]
    elements; negative indices count from the end. *)
Definition position (len : nat) (i : Z) : option nat :=
  if (0 <=? i)%Z
  then (if (i <? Z.of_nat len)%Z then Some (Z.to_nat i) else None)
  else (if (- Z.of_nat len <=? i)%Z then Some (Z.to_nat (Z.of_nat len + i))
        else None).

Definition py_index {A} (wrap : A -> pyval) (xs : list A) (i : Z)
    : result pyval :=
  match position (length xs) i with
  | Some n =>
      match nth_error xs n with
      | Some x => Ok (wrap x)
      | None => Raise IndexError
      end
  | None => Raise IndexError
  end.

(** [x[key]] for any key.  The keys of a decoded JSON object are strings;
    lists and strings take integers, of which booleans are a kind. *)
Definition py_getitem (x key : pyval) : result pyval :=
  match x, key with
  | PDict kvs, PStr k =>
      match assoc k kvs with
      | Some v => Ok v
      | None => Raise KeyError
      end
  | PDict _, (PList _ | PDict _) => Raise TypeError
  | PDict _, _ => Raise KeyError
  | PList xs, PInt i => py_index (fun v => v) xs i
  | PList xs, PBool b => py_index (fun v => v) xs (if b then 1 else 0)%Z
  | PStr s, PInt i => py_index (fun c => PStr [c]) s i
  | PStr s, PBool b => py_index (fun c => PStr [c]) s (if b then 1 else 0)%Z
  | _, _ => Raise TypeError
  end.

(** [x[0]] *)
Definition py_first (x : pyval) : result pyval := py_getitem x (PInt 0).

Definition sliceable (v : pyval) : bool :=
  match v with
  | PStr _ | PList _ => true
  | _ => false
  end.

Definition map_result {A B} (f : A -> B) (r : result A) : result B :=
  match r with
  | Ok a => Ok (f a)
  | Raise e => Raise e
  end.

(** [str.isspace] on one code point: the white space of the Unicode
    character database, which is what [str.strip()] removes. *)
Definition isspace (c : N) : bool :=
  ((0x09 <=? c) && (c <=? 0x0D)) ||
  ((0x1C <=? c) && (c <=? 0x20)) ||
  (c =? 0x85) || (c =? 0xA0) || (c =? 0x1680) ||
  ((0x2000 <=? c) && (c <=? 0x200A)) ||
  (c =? 0x2028) || (c =? 0x2029) || (c =? 0x202F) ||
  (c =? 0x205F) || (c =? 0x3000).

Fixpoint lstrip (s : pystr) : pystr :=
  match s with
  | [] => []
  | c :: s' => if isspace c then lstrip s' else s
  end.

Definition rstrip (s : pystr) : pystr := rev (lstrip (rev s)).

(** [s.strip()] *)
Definition strip (s : pystr) : pystr := rstrip (lstrip s).

Definition is_ascii (c : N) : bool := c <? 128.

Definition is_ascii_upper (c : N) : bool := (65 <=? c) && (c <=? 90).

Definition ascii_lower (c : N) : N :=
  if is_ascii_upper c then c + 32 else c.

(** Two code points that are the same letter up to ASCII case. *)
Definition same_letter (a b : N) : Prop := ascii_lower a = ascii_lower b.

(** What the model takes from the interpreter as parameters: the entries
    of its Unicode tables for the characters outside ASCII that [str.lower]
    reads, namely the lower-case form of a character, which can be several
    characters long, and the properties Cased and Case_Ignorable; and the
    text that an f-string gives for a list or a dictionary. *)
Class Interpreter : Type := {
  unicode_lower : N -> pystr;
  unicode_cased : N -> bool;
  unicode_case_ignorable : N -> bool;
  str_of : pyval -> pystr }.

(** The text of [{v}] in an f-string. *)
Definition format `{Interpreter} (v : pyval) : pystr :=
  match v with
  | PStr s => s
  | PInt z => lit (NilZero.string_of_int (Z.to_int z))
  | PBool b => lit (if b then "True" else "False")
  | PNone => lit "None"
  | _ => str_of v
  end.

Definition is_ascii_letter (c : N) : bool :=
  is_ascii_upper c || ((97 <=? c) && (c <=? 122)).

(** The property Cased of a character: of the ASCII characters, the
    letters have it. *)
Definition is_cased `{Interpreter} (c : N) : bool :=
  if is_ascii c then is_ascii_letter c else unicode_cased c.

(** The property Case_Ignorable of a character: of the ASCII characters,
    the apostrophe, the full stop, the colon, the circumflex and the grave
    accent have it. *)
Definition is_case_ignorable `{Interpreter} (c : N) : bool :=
  if is_ascii c then
    (c =? 0x27) || (c =? 0x2E) || (c =? 0x3A) || (c =? 0x5E) || (c =? 0x60)
  else unicode_case_ignorable c.

(** The lower-case form of one character. *)
Definition to_lower_full `{Interpreter} (c : N) : pystr :=
  if is_ascii c then [ascii_lower c] else unicode_lower c.

(** The lower-case form of a capital sigma (U+03A3) at some place of a
    string: the final sigma (U+03C2) when the nearest character before it
    that is not Case_Ignorable exists and is Cased, and the nearest such
    character after it does not exist or is not Cased; the sigma (U+03C3)
    otherwise.  [before] holds the characters before the place, the
    nearest first, and [after] those after it. *)
Definition handle_capital_sigma `{Interpreter} (before after : pystr) : N :=
  let final_sigma :=
    match find (fun c => negb (is_case_ignorable c)) before with
    | Some c =>
        is_cased c
        && match find (fun c => negb (is_case_ignorable c)) after with
           | Some c' => negb (is_cased c')
           | None => true
           end
    | None => false
    end in
  if final_sigma then 0x3C2 else 0x3C3.

(** The case mapping of a string, character by character: each character
    gives its lower-case form, but for the capital sigma, whose form
    depends on the characters around it.  [before] holds the characters
    already passed, the nearest first. *)
Fixpoint do_lower `{Interpreter} (before s : pystr) : pystr :=
  match s with
  | [] => []
  | c :: rest =>
      (if c =? 0x3A3 then [handle_capital_sigma before rest]
       else to_lower_full c)
      ++ do_lower (c :: before) rest
  end.

(** [s.lower()]: pure ASCII strings are lowered letter by letter; any other
    string goes through the case mapping of Unicode. *)
Definition lower `{Interpreter} (s : pystr) : pystr :=
  if forallb is_ascii s then map ascii_lower s else do_lower [] s.

(** [sub in s] for strings *)
Fixpoint is_prefix (p s : pystr) : bool :=
  match p, s with
  | [], _ => true
  | _ :: _, [] => false
  | a :: p', b :: s' => (a =? b) && is_prefix p' s'
  end.

Fixpoint contains (sub s : pystr) : bool :=
  is_prefix sub s ||
  match s with
  | [] => false
  | _ :: s' => contains sub s'
  end.

(** [key in x] for a string [key] *)
Definition py_contains (key : string) (x : pyval) : result bool :=
  match x with
  | PDict kvs => Ok (bool_decide (is_Some (assoc (lit key) kvs)))
  | PList xs =>
      Ok (existsb (fun v => match v with
                            | PStr s => bool_decide (s = lit key)
                            | _ => false
                            end) xs)
  | PStr s => Ok (contains (lit key) s)
  | _ => Raise TypeError
  end.

(** [s.replace(' ', '_')]: only strings have the method. *)
Definition underscored (s : pystr) : pystr :=
  map (fun c => if c =? 32 then 95 else c) s.

Definition py_underscored (v : pyval) : result pystr :=
  match v with
  | PStr s => Ok (underscored s)
  | _ => Raise AttributeError
  end.

(** [s.encode('utf-8')]: surrogate code points cannot be encoded. *)
Definition utf8_char (c : N) : result (list N) :=
  if c <? 0x80 then Ok [c]
  else if c <? 0x800 then
    Ok [0xC0 + c / 64; 0x80 + c mod 64]
  else if (0xD800 <=? c) && (c <=? 0xDFFF) then Raise UnicodeEncodeError
  else if c <? 0x10000 then
    Ok [0xE0 + c / 4096; 0x80 + (c / 64) mod 64; 0x80 + c mod 64]
  else
    Ok [0xF0 + c / 262144; 0x80 + (c / 4096) mod 64;
        0x80 + (c / 64) mod 64; 0x80 + c mod 64].

Fixpoint utf8 (s : pystr) : result (list N) :=
  match s with
  | [] => Ok []
  | c :: s' =>
      bind (utf8_char c) (fun bs =>
      bind (utf8 s') (fun rest => Ok (bs ++ rest)))
  end.

End Py.

Export Py.

(** ** SHA-256 (FIPS 180-4), as [hashlib.sha256(...).hexdigest()] *)

Module Sha256.

Definition word_mask : N := 0xFFFFFFFF.

Definition add32 (a b : N) : N := N.land (a + b) word_mask.

Definition rotr (n x : N) : N :=
  N.lor (N.shiftr x n) (N.land (N.shiftl x (32 - n)) word_mask).

Definition Ch (x y z : N) : N :=
  N.lxor (N.land x y) (N.land (N.lxor x word_mask) z).

Definition Maj (x y z : N) : N :=
  N.lxor (N.lxor (N.land x y) (N.land x z)) (N.land y z).

Definition bsig0 (x : N) : N :=
  N.lxor (N.lxor (rotr 2 x) (rotr 13 x)) (rotr 22 x).

Definition bsig1 (x : N) : N :=
  N.lxor (N.lxor (rotr 6 x) (rotr 11 x)) (rotr 25 x).

Definition ssig0 (x : N) : N :=
  N.lxor (N.lxor (rotr 7 x) (rotr 18 x)) (N.shiftr x 3).

Definition ssig1 (x : N) : N :=
  N.lxor (N.lxor (rotr 17 x) (rotr 19 x)) (N.shiftr x 10).

(** The largest [r] below [2 ^ bits] whose cube is at most [n]. *)
Fixpoint cube_root (bits : nat) (n r : N) : N :=
  match bits with
  | O => r
  | S b =>
      let c := r + 2 ^ N.of_nat b in
      cube_root b n (if c * c * c <=? n then c else r)
  end.

Definition is_prime (n : nat) : bool :=
  Nat.ltb 1 n
  && forallb (fun d => negb (Nat.eqb (Nat.modulo n d) 0)) (seq 2 (n - 2)).

(** The first 64 primes, from 2 to 311. *)
Definition primes : list N :=
  Eval vm_compute in map N.of_nat (List.filter is_prime (seq 2 310)).

(** The round constants: the first 32 bits of the fractional parts of the
    cube roots of the first 64 primes. *)
Definition K : list N :=
  Eval vm_compute in
    map (fun p => N.land (cube_root 36 (p * 2 ^ 96) 0) word_mask) primes.

(** The initial hash value: the first 32 bits of the fractional parts of
    the square roots of the first 8 primes. *)
Definition H0 : list N :=
  Eval vm_compute in
    map (fun p => N.land (N.sqrt (p * 2 ^ 64)) word_mask) (firstn 8 primes).

(** Big-endian bytes of a number, most significant first. *)
Fixpoint be_bytes (n : nat) (x : N) : list N :=
  match n with
  | O => []
  | S n' => be_bytes n' (x / 256) ++ [x mod 256]
  end.

Definition pad (msg : list N) : list N :=
  let len := N.of_nat (length msg) in
  let zeros := (119 - len mod 64) mod 64 in
  msg ++ [0x80] ++ repeat 0 (N.to_nat zeros) ++ be_bytes 8 (8 * len).

Fixpoint be_word (bs : list N) (acc : N) : N :=
  match bs with
  | [] => acc
  | b :: bs' => be_word bs' (acc * 256 + b)
  end.

(** Cut a list into pieces of [k] elements; [fuel] bounds the pieces. *)
Fixpoint chunks {A} (fuel k : nat) (l : list A) : list (list A) :=
  match fuel, l with
  | O, _ => []
  | _, [] => []
  | S fuel', _ => firstn k l :: chunks fuel' k (skipn k l)
  end.

Definition block_words (block : list N) : list N :=
  map (fun bs => be_word bs 0) (chunks 16 4 block).

(** The message schedule, extended one word at a time. *)
Fixpoint schedule (n : nat) (w : list N) : list N :=
  match n with
  | O => w
  | S n' =>
      let t := length w in
      let at_ i := nth (t - i) w 0 in
      schedule n'
        (w ++ [add32 (add32 (ssig1 (at_ 2%nat)) (at_ 7%nat))
                     (add32 (ssig0 (at_ 15%nat)) (at_ 16%nat))])
  end.

Record regs : Type := Regs { ra : N; rb : N; rc : N; rd : N;
                             re : N; rf : N; rg : N; rh : N }.

Definition round (s : regs) (kw : N * N) : regs :=
  let t1 := add32 (add32 (add32 (rh s) (bsig1 (re s)))
                         (add32 (Ch (re s) (rf s) (rg s)) (fst kw)))
                  (snd kw) in
  let t2 := add32 (bsig0 (ra s)) (Maj (ra s) (rb s) (rc s)) in
  Regs (add32 t1 t2) (ra s) (rb s) (rc s) (add32 (rd s) t1) (re s) (rf s) (rg s).

Definition regs_of (h : list N) : regs :=
  Regs (nth 0 h 0) (nth 1 h 0) (nth 2 h 0) (nth 3 h 0)
       (nth 4 h 0) (nth 5 h 0) (nth 6 h 0) (nth 7 h 0).

Definition regs_list (s : regs) : list N :=
  [ra s; rb s; rc s; rd s; re s; rf s; rg s; rh s].

Definition compress (h : list N) (block : list N) : list N :=
  let w := schedule 48 (block_words block) in
  let s := fold_left round (combine K w) (regs_of h) in
  map (fun p => add32 (fst p) (snd p)) (combine h (regs_list s)).

Definition digest_words (msg : list N) : list N :=
  let p := pad msg in
  fold_left compress (chunks (length p) 64 p) H0.

Definition hex_digit (d : N) : N :=
  if d <? 10 then 48 + d else 87 + d.

Definition hex_byte (b : N) : list N := [hex_digit (b / 16); hex_digit (b mod 16)].

(** [hashlib.sha256(msg).hexdigest()] *)
Definition hexdigest (msg : list N) : pystr :=
  flat_map hex_byte (flat_map (be_bytes 4) (digest_words msg)).

End Sha256.

(** ** The aggregator ([multi_source_service.py]) *)

Module MultiSource.

Local Open Scope string_scope.

(** The dictionaries built by the four provider calls.  The constant
    ["source"] entry of each is left out. *)
Record kg_record : Type := KgRecord {
  kg_entity_name : pyval;
  kg_description : pyval;
  kg_detailed_description : pyval;
  kg_url : pyval;
  kg_image_url : pyval;
  kg_types : pyval;
  kg_confidence : pyval;
  kg_retrieved_at : pystr }.

Record dbpedia_record : Type := DbpediaRecord {
  dbp_entity_name : pystr;
  dbp_abstract : pyval;
  dbp_resource_uri : pystr;
  dbp_retrieved_at : pystr }.

Record wikidata_record : Type := WikidataRecord {
  wd_entity_name : pystr;
  wd_wikidata_id : pyval;
  wd_label : pyval;
  wd_description : pyval;
  wd_url : pystr;
  wd_wikipedia_url : pyval;
  wd_retrieved_at : pystr }.

Record ol_record : Type := OlRecord {
  ol_title : pyval;
  ol_author : pyval;
  ol_first_publish_year : pyval;
  ol_subject : pyval;
  ol_isbn : pyval;
  ol_cover_url : pyval;
  ol_url : pystr;
  ol_retrieved_at : pystr }.

(** What [requests.get] brings back: nothing, when the call raises (time
    out, connection error); or a response, with its status code and the
    value that [response.json()] returns ([None] when the body is not JSON
    and [json()] raises). *)
Inductive reply : Type :=
| NoReply
| Reply (status_code : Z) (json : option pyval).

Definition response_of (r : reply) : result (Z * option pyval) :=
  match r with
  | NoReply => Raise ConnectionError
  | Reply status_code json => Ok (status_code, json)
  end.

Definition json_of (response : Z * option pyval) : result pyval :=
  match response.2 with
  | Some data => Ok data
  | None => Raise ValueError
  end.

(** [try: ... except Exception: return None] around a body that returns
    [None] or a dictionary. *)
Definition try_or_none {A} (body : result (option A)) : option A :=
  match body with
  | Ok r => r
  | Raise _ => None
  end.

(** The network during one lookup: the reply to the request of each
    provider (Wikidata is asked twice, the second time for the entity id
    found by the first), and the clock reading stamped on each record. *)
Record network : Type := Network {
  kg_reply : reply;
  dbpedia_reply : reply;
  wikidata_search_reply : reply;
  wikidata_detail_reply : pyval -> reply;
  openlibrary_reply : reply;
  kg_clock : pystr;
  dbpedia_clock : pystr;
  wikidata_clock : pystr;
  openlibrary_clock : pystr }.

(** [combined_data].  The keys written only by some branch are optional. *)
Record combined : Type := Combined {
  entity_name : pystr;
  entity_type : pystr;
  summary : pyval;
  description : pyval;
  url : pyval;
  sources_consulted : list string;
  confidence : string;
  retrieved_at : pystr;
  image_url : option pyval;
  kg_confidence_score : option pyval;
  dbpedia_uri : option pyval;
  wikidata_id : option pyval;
  literary_info : option ol_record }.

(** Assignments [combined_data[key] = v]. *)
Definition set_summary (v : pyval) (c : combined) : combined :=
  Combined (entity_name c) (entity_type c) v (description c) (url c)
    (sources_consulted c) (confidence c) (retrieved_at c) (image_url c)
    (kg_confidence_score c) (dbpedia_uri c) (wikidata_id c) (literary_info c).

Definition set_description (v : pyval) (c : combined) : combined :=
  Combined (entity_name c) (entity_type c) (summary c) v (url c)
    (sources_consulted c) (confidence c) (retrieved_at c) (image_url c)
    (kg_confidence_score c) (dbpedia_uri c) (wikidata_id c) (literary_info c).

Definition set_url (v : pyval) (c : combined) : combined :=
  Combined (entity_name c) (entity_type c) (summary c) (description c) v
    (sources_consulted c) (confidence c) (retrieved_at c) (image_url c)
    (kg_confidence_score c) (dbpedia_uri c) (wikidata_id c) (literary_info c).

(** [combined_data["sources_consulted"].append(name)] *)
Definition append_source (name : string) (c : combined) : combined :=
  Combined (entity_name c) (entity_type c) (summary c) (description c) (url c)
    (sources_consulted c ++ [name]) (confidence c) (retrieved_at c)
    (image_url c) (kg_confidence_score c) (dbpedia_uri c) (wikidata_id c)
    (literary_info c).

Definition set_confidence (v : string) (c : combined) : combined :=
  Combined (entity_name c) (entity_type c) (summary c) (description c) (url c)
    (sources_consulted c) v (retrieved_at c) (image_url c)
    (kg_confidence_score c) (dbpedia_uri c) (wikidata_id c) (literary_info c).

Definition set_image_url (v : pyval) (c : combined) : combined :=
  Combined (entity_name c) (entity_type c) (summary c) (description c) (url c)
    (sources_consulted c) (confidence c) (retrieved_at c) (Some v)
    (kg_confidence_score c) (dbpedia_uri c) (wikidata_id c) (literary_info c).

Definition set_kg_confidence_score (v : pyval) (c : combined) : combined :=
  Combined (entity_name c) (entity_type c) (summary c) (description c) (url c)
    (sources_consulted c) (confidence c) (retrieved_at c) (image_url c)
    (Some v) (dbpedia_uri c) (wikidata_id c) (literary_info c).

Definition set_dbpedia_uri (v : pyval) (c : combined) : combined :=
  Combined (entity_name c) (entity_type c) (summary c) (description c) (url c)
    (sources_consulted c) (confidence c) (retrieved_at c) (image_url c)
    (kg_confidence_score c) (Some v) (wikidata_id c) (literary_info c).

Definition set_wikidata_id (v : pyval) (c : combined) : combined :=
  Combined (entity_name c) (entity_type c) (summary c) (description c) (url c)
    (sources_consulted c) (confidence c) (retrieved_at c) (image_url c)
    (kg_confidence_score c) (dbpedia_uri c) (Some v) (literary_info c).

Definition set_literary_info (v : ol_record) (c : combined) : combined :=
  Combined (entity_name c) (entity_type c) (summary c) (description c) (url c)
    (sources_consulted c) (confidence c) (retrieved_at c) (image_url c)
    (kg_confidence_score c) (dbpedia_uri c) (wikidata_id c) (Some v).

(** [name in combined_data["sources_consulted"]] *)
Definition consulted (name : string) (c : combined) : bool :=
  existsb (String.eqb name) (sources_consulted c).

(** The configuration of the service object: the Knowledge Graph API key
    read from the environment ([None] when it is not set). *)
Record service : Type := Service { kg_api_key : pyval }.

(** What a finished task of the thread pool hands back: the dictionary of
    its provider. *)
Inductive payload : Type :=
| OfKg (r : kg_record)
| OfDbpedia (r : dbpedia_record)
| OfWikidata (r : wikidata_record)
| OfOpenLibrary (r : ol_record).

Section Aggregator.

Context `{Interpreter}.
Variable self : service.
Variable net : network.

(** *** The provider methods, used by the sequential body.  The call to
    the rate limiter, which only sleeps, is left out. *)

Definition get_knowledge_graph_info (entity_name entity_type : pystr)
    : option kg_record :=
  if negb (truthy (kg_api_key self)) then None
  else try_or_none (
    response ← response_of (kg_reply net);
    if negb (response.1 =? 200)%Z then Ok None else
    data ← json_of response;
    found ← py_get data "itemListElement" PNone;
    if negb (truthy found) then Ok None else
    (* Get first result *)
    elements ← py_item data "itemListElement";
    element ← py_first elements;
    item ← py_item element "result";
    (* Extract relevant information *)
    name ← py_get item "name" (PStr entity_name);
    description ← py_get item "description" (PStr []);
    detailed ← py_get item "detailedDescription" (PDict []);
    article_body ← py_get detailed "articleBody" (PStr []);
    detailed ← py_get item "detailedDescription" (PDict []);
    url ← py_get detailed "url" (PStr []);
    image ← py_get item "image" (PDict []);
    content_url ← py_get image "contentUrl" (PStr []);
    types ← py_get item "@type" (PList []);
    result_score ← py_get element "resultScore" (PInt 0);
    Ok (Some (KgRecord name description article_body url content_url types
                result_score (kg_clock net)))).

Definition get_dbpedia_info (entity_name : pystr) : option dbpedia_record :=
  try_or_none (
    let resource_name := underscored entity_name in
    let resource_uri :=
      (lit "http://dbpedia.org/resource/" ++ resource_name)%list in
    response ← response_of (dbpedia_reply net);
    if negb (response.1 =? 200)%Z then Ok None else
    data ← json_of response;
    results ← py_get data "results" (PDict []);
    bindings ← py_get results "bindings" PNone;
    if negb (truthy bindings) then Ok None else
    results ← py_item data "results";
    bindings ← py_item results "bindings";
    result ← py_first bindings;
    abstract ← py_get result "abstract" (PDict []);
    value ← py_get abstract "value" (PStr []);
    Ok (Some (DbpediaRecord entity_name value resource_uri
                (dbpedia_clock net)))).

(** [_get_wikipedia_url_from_sitelinks] *)
Definition _get_wikipedia_url_from_sitelinks (sitelinks : pyval)
    : result pyval :=
  present ← py_contains "enwiki" sitelinks;
  if present : bool then
    enwiki ← py_item sitelinks "enwiki";
    title ← py_item enwiki "title";
    title ← py_underscored title;
    Ok (PStr (lit "https://en.wikipedia.org/wiki/" ++ title)%list)
  else Ok PNone.

Definition get_wikidata_enhanced (entity_name : pystr)
    : option wikidata_record :=
  try_or_none (
    (* Search for entity *)
    response ← response_of (wikidata_search_reply net);
    if negb (response.1 =? 200)%Z then Ok None else
    search_data ← json_of response;
    found ← py_get search_data "search" PNone;
    if negb (truthy found) then Ok None else
    hits ← py_item search_data "search";
    entity ← py_first hits;
    entity_id ← py_item entity "id";
    (* Get detailed entity data *)
    detail_response ← response_of (wikidata_detail_reply net entity_id);
    if negb (detail_response.1 =? 200)%Z then Ok None else
    entity_data ← json_of detail_response;
    entities ← py_item entity_data "entities";
    entity_details ← py_getitem entities entity_id;
    labels ← py_get entity_details "labels" (PDict []);
    en ← py_get labels "en" (PDict []);
    label ← py_get en "value" (PStr []);
    descriptions ← py_get entity_details "descriptions" (PDict []);
    en ← py_get descriptions "en" (PDict []);
    description ← py_get en "value" (PStr []);
    sitelinks ← py_get entity_details "sitelinks" (PDict []);
    wikipedia_url ← _get_wikipedia_url_from_sitelinks sitelinks;
    Ok (Some (WikidataRecord entity_name entity_id label description
                (lit "https://www.wikidata.org/wiki/" ++ format entity_id)%list
                wikipedia_url (wikidata_clock net)))).

Definition get_openlibrary_info (work_title : pystr) : option ol_record :=
  try_or_none (
    response ← response_of (openlibrary_reply net);
    if negb (response.1 =? 200)%Z then Ok None else
    data ← json_of response;
    docs ← py_get data "docs" PNone;
    if negb (truthy docs) then Ok None else
    docs ← py_item data "docs";
    book ← py_first docs;
    title ← py_get book "title" (PStr work_title);
    author ← py_get book "author_name" (PList []);
    first_publish_year ← py_get book "first_publish_year" (PStr []);
    subject ← py_get book "subject" (PList []);
    subject ← slice_to 5 subject;
    isbn ← py_get book "isbn" (PList []);
    cover_i ← py_get book "cover_i" PNone;
    cover_url ←
      (if truthy cover_i
       then cover_i ← py_get book "cover_i" (PStr []);
            Ok (PStr (lit "https://covers.openlibrary.org/b/id/"
                      ++ format cover_i ++ lit "-M.jpg")%list)
       else Ok PNone);
    key ← py_get book "key" (PStr []);
    Ok (Some (OlRecord title author first_publish_year subject isbn cover_url
                (lit "https://openlibrary.org" ++ format key)%list
                (openlibrary_clock net)))).

(** *** The closures of the parallel body: the same requests, without the
    rate limiter; the key test of [fetch_kg] is inside its [try]. *)

Definition fetch_kg (entity_name entity_type : pystr) : option payload :=
  OfKg <$> try_or_none (
    if negb (truthy (kg_api_key self)) then Ok None else
    response ← response_of (kg_reply net);
    if negb (response.1 =? 200)%Z then Ok None else
    data ← json_of response;
    found ← py_get data "itemListElement" PNone;
    if negb (truthy found) then Ok None else
    elements ← py_item data "itemListElement";
    element ← py_first elements;
    item ← py_item element "result";
    name ← py_get item "name" (PStr entity_name);
    description ← py_get item "description" (PStr []);
    detailed ← py_get item "detailedDescription" (PDict []);
    article_body ← py_get detailed "articleBody" (PStr []);
    detailed ← py_get item "detailedDescription" (PDict []);
    url ← py_get detailed "url" (PStr []);
    image ← py_get item "image" (PDict []);
    content_url ← py_get image "contentUrl" (PStr []);
    types ← py_get item "@type" (PList []);
    result_score ← py_get element "resultScore" (PInt 0);
    Ok (Some (KgRecord name description article_body url content_url types
                result_score (kg_clock net)))).

Definition fetch_dbpedia (entity_name : pystr) : option payload :=
  OfDbpedia <$> try_or_none (
    let resource_name := underscored entity_name in
    let resource_uri :=
      (lit "http://dbpedia.org/resource/" ++ resource_name)%list in
    response ← response_of (dbpedia_reply net);
    if negb (response.1 =? 200)%Z then Ok None else
    data ← json_of response;
    results ← py_get data "results" (PDict []);
    bindings ← py_get results "bindings" PNone;
    if negb (truthy bindings) then Ok None else
    results ← py_item data "results";
    bindings ← py_item results "bindings";
    result ← py_first bindings;
    abstract ← py_get result "abstract" (PDict []);
    value ← py_get abstract "value" (PStr []);
    Ok (Some (DbpediaRecord entity_name value resource_uri
                (dbpedia_clock net)))).

Definition fetch_wikidata (entity_name : pystr) : option payload :=
  OfWikidata <$> try_or_none (
    response ← response_of (wikidata_search_reply net);
    if negb (response.1 =? 200)%Z then Ok None else
    search_data ← json_of response;
    found ← py_get search_data "search" PNone;
    if negb (truthy found) then Ok None else
    hits ← py_item search_data "search";
    entity ← py_first hits;
    entity_id ← py_item entity "id";
    detail_response ← response_of (wikidata_detail_reply net entity_id);
    if negb (detail_response.1 =? 200)%Z then Ok None else
    entity_data ← json_of detail_response;
    entities ← py_item entity_data "entities";
    entity_details ← py_getitem entities entity_id;
    sitelinks ← py_get entity_details "sitelinks" (PDict []);
    present ← py_contains "enwiki" sitelinks;
    wikipedia_url ←
      (if present : bool then
         enwiki ← py_item sitelinks "enwiki";
         title ← py_item enwiki "title";
         title ← py_underscored title;
         Ok (PStr (lit "https://en.wikipedia.org/wiki/" ++ title)%list)
       else Ok PNone);
    labels ← py_get entity_details "labels" (PDict []);
    en ← py_get labels "en" (PDict []);
    label ← py_get en "value" (PStr []);
    descriptions ← py_get entity_details "descriptions" (PDict []);
    en ← py_get descriptions "en" (PDict []);
    description ← py_get en "value" (PStr []);
    Ok (Some (WikidataRecord entity_name entity_id label description
                (lit "https://www.wikidata.org/wiki/" ++ format entity_id)%list
                wikipedia_url (wikidata_clock net)))).

Definition fetch_openlibrary (entity_name : pystr) : option payload :=
  OfOpenLibrary <$> try_or_none (
    response ← response_of (openlibrary_reply net);
    if negb (response.1 =? 200)%Z then Ok None else
    data ← json_of response;
    docs ← py_get data "docs" PNone;
    if negb (truthy docs) then Ok None else
    docs ← py_item data "docs";
    book ← py_first docs;
    title ← py_get book "title" (PStr entity_name);
    author ← py_get book "author_name" (PList []);
    first_publish_year ← py_get book "first_publish_year" (PStr []);
    subject ← py_get book "subject" (PList []);
    subject ← slice_to 5 subject;
    isbn ← py_get book "isbn" (PList []);
    cover_i ← py_get book "cover_i" PNone;
    cover_url ←
      (if truthy cover_i
       then cover_i ← py_get book "cover_i" (PStr []);
            Ok (PStr (lit "https://covers.openlibrary.org/b/id/"
                      ++ format cover_i ++ lit "-M.jpg")%list)
       else Ok PNone);
    key ← py_get book "key" (PStr []);
    Ok (Some (OlRecord title author first_publish_year subject isbn cover_url
                (lit "https://openlibrary.org" ++ format key)%list
                (openlibrary_clock net)))).

(** The [tasks] dictionary, in insertion order: the key of each source
    with what its task returns. *)
Definition tasks (entity_name entity_type : pystr)
    : list (string * option payload) :=
  let tasks :=
    [("kg", fetch_kg entity_name entity_type);
     ("dbpedia", fetch_dbpedia entity_name);
     ("wikidata", fetch_wikidata entity_name)] in
  if bool_decide (entity_type = lit "WORK_OF_ART")
     || existsb (fun keyword => contains keyword (lower entity_name))
          [lit "book"; lit "novel"; lit "play"]
  then tasks ++ [("openlibrary", fetch_openlibrary entity_name)]
  else tasks.

(** The future submitted for a source. *)
Fixpoint future_of (source : string) (tasks : list (string * option payload))
    : option (option payload) :=
  match tasks with
  | [] => None
  | (name, outcome) :: rest =>
      if String.eqb source name then Some outcome else future_of source rest
  end.

(** The loop over [as_completed]: the futures arrive in [completion]
    order, and each result is stored under the key of its source
    ([future.result()] is itself guarded by a [try]). *)
Definition collect (tasks : list (string * option payload))
    (completion : list string) : gmap string (option payload) :=
  foldl (fun results source =>
           match future_of source tasks with
           | Some outcome => <[source := try_or_none (Ok outcome)]> results
           | None => results
           end) ∅ completion.

(** [results.get(source)] *)
Definition results_get (results : gmap string (option payload))
    (source : string) : option payload :=
  default None (results !! source).

(** A result, read as the dictionary of the provider whose block uses
    it ([None] and any other value count as no data). *)
Definition as_kg (p : option payload) : option kg_record :=
  match p with Some (OfKg r) => Some r | _ => None end.

Definition as_dbpedia (p : option payload) : option dbpedia_record :=
  match p with Some (OfDbpedia r) => Some r | _ => None end.

Definition as_wikidata (p : option payload) : option wikidata_record :=
  match p with Some (OfWikidata r) => Some r | _ => None end.

Definition as_openlibrary (p : option payload) : option ol_record :=
  match p with Some (OfOpenLibrary r) => Some r | _ => None end.

Definition _get_comprehensive_info_parallel
    (entity_name entity_type : pystr) (completion : list string)
    (now : pystr) : result combined :=
  let combined_data :=
    Combined entity_name entity_type PNone PNone PNone [] "low" now
             None None None None None in
  let results := collect (tasks entity_name entity_type) completion in
  (* 1. Google Knowledge Graph *)
  let combined_data :=
    match as_kg (results_get results "kg") with
    | Some kg_data =>
        let c := append_source "Google Knowledge Graph" combined_data in
        let c := set_summary (py_or (kg_detailed_description kg_data)
                                    (kg_description kg_data)) c in
        let c := set_description (kg_description kg_data) c in
        let c := set_url (kg_url kg_data) c in
        let c := set_image_url (kg_image_url kg_data) c in
        let c := set_confidence "very high" c in
        set_kg_confidence_score (kg_confidence kg_data) c
    | None => combined_data
    end in
  (* 2. DBpedia *)
  combined_data ←
    match as_dbpedia (results_get results "dbpedia") with
    | Some dbpedia_data =>
        let c := append_source "DBpedia" combined_data in
        c ← (if negb (truthy (summary c))
             then v ← slice_to 500 (dbp_abstract dbpedia_data);
                  Ok (set_summary v c)
             else Ok c);
        let c := set_dbpedia_uri (PStr (dbp_resource_uri dbpedia_data)) c in
        Ok (if String.eqb (confidence c) "low"
            then set_confidence "high" c else c)
    | None => Ok combined_data
    end;
  (* 3. Wikidata *)
  let combined_data :=
    match as_wikidata (results_get results "wikidata") with
    | Some wikidata_data =>
        let c := append_source "Wikidata" combined_data in
        let c := if negb (truthy (description c))
                 then set_description (wd_description wikidata_data) c
                 else c in
        let c := if negb (truthy (url c))
                    && truthy (wd_wikipedia_url wikidata_data)
                 then set_url (wd_wikipedia_url wikidata_data) c
                 else c in
        let c := set_wikidata_id (wd_wikidata_id wikidata_data) c in
        if String.eqb (confidence c) "low"
        then set_confidence "medium" c else c
    | None => combined_data
    end in
  (* 4. OpenLibrary *)
  let combined_data :=
    match as_openlibrary (results_get results "openlibrary") with
    | Some ol_data =>
        let c := append_source "OpenLibrary" combined_data in
        let c := set_literary_info ol_data c in
        if String.eqb (confidence c) "low"
        then set_confidence "medium" c else c
    | None => combined_data
    end in
  (* Determine confidence *)
  let num_sources := length (sources_consulted combined_data) in
  let combined_data :=
    if (3 <=? num_sources)%nat
    then set_confidence "very high (cross-verified)" combined_data
    else if (num_sources =? 2)%nat
    then set_confidence "high (verified)" combined_data
    else if (num_sources =? 1)%nat
            && consulted "Google Knowledge Graph" combined_data
    then set_confidence "high" combined_data
    else combined_data in
  let combined_data :=
    if (num_sources =? 0)%nat
    then set_confidence "none"
           (set_summary
              (PStr (lit "No information found in authoritative sources"))
              combined_data)
    else combined_data in
  Ok combined_data.

Definition _get_comprehensive_info_sequential
    (entity_name entity_type : pystr) (now : pystr) : result combined :=
  let combined_data :=
    Combined entity_name entity_type PNone PNone PNone [] "low" now
             None None None None None in
  (* 1. Try Google Knowledge Graph first *)
  let combined_data :=
    match get_knowledge_graph_info entity_name entity_type with
    | Some kg_data =>
        let c := append_source "Google Knowledge Graph" combined_data in
        let c := set_summary (py_or (kg_detailed_description kg_data)
                                    (kg_description kg_data)) c in
        let c := set_description (kg_description kg_data) c in
        let c := set_url (kg_url kg_data) c in
        let c := set_image_url (kg_image_url kg_data) c in
        let c := set_confidence "very high" c in
        set_kg_confidence_score (kg_confidence kg_data) c
    | None => combined_data
    end in
  (* 2. Try DBpedia *)
  combined_data ←
    match get_dbpedia_info entity_name with
    | Some dbpedia_data =>
        let c := append_source "DBpedia" combined_data in
        c ← (if negb (truthy (summary c))
             then v ← slice_to 500 (dbp_abstract dbpedia_data);
                  Ok (set_summary v c)
             else Ok c);
        let c := set_dbpedia_uri (PStr (dbp_resource_uri dbpedia_data)) c in
        Ok (if String.eqb (confidence c) "low"
            then set_confidence "high" c else c)
    | None => Ok combined_data
    end;
  (* 3. Try Wikidata Enhanced *)
  let combined_data :=
    match get_wikidata_enhanced entity_name with
    | Some wikidata_data =>
        let c := append_source "Wikidata" combined_data in
        let c := if negb (truthy (description c))
                 then set_description (wd_description wikidata_data) c
                 else c in
        let c := if negb (truthy (url c))
                    && truthy (wd_wikipedia_url wikidata_data)
                 then set_url (wd_wikipedia_url wikidata_data) c
                 else c in
        let c := set_wikidata_id (wd_wikidata_id wikidata_data) c in
        if String.eqb (confidence c) "low"
        then set_confidence "medium" c else c
    | None => combined_data
    end in
  (* 4. For literary works, try OpenLibrary *)
  let combined_data :=
    if bool_decide (entity_type = lit "WORK_OF_ART")
       || existsb (fun keyword => contains keyword (lower entity_name))
            [lit "book"; lit "novel"; lit "play"]
    then
      match get_openlibrary_info entity_name with
      | Some ol_data =>
          let c := append_source "OpenLibrary" combined_data in
          let c := set_literary_info ol_data c in
          if String.eqb (confidence c) "low"
          then set_confidence "medium" c else c
      | None => combined_data
      end
    else combined_data in
  (* Determine overall confidence based on number of sources *)
  let num_sources := length (sources_consulted combined_data) in
  let combined_data :=
    if (3 <=? num_sources)%nat
    then set_confidence "very high (cross-verified)" combined_data
    else if (num_sources =? 2)%nat
    then set_confidence "high (verified)" combined_data
    else if (num_sources =? 1)%nat
            && consulted "Google Knowledge Graph" combined_data
    then set_confidence "high" combined_data
    else combined_data in
  let combined_data :=
    if (num_sources =? 0)%nat
    then set_confidence "none"
           (set_summary
              (PStr (lit "No information found in authoritative sources"))
              combined_data)
    else combined_data in
  Ok combined_data.

(** [get_comprehensive_info]: [completion] is the order in which the
    thread pool finishes the tasks, [now] the clock reading. *)
Definition get_comprehensive_info (entity_name entity_type : pystr)
    (parallel : bool) (completion : list string) (now : pystr)
    : result combined :=
  if parallel
  then _get_comprehensive_info_parallel entity_name entity_type completion now
  else _get_comprehensive_info_sequential entity_name entity_type now.

End Aggregator.

End MultiSource.

(** ** The caches ([database.py]) *)

Module Database.

Local Open Scope Z_scope.

(** *** Analysis cache *)

(** [generate_text_hash]: [encode] raises on a lone surrogate. *)
Definition generate_text_hash `{Interpreter} (text language : pystr)
    : result pystr :=
  let normalized_text := lower (strip text) in
  let hash_input := normalized_text ++ lit "|" ++ language in
  bytes ← utf8 hash_input;
  Ok (Sha256.hexdigest bytes).

(** The string that [generate_text_hash] encodes and hashes. *)
Definition hash_input `{Interpreter} (text language : pystr) : pystr :=
  lower (strip text) ++ lit "|" ++ language.

(** The [analysis_result] dictionary handed to [save_analysis_cache];
    [None] is a key that is not there. *)
Record analysis_result : Type := AnalysisResult {
  ar_cultural_origin : option pyval;
  ar_cross_cultural_connections : option pyval;
  ar_modern_analogy : option pyval;
  ar_timeline_events : option pyval;
  ar_geographic_locations : option pyval;
  ar_key_concepts : option pyval;
  ar_external_resources : option pyval }.

(** [d[key]] and [d.get(key, dflt)] on such a dictionary. *)
Definition item (v : option pyval) : result pyval :=
  match v with
  | Some x => Ok x
  | None => Raise KeyError
  end.

Definition get_or (dflt : pyval) (v : option pyval) : pyval :=
  default dflt v.

(** A row of the [analysis_cache] table.  Instants are microseconds since
    the epoch, the resolution of [datetime.utcnow()]. *)
Record cache_row : Type := CacheRow {
  id : Z;
  text_hash : pystr;
  language : pystr;
  original_text : pystr;
  cultural_origin : pyval;
  cross_cultural_connections : pyval;
  modern_analogy : pyval;
  timeline_events : pyval;
  geographic_locations : pyval;
  key_concepts : pyval;
  external_resources : pyval;
  hit_count : Z;
  created_at : Z;
  last_accessed : Z }.

(** The dictionary returned by a cache hit. *)
Record analysis : Type := Analysis {
  a_cultural_origin : pyval;
  a_cross_cultural_connections : pyval;
  a_modern_analogy : pyval;
  a_timeline_events : pyval;
  a_geographic_locations : pyval;
  a_key_concepts : pyval;
  a_external_resources : pyval }.

(** [timedelta(days=n)] *)
Definition days (n : Z) : Z := n * 86400 * 1000000.

(** Whether each call to the store of one operation goes through; a call
    that does not raises. *)
Record store_env : Type := StoreEnv {
  select_ok : bool;
  rpc_ok : bool;
  upsert_ok : bool }.

(** [.select('*').eq('text_hash', h).eq('language', l).gt('created_at', c)] *)
Definition select_fresh (h l : pystr) (cutoff : Z) (db : list cache_row)
    : list cache_row :=
  filter (fun r => text_hash r = h ∧ language r = l ∧ cutoff < created_at r) db.

(** A row with another id, and a row with one more hit. *)
Definition with_id (i : Z) (r : cache_row) : cache_row :=
  CacheRow i (text_hash r) (language r) (original_text r)
    (cultural_origin r) (cross_cultural_connections r) (modern_analogy r)
    (timeline_events r) (geographic_locations r) (key_concepts r)
    (external_resources r) (hit_count r) (created_at r) (last_accessed r).

Definition hit (r : cache_row) : cache_row :=
  CacheRow (id r) (text_hash r) (language r) (original_text r)
    (cultural_origin r) (cross_cultural_connections r) (modern_analogy r)
    (timeline_events r) (geographic_locations r) (key_concepts r)
    (external_resources r) (hit_count r + 1) (created_at r)
    (last_accessed r).

(** The dictionary that a cache hit returns for a row. *)
Definition analysis_of (r : cache_row) : analysis :=
  Analysis (cultural_origin r) (cross_cultural_connections r)
    (modern_analogy r) (timeline_events r) (geographic_locations r)
    (key_concepts r) (external_resources r).

(** Modelled from the spec: the stored procedure [increment_cache_hit]
    called through [supabase.rpc], whose SQL is not part of the sources:
    the hit count of the row with the given id goes up by one. *)
Definition increment_cache_hit (cache_id : Z) (db : list cache_row)
    : list cache_row :=
  map (fun r => if bool_decide (id r = cache_id) then hit r else r) db.

Section AnalysisCache.

Context `{Interpreter}.

(** The stored procedure behind [rpc('increment_cache_hit', ...)]. *)
Variable increment_rpc : Z -> list cache_row -> list cache_row.

(** [get_cached_analysis]: the result and the table afterwards. *)
Definition get_cached_analysis (env : store_env) (now : Z)
    (db : list cache_row) (text language : pystr)
    : option analysis * list cache_row :=
  match generate_text_hash text language with
  | Raise _ => (None, db)
  | Ok text_hash =>
      let cutoff_date := now - days 30 in
      if negb (select_ok env) then (None, db)
      else
        match select_fresh text_hash language cutoff_date db with
        | cached_entry :: _ =>
            let db :=
              if rpc_ok env then increment_rpc (id cached_entry) db
              else db in
            (Some (Analysis (cultural_origin cached_entry)
                            (cross_cultural_connections cached_entry)
                            (modern_analogy cached_entry)
                            (timeline_events cached_entry)
                            (geographic_locations cached_entry)
                            (key_concepts cached_entry)
                            (external_resources cached_entry)), db)
        | [] => (None, db)
        end
  end.

End AnalysisCache.

(** The id given to a newly inserted row. *)
Definition fresh_id (db : list cache_row) : Z :=
  1 + foldr (fun r m => Z.max (id r) m) 0 db.

(** [.upsert(cache_data, on_conflict='text_hash,language')]: the row with
    the same key takes the new columns and keeps its id; without such a
    row the data is inserted. *)
Fixpoint upsert (cache_data : cache_row) (db : list cache_row)
    : list cache_row :=
  match db with
  | [] => [cache_data]
  | r :: db' =>
      if bool_decide (text_hash r = text_hash cache_data
                      ∧ language r = language cache_data)
      then with_id (id r) cache_data :: db'
      else r :: upsert cache_data db'
  end.

(** The conflict key of a row, and the row stored under a key. *)
Definition key_of (r : cache_row) : pystr * pystr := (text_hash r, language r).

Definition find_key (k : pystr * pystr) (db : list cache_row)
    : option cache_row :=
  head (filter (fun r => key_of r = k) db).

(** [save_analysis_cache]: [now1] and [now2] are the two clock readings
    taken for [created_at] and [last_accessed]. *)
Definition save_analysis_cache `{Interpreter} (env : store_env) (now1 now2 : Z)
    (db : list cache_row) (text language : pystr)
    (analysis_result : analysis_result)
    : option cache_row * list cache_row :=
  let attempt : result cache_row :=
    text_hash ← generate_text_hash text language;
    cultural_origin ← item (ar_cultural_origin analysis_result);
    cross_cultural_connections ←
      item (ar_cross_cultural_connections analysis_result);
    modern_analogy ← item (ar_modern_analogy analysis_result);
    Ok (CacheRow (fresh_id db) text_hash language (firstn 5000 text)
          cultural_origin cross_cultural_connections modern_analogy
          (get_or (PList []) (ar_timeline_events analysis_result))
          (get_or (PList []) (ar_geographic_locations analysis_result))
          (get_or (PList []) (ar_key_concepts analysis_result))
          (get_or (PDict []) (ar_external_resources analysis_result))
          0 now1 now2) in
  match attempt with
  | Raise _ => (None, db)
  | Ok cache_data =>
      if negb (upsert_ok env) then (None, db)
      else
        let db := upsert cache_data db in
        (find_key (key_of cache_data) db, db)
  end.

(** Modelled from the spec: the [analysis_cache_stats] view, whose SQL is
    not part of the sources; its [total_cached_entries] column counts the
    rows of the table. *)
Definition total_cached_entries (db : list cache_row) : Z :=
  Z.of_nat (length db).

(** Modelled from the spec: the stored procedure [cleanup_analysis_cache],
    whose SQL is not part of the sources: it removes the entries older
    than 30 days and returns how many it removed. *)
Definition cleanup_analysis_cache (now : Z) (db : list cache_row)
    : Z * list cache_row :=
  let kept := filter (fun r => now - days 30 <= created_at r) db in
  (Z.of_nat (length db) - Z.of_nat (length kept), kept).

(** [cleanup_expired_cache]; the argument [days_old] is not passed on. *)
Definition cleanup_expired_cache (env : store_env) (now : Z)
    (db : list cache_row) (days_old : Z) : Z * list cache_row :=
  if rpc_ok env then cleanup_analysis_cache now db else (0, db).

(** *** Entity cache *)

(** A row of [entity_cache], as [enrich_entity] writes it. *)
Record entity_row : Type := EntityRow {
  er_entity_name : pystr;
  er_entity_type : pystr;
  er_summary : pyval;
  er_url : pyval;
  er_categories : pyval;
  er_cultural_significance : pyval;
  er_wikidata : pyval;
  er_source : pyval;
  er_created_at : Z }.

(** [get_cached_entity] *)
Definition get_cached_entity (env : store_env)
    (db : gmap (pystr * pystr) entity_row)
    (entity_name entity_type : pystr) : option entity_row :=
  if select_ok env then db !! (entity_name, entity_type) else None.

(** [save_entity_cache]: an upsert on [(entity_name, entity_type)]. *)
Definition save_entity_cache (env : store_env)
    (db : gmap (pystr * pystr) entity_row) (entity_data : entity_row)
    : option entity_row * gmap (pystr * pystr) entity_row :=
  if upsert_ok env
  then (Some entity_data,
        <[(er_entity_name entity_data, er_entity_type entity_data)
          := entity_data]> db)
  else (None, db).

End Database.

(** ** The orchestrator ([nlp_service.py]) *)

Module Nlp.

Import Database.

(** The dictionary returned by [wikipedia_service.enrich_entity], with the
    keys that [enrich_entity] reads; [en_categories] is only present
    after the encyclopedia fallback. *)
Record enrichment : Type := Enrichment {
  en_summary : pyval;
  en_url : pyval;
  en_categories : option pyval;
  en_cultural_significance : pyval;
  en_wikidata : pyval;
  en_source : pyval;
  en_confidence : pyval;
  en_sources_consulted : pyval }.

(** What [enrich_entity] returns: the cached row, or the record freshly
    obtained from the live providers. *)
Inductive enriched : Type :=
| FromCache (cached : entity_row)
| FromProviders (enrichment : enrichment).

(** The [cache_data] dictionary built for a fresh enrichment. *)
Definition cache_row_of (enrichment : enrichment)
    (entity_text entity_type : pystr) (now : Z) : entity_row :=
  EntityRow entity_text entity_type
    (en_summary enrichment) (en_url enrichment)
    (get_or (PList []) (en_categories enrichment))
    (en_cultural_significance enrichment)
    (en_wikidata enrichment) (en_source enrichment) now.

(** [enrich_entity]: [live] is what [wikipedia_service.enrich_entity]
    returns for this entity, [read] and [write] the state of the store at
    the two calls, [now] the clock reading. *)
Definition enrich_entity (read write : store_env) (now : Z)
    (db : gmap (pystr * pystr) entity_row) (live : enrichment)
    (entity_text entity_type : pystr) (use_cache : bool)
    : enriched * gmap (pystr * pystr) entity_row :=
  match (if use_cache
         then get_cached_entity read db entity_text entity_type
         else None) with
  | Some cached => (FromCache cached, db)
  | None =>
      let enrichment := live in
      let db :=
        if truthy (en_summary enrichment)
        then
          let cache_data :=
            EntityRow entity_text entity_type
              (en_summary enrichment) (en_url enrichment)
              (get_or (PList []) (en_categories enrichment))
              (en_cultural_significance enrichment)
              (en_wikidata enrichment) (en_source enrichment) now in
          snd (save_entity_cache write db cache_data)
        else db in
      (FromProviders enrichment, db)
  end.

End Nlp.

(** ** What the merge computes, field by field *)

Module Merge.

Import MultiSource.

Local Open Scope string_scope.

(** Whether the literary catalogue is asked at all. *)
Definition literary `{Interpreter} (entity_name entity_type : pystr) : bool :=
  bool_decide (entity_type = lit "WORK_OF_ART")
  || existsb (fun keyword => contains keyword (lower entity_name))
       [lit "book"; lit "novel"; lit "play"].

(** The record each provider contributes to one lookup, [None] when it
    gives no data. *)
Record responses : Type := Responses {
  kg : option kg_record;
  dbpedia : option dbpedia_record;
  wikidata : option wikidata_record;
  openlibrary : option ol_record }.

Definition responses_of `{Interpreter} (self : service) (net : network)
    (entity_name entity_type : pystr) : responses :=
  Responses (get_knowledge_graph_info self net entity_name entity_type)
    (get_dbpedia_info net entity_name)
    (get_wikidata_enhanced net entity_name)
    (if literary entity_name entity_type
     then get_openlibrary_info net entity_name
     else None).

Arguments responses_of : simpl never.

(** The five blocks of the merge, each as a function of the record
    built so far. *)
Definition kg_block (kg_data : option kg_record) (combined_data : combined)
    : combined :=
  match kg_data with
  | Some kg_data =>
      let c := append_source "Google Knowledge Graph" combined_data in
      let c := set_summary (py_or (kg_detailed_description kg_data)
                                  (kg_description kg_data)) c in
      let c := set_description (kg_description kg_data) c in
      let c := set_url (kg_url kg_data) c in
      let c := set_image_url (kg_image_url kg_data) c in
      let c := set_confidence "very high" c in
      set_kg_confidence_score (kg_confidence kg_data) c
  | None => combined_data
  end.

Definition dbpedia_block (dbpedia_data : option dbpedia_record)
    (combined_data : combined) : result combined :=
  match dbpedia_data with
  | Some dbpedia_data =>
      let c := append_source "DBpedia" combined_data in
      c ← (if negb (truthy (summary c))
           then v ← slice_to 500 (dbp_abstract dbpedia_data);
                Ok (set_summary v c)
           else Ok c);
      let c := set_dbpedia_uri (PStr (dbp_resource_uri dbpedia_data)) c in
      Ok (if String.eqb (confidence c) "low"
          then set_confidence "high" c else c)
  | None => Ok combined_data
  end.

Definition wikidata_block (wikidata_data : option wikidata_record)
    (combined_data : combined) : combined :=
  match wikidata_data with
  | Some wikidata_data =>
      let c := append_source "Wikidata" combined_data in
      let c := if negb (truthy (description c))
               then set_description (wd_description wikidata_data) c
               else c in
      let c := if negb (truthy (url c))
                  && truthy (wd_wikipedia_url wikidata_data)
               then set_url (wd_wikipedia_url wikidata_data) c
               else c in
      let c := set_wikidata_id (wd_wikidata_id wikidata_data) c in
      if String.eqb (confidence c) "low"
      then set_confidence "medium" c else c
  | None => combined_data
  end.

Definition openlibrary_block (ol_data : option ol_record)
    (combined_data : combined) : combined :=
  match ol_data with
  | Some ol_data =>
      let c := append_source "OpenLibrary" combined_data in
      let c := set_literary_info ol_data c in
      if String.eqb (confidence c) "low"
      then set_confidence "medium" c else c
  | None => combined_data
  end.

Definition confidence_block (combined_data : combined) : combined :=
  let num_sources := length (sources_consulted combined_data) in
  let combined_data :=
    if (3 <=? num_sources)%nat
    then set_confidence "very high (cross-verified)" combined_data
    else if (num_sources =? 2)%nat
    then set_confidence "high (verified)" combined_data
    else if (num_sources =? 1)%nat
            && consulted "Google Knowledge Graph" combined_data
    then set_confidence "high" combined_data
    else combined_data in
  if (num_sources =? 0)%nat
  then set_confidence "none"
         (set_summary
            (PStr (lit "No information found in authoritative sources"))
            combined_data)
  else combined_data.

(** The merge of given responses, block after block. *)
Definition merge (r : responses) (entity_name entity_type now : pystr)
    : result combined :=
  c ← dbpedia_block (dbpedia r)
        (kg_block (kg r)
           (Combined entity_name entity_type PNone PNone PNone [] "low" now
                     None None None None None));
  Ok (confidence_block
        (openlibrary_block (openlibrary r) (wikidata_block (wikidata r) c))).

Section Fields.

Variable r : responses.

Definition name_if {A} (o : option A) (name : string) : list string :=
  match o with Some _ => [name] | None => [] end.

(** The providers that responded, in priority order. *)
Definition responders : list string :=
  name_if (kg r) "Google Knowledge Graph" ++ name_if (dbpedia r) "DBpedia"
  ++ name_if (wikidata r) "Wikidata" ++ name_if (openlibrary r) "OpenLibrary".

(** The confidence the code gives to a list of sources: a lone DBpedia
    counts as a lone Knowledge Graph. *)
Definition confidence_of (sources_consulted : list string) : string :=
  match sources_consulted with
  | [] => "none"
  | [source] =>
      if String.eqb source "Google Knowledge Graph"
         || String.eqb source "DBpedia"
      then "high" else "medium"
  | [_; _] => "high (verified)"
  | _ => "very high (cross-verified)"
  end.

(** The summary after the Knowledge Graph block. *)
Definition kg_summary : pyval :=
  match kg r with
  | Some k => py_or (kg_detailed_description k) (kg_description k)
  | None => PNone
  end.

(** The DBpedia block reads the abstract only when that summary is empty. *)
Definition abstract_needed : option pyval :=
  match dbpedia r with
  | Some d => if truthy kg_summary then None else Some (dbp_abstract d)
  | None => None
  end.

Definition no_information : pyval :=
  PStr (lit "No information found in authoritative sources").

(** The merged summary: the Knowledge Graph texts, else the first 500
    characters of the DBpedia abstract; the sentinel without any source. *)
Definition summary_of : result pyval :=
  match responders with
  | [] => Ok no_information
  | _ =>
      match abstract_needed with
      | Some abstract => slice_to 500 abstract
      | None => Ok kg_summary
      end
  end.

(** The one way the merge raises: the DBpedia block slices an abstract
    that is not a sequence. *)
Definition abstract_rejected (e : exn) : Prop :=
  exists d, dbpedia r = Some d /\ truthy kg_summary = false
            /\ slice_to 500 (dbp_abstract d) = Raise e.

(** The merged description: Knowledge Graph, then Wikidata. *)
Definition description_of : pyval :=
  match kg r, wikidata r with
  | Some k, Some w =>
      if truthy (kg_description k) then kg_description k
      else wd_description w
  | Some k, None => kg_description k
  | None, Some w => wd_description w
  | None, None => PNone
  end.

(** The merged URL: Knowledge Graph, then the Wikipedia link of Wikidata. *)
Definition url_of : pyval :=
  let from_kg := match kg r with Some k => kg_url k | None => PNone end in
  match wikidata r with
  | Some w =>
      if negb (truthy from_kg) && truthy (wd_wikipedia_url w)
      then wd_wikipedia_url w else from_kg
  | None => from_kg
  end.

(** The image comes from the Knowledge Graph alone. *)
Definition image_url_of : option pyval := kg_image_url <$> kg r.

(** The record that the merge builds around a summary [s]. *)
Definition merged_record (entity_name entity_type now : pystr) (s : pyval)
    : combined :=
  Combined entity_name entity_type s description_of url_of
    responders (confidence_of responders) now
    image_url_of (kg_confidence <$> kg r)
    ((fun d => PStr (dbp_resource_uri d)) <$> dbpedia r)
    (wd_wikidata_id <$> wikidata r) (openlibrary r).

End Fields.

(** The fields of the combined record that the merge decides. *)
Definition merged_fields (c : combined) :=
  (summary c, description c, url c, image_url c,
   (kg_confidence_score c, dbpedia_uri c, wikidata_id c, literary_info c),
   sources_consulted c, confidence c).

End Merge.

(** ** The aggregator as the specification words it *)

Module Spec.

Import MultiSource.

Local Open Scope string_scope.

(** The confidence table: 3 or more sources, exactly 2, a lone Knowledge
    Graph, any other lone source, no source. *)
Definition confidence_tier (sources_consulted : list string) : string :=
  let n := length sources_consulted in
  if (3 <=? n)%nat then "very high (cross-verified)"
  else if (n =? 2)%nat then "high (verified)"
  else if (n =? 1)%nat
          && existsb (String.eqb "Google Knowledge Graph") sources_consulted
  then "high"
  else if (n =? 1)%nat then "medium"
  else "none".

(** The first non-empty value of a list of candidates given in priority
    order; [None] when there is none. *)
Definition first_non_empty (candidates : list pyval) : pyval :=
  default PNone (head (filter (fun v => truthy v = true) candidates)).

Definition value_of {A} (o : option A) (field : A -> pyval) : list pyval :=
  match o with Some x => [field x] | None => [] end.

(** The long-form texts and the descriptions of the responding providers,
    in priority order. *)
Definition long_form_texts (r : Merge.responses) : list pyval :=
  value_of (Merge.kg r) kg_detailed_description
  ++ value_of (Merge.dbpedia r) dbp_abstract.

Definition short_descriptions (r : Merge.responses) : list pyval :=
  value_of (Merge.kg r) kg_description
  ++ value_of (Merge.wikidata r) wd_description.

(** The summary: the first non-empty long-form text, then the first
    non-empty description. *)
Definition summary (r : Merge.responses) : pyval :=
  first_non_empty (long_form_texts r ++ short_descriptions r).

(** The description: the first non-empty descriptive text in the order
    Knowledge Graph, DBpedia, Wikidata, OpenLibrary, a lower source
    filling the gap left by a higher one. *)
Definition description (r : Merge.responses) : pyval :=
  first_non_empty
    (value_of (Merge.kg r) kg_description
     ++ value_of (Merge.dbpedia r) dbp_abstract
     ++ value_of (Merge.wikidata r) wd_description
     ++ value_of (Merge.openlibrary r) ol_title).

End Spec.

(** ** A concrete interpreter and sample data *)

Module Sample.

Import MultiSource Database.

(** An interpreter whose tables give no case to the characters outside
    ASCII and whose f-strings show a question mark for a value that is not
    a string. *)
Definition plain : Interpreter :=
  {| unicode_lower := fun c => [c];
     unicode_cased := fun _ => false;
     unicode_case_ignorable := fun _ => false;
     str_of := fun _ => lit "?" |}.

(** An interpreter with the entries of the Unicode tables for the
    characters of Latin-1 and for the two letters i of Turkish.  The
    capital letters U+00C0 to U+00DE, which leaves out the multiplication
    sign U+00D7, have their small letters 32 places further; the capital I
    with a dot (U+0130) becomes an i followed by a combining dot; every
    other character, the dotless i (U+0131) among them, is its own
    lower-case form.  Cased are the letters, the two ordinal indicators and
    the micro sign; Case_Ignorable are the diaeresis, the soft hyphen, the
    macron, the acute accent, the middle dot and the cedilla. *)
Definition latin : Interpreter :=
  {| unicode_lower := fun c =>
       if (0xC0 <=? c) && (c <=? 0xDE) && negb (c =? 0xD7) then [c + 32]
       else if c =? 0x130 then [0x69; 0x307]
       else [c];
     unicode_cased := fun c =>
       (c =? 0xAA) || (c =? 0xB5) || (c =? 0xBA)
       || ((0xC0 <=? c) && (c <=? 0xFF)
           && negb (c =? 0xD7) && negb (c =? 0xF7))
       || (c =? 0x130) || (c =? 0x131);
     unicode_case_ignorable := fun c =>
       (c =? 0xA8) || (c =? 0xAD) || (c =? 0xAF) || (c =? 0xB4)
       || (c =? 0xB7) || (c =? 0xB8);
     str_of := fun _ => lit "?" |}.

(** A name in capitals, and the same name in small letters with the
    dotless i, the small letter of Turkish whose capital is the I. *)
Definition istanbul_capitals : pystr := lit "ISTANBUL".
Definition istanbul_small : pystr := 0x131 :: lit "stanbul".

(** The same word with a capital and with a small e with an acute accent. *)
Definition ecole_capital : pystr := 0xC9 :: lit "cole".
Definition ecole_small : pystr := 0xE9 :: lit "cole".

Definition no_key : service := Service PNone.
Definition with_key : service := Service (PStr (lit "k")).

(** JSON values, as [response.json()] decodes them. *)
Definition obj (fields : list (string * pyval)) : pyval :=
  PDict (map (fun field => (lit field.1, field.2)) fields).

Definition str (s : string) : pyval := PStr (lit s).

Definition ok (data : pyval) : reply := Reply 200 (Some data).

Definition stamp : pystr := lit "2025-01-01T00:00:00".

Definition stamped (kg dbpedia wikidata_search : reply)
    (wikidata_detail : pyval -> reply) (openlibrary : reply) : network :=
  Network kg dbpedia wikidata_search wikidata_detail openlibrary
    stamp stamp stamp stamp.

Definition kg_json : pyval :=
  obj [("itemListElement",
        PList [obj [("result",
                     obj [("name", str "Mahatma Gandhi");
                          ("description", str "Indian lawyer");
                          ("detailedDescription",
                           obj [("articleBody",
                                 str "Mohandas Gandhi was an Indian lawyer.");
                                ("url",
                                 str "https://en.wikipedia.org/wiki/Mahatma_Gandhi")]);
                          ("image", obj [("contentUrl", str "https://img/g.jpg")]);
                          ("@type", PList [str "Person"])]);
                    ("resultScore", PInt 1000)]])].

Definition dbpedia_json (abstract : pyval) : pyval :=
  obj [("results",
        obj [("bindings", PList [obj [("abstract", obj [("value", abstract)])]])])].

Definition no_bindings : pyval :=
  obj [("results", obj [("bindings", PList [])])].

Definition wikidata_search_json : pyval :=
  obj [("search", PList [obj [("id", str "Q41567")]])].

Definition wikidata_detail_json : pyval :=
  obj [("entities",
        obj [("Q41567",
              obj [("labels", obj [("en", obj [("value", str "Hamlet")])]);
                   ("descriptions",
                    obj [("en",
                          obj [("value", str "tragedy by William Shakespeare")])]);
                   ("sitelinks", obj [("enwiki", obj [("title", str "Hamlet")])])])])].

Definition openlibrary_json : pyval :=
  obj [("docs",
        PList [obj [("title", str "Hamlet");
                    ("author_name", PList [str "William Shakespeare"]);
                    ("first_publish_year", PInt 1603);
                    ("cover_i", PInt 1);
                    ("key", str "/works/OL1W")]])].

Definition silent : network :=
  stamped NoReply (ok no_bindings) NoReply (fun _ => NoReply)
    (Reply 404 None).

(** Replies that are not what the code expects: a JSON list where an object
    is expected, a body that is not JSON, a search hit without an id, and
    documents that are not a list. *)
Definition malformed : network :=
  stamped (ok (PList [str "itemListElement"])) (Reply 200 None)
    (ok (obj [("search", PList [obj [("label", str "Hamlet")]])]))
    (fun _ => ok PNone) (ok (obj [("docs", PInt 3)])).

Definition a_kg : kg_record :=
  KgRecord (PStr (lit "Mahatma Gandhi")) (PStr (lit "Indian lawyer"))
    (PStr (lit "Mohandas Gandhi was an Indian lawyer."))
    (PStr (lit "https://en.wikipedia.org/wiki/Mahatma_Gandhi"))
    (PStr (lit "https://img/g.jpg")) (PList [PStr (lit "Person")])
    (PInt 1000) (lit "2025-01-01T00:00:00").

Definition a_dbpedia : dbpedia_record :=
  DbpediaRecord (lit "Hamlet") (PStr (lit "Hamlet is a tragedy."))
    (lit "http://dbpedia.org/resource/Hamlet") (lit "2025-01-01T00:00:00").

Definition a_wikidata : wikidata_record :=
  WikidataRecord (lit "Hamlet") (PStr (lit "Q41567")) (PStr (lit "Hamlet"))
    (PStr (lit "tragedy by William Shakespeare"))
    (lit "https://www.wikidata.org/wiki/Q41567")
    (PStr (lit "https://en.wikipedia.org/wiki/Hamlet"))
    (lit "2025-01-01T00:00:00").

Definition an_ol : ol_record :=
  OlRecord (PStr (lit "Hamlet")) (PList [PStr (lit "William Shakespeare")])
    (PInt 1603) (PList []) (PList [])
    (PStr (lit "https://covers.openlibrary.org/b/id/1-M.jpg"))
    (lit "https://openlibrary.org/works/OL1W") (lit "2025-01-01T00:00:00").

Definition only_dbpedia : network :=
  stamped NoReply (ok (dbpedia_json (str "Hamlet is a tragedy."))) NoReply
    (fun _ => NoReply) (Reply 500 None).

Definition only_wikidata : network :=
  stamped NoReply (Reply 503 None) (ok wikidata_search_json)
    (fun _ => ok wikidata_detail_json) NoReply.

Definition dbpedia_and_openlibrary : network :=
  stamped NoReply (ok (dbpedia_json (str "Hamlet is a tragedy.")))
    (ok (obj [("search", PList [])])) (fun _ => NoReply)
    (ok openlibrary_json).

Definition all_four : network :=
  stamped (ok kg_json) (ok (dbpedia_json (str "Hamlet is a tragedy.")))
    (ok wikidata_search_json) (fun _ => ok wikidata_detail_json)
    (ok openlibrary_json).

Definition null_abstract : network :=
  stamped NoReply (ok (dbpedia_json PNone)) NoReply (fun _ => NoReply)
    NoReply.

Definition kg_and_wikidata : network :=
  stamped (ok kg_json) NoReply (ok wikidata_search_json)
    (fun _ => ok wikidata_detail_json) (Reply 404 None).

Definition clock : pystr := lit "2025-01-01T00:00:01".

Definition store_up : store_env := StoreEnv true true true.
Definition rpc_down : store_env := StoreEnv true false true.
Definition store_down : store_env := StoreEnv false false false.

Definition aqueduct : pystr := lit "ancient Roman aqueduct".
Definition english : pystr := lit "en".

Definition an_analysis : analysis_result :=
  AnalysisResult (Some (PStr (lit "Roman engineering")))
    (Some (PStr (lit "Persian qanats"))) (Some (PStr (lit "a water main")))
    (Some (PList [PStr (lit "312 BC")])) None None None.

Definition aqueduct_hash : pystr :=
  Eval vm_compute in
    match generate_text_hash (H:=plain) aqueduct english with
    | Ok h => h
    | Raise _ => []
    end.

(** The row of that text, written at instant [t]. *)
Definition aqueduct_row (t : Z) : cache_row :=
  CacheRow 1 aqueduct_hash english aqueduct
    (PStr (lit "Roman engineering")) (PStr (lit "Persian qanats"))
    (PStr (lit "a water main")) (PList [PStr (lit "312 BC")])
    (PList []) (PList []) (PDict []) 0 t t.

(** The table after one write at instant [t] into an empty table. *)
Definition cached_at (t : Z) : list cache_row :=
  snd (save_analysis_cache (H:=plain) store_up t t [] aqueduct english
         an_analysis).

Definition found : Nlp.enrichment :=
  Nlp.Enrichment (PStr (lit "Hamlet is a tragedy.")) (PStr (lit "https://h"))
    None (PStr (lit "literary")) PNone (PStr (lit "Multi-Source (2 sources)"))
    (PStr (lit "high (verified)")) (PList [PStr (lit "DBpedia")]).

Definition not_found : Nlp.enrichment :=
  Nlp.Enrichment PNone PNone None (PStr (lit "unknown")) PNone PNone
    (PStr (lit "low")) (PList []).

End Sample.

(** ** Text operations of the Python library *)

Module Text.

(** [s.partition(sep)], when [sep] occurs in [s]: the text before its first
    occurrence and the text after it. *)
Fixpoint partition (sep s : pystr) : option (pystr * pystr) :=
  if is_prefix sep s then Some ([], drop (length sep) s)
  else
    match s with
    | [] => None
    | c :: s' =>
        match partition sep s' with
        | Some (before, after) => Some (c :: before, after)
        | None => None
        end
    end.

(** [s.split(sep)] for a non-empty separator: the pieces between the
    occurrences of [sep], found from left to right.  Every cut consumes at
    least one character, so that [length s] steps are enough. *)
Fixpoint split_within (steps : nat) (sep s : pystr) : list pystr :=
  match steps with
  | O => [s]
  | S steps =>
      match partition sep s with
      | Some (before, after) => before :: split_within steps sep after
      | None => [s]
      end
  end.

Definition split (sep s : pystr) : list pystr :=
  split_within (length s) sep s.

(** [sep.join(parts)] *)
Fixpoint join (sep : pystr) (parts : list pystr) : pystr :=
  match parts with
  | [] => []
  | [part] => part
  | part :: parts => part ++ sep ++ join sep parts
  end.

(** [s.replace(old, new)] for a non-empty [old]: the occurrences replaced
    are the ones at which [split] cuts. *)
Definition replace (old new s : pystr) : pystr := join new (split old s).

(** [s.endswith(suffix)] *)
Definition endswith (s suffix : pystr) : bool :=
  is_prefix (rev suffix) (rev s).

(** [xs[:n]]: a negative [n] counts from the end. *)
Definition upto {A} (n : Z) (xs : list A) : list A :=
  if (0 <=? n)%Z then firstn (Z.to_nat n) xs
  else firstn (length xs - Z.to_nat (- n)) xs.

(** [len(x)] *)
Definition py_len (x : pyval) : result nat :=
  match x with
  | PStr s => Ok (length s)
  | PList xs => Ok (length xs)
  | PDict kvs => Ok (length (remove_dups kvs.*1))
  | _ => Raise TypeError
  end.

(** [a + b] *)
Definition py_add (a b : pyval) : result pyval :=
  let as_int v :=
    match v with
    | PInt z => Some z
    | PBool b => Some (if b then 1 else 0)%Z
    | _ => None
    end in
  match a, b with
  | PStr x, PStr y => Ok (PStr (x ++ y))
  | PList x, PList y => Ok (PList (x ++ y))
  | _, _ =>
      match as_int a, as_int b with
      | Some x, Some y => Ok (PInt (x + y))
      | _, _ => Raise TypeError
      end
  end.

(** [v.lower()]: only strings have the method. *)
Definition py_lower `{Interpreter} (v : pyval) : result pystr :=
  match v with
  | PStr s => Ok (lower s)
  | _ => Raise AttributeError
  end.

(** [any(word in text for word in words)] *)
Definition any_in (words : list string) (text : pystr) : bool :=
  existsb (fun word => contains (lit word) text) words.

End Text.

(** ** The encyclopedia service, [wikipedia_service.py] *)

Module Wikipedia.

Import MultiSource Text.

Local Open Scope string_scope.

(** A page object of the [wikipediaapi] library.  An attribute is fetched
    when it is read, and reading it can raise; [categories] stands for the
    keys of the dictionary of categories, in its order. *)
Record page : Type := Page {
  page_exists : result bool;
  page_summary : result pystr;
  fullurl : result pyval;
  categories : result (list pystr) }.

(** What the service meets during one lookup: the page that the library
    gives for a title, the reply to the search request, the reply to the
    Wikidata request and the clock reading stamped on the record. *)
Record encyclopedia : Type := Encyclopedia {
  wiki_page : pyval -> result page;
  search_reply : reply;
  wikidata_reply : reply;
  wiki_clock : pystr }.

(** The dictionary that [get_entity_summary] returns. *)
Record wiki_data : Type := WikiData {
  w_entity_name : pystr;
  w_entity_type : pystr;
  w_summary : pystr;
  w_url : pyval;
  w_categories : list pystr;
  w_cultural_significance : string;
  w_source : string;
  w_retrieved_at : pystr }.

(** The dictionary that [get_wikidata_info] returns. *)
Record wikidata_info : Type := WikidataInfo {
  wi_wikidata_id : pyval;
  wi_description : pyval;
  wi_url : pystr }.

(** [_extract_summary] *)
Definition _extract_summary (full_summary : pystr) (max_sentences : Z)
    : pystr :=
  if negb (truthy (PStr full_summary)) then []
  else
    (* Split by sentences (simple approach) *)
    let sentences := split (lit ". ") full_summary in
    (* Take first N sentences *)
    let summary := join (lit ". ") (upto max_sentences sentences) in
    (* Ensure it ends with a period *)
    let summary :=
      if negb (endswith summary (lit ".")) then (summary ++ lit ".")%list
      else summary in
    (* Limit length to ~300 characters for tooltips *)
    let summary :=
      if (300 <? length summary)%nat
      then (firstn 297 summary ++ lit "...")%list
      else summary in
    summary.

Definition cultural_keywords : list string :=
  ["history"; "historical"; "culture"; "cultural"; "literature";
   "literary"; "mythology"; "mythological"; "ancient"; "classical";
   "philosophy"; "philosophical"; "religion"; "religious"; "art";
   "architecture"; "tradition"; "folklore"; "legend"].

(** [_get_cultural_categories]: reading [page.categories] is the one step
    of the loop that can raise, before any category is kept. *)
Definition _get_cultural_categories `{Interpreter} (page : page)
    : list pystr :=
  match categories page with
  | Ok keys =>
      filter (fun cat_name => any_in cultural_keywords (lower cat_name) = true)
        (map (fun category => replace (lit "Category:") [] category) keys)
  | Raise _ => []
  end.

(** [_classify_cultural_significance] *)
Definition _classify_cultural_significance `{Interpreter}
    (entity_type : pystr) (categories : list pystr) : string :=
  (* Check categories for specific themes *)
  let categories_text := lower (join (lit " ") categories) in
  if any_in ["mythology"; "mythological"; "folklore"] categories_text
  then "mythological"
  else if any_in ["ancient"; "classical"; "medieval"] categories_text
  then "historical"
  else if any_in ["literature"; "literary"; "novel"; "poetry"]
            categories_text
  then "literary"
  else if any_in ["philosophy"; "philosophical"] categories_text
  then "philosophical"
  else if any_in ["religion"; "religious"; "spiritual"] categories_text
  then "religious"
  else if bool_decide (entity_type = lit "WORK_OF_ART") then "artistic"
  else if bool_decide (entity_type ∈ [lit "PERSON"; lit "ORG"])
  then "biographical"
  else if bool_decide (entity_type ∈ [lit "GPE"; lit "LOC"])
  then "geographical"
  else "general".

Section Service.

Context `{Interpreter}.
Variable world : encyclopedia.

(** [_search_wikipedia]: the list of titles, or whatever stands at index 1
    of the decoded reply. *)
Definition _search_wikipedia (query : pystr) : pyval :=
  let body : result pyval :=
    response ← response_of (search_reply world);
    if (response.1 =? 200)%Z then
      data ← json_of response;
      n ← py_len data;
      if (1 <? n)%nat then py_getitem data (PInt 1) else Ok (PList [])
    else Ok (PList []) in
  match body with
  | Ok titles => titles
  | Raise _ => PList []
  end.

(** [get_entity_summary] *)
Definition get_entity_summary (entity_name entity_type : pystr)
    : option wiki_data :=
  try_or_none (
    (* Clean entity name for better search *)
    let clean_name := strip entity_name in
    (* Fetch Wikipedia page *)
    page ← wiki_page world (PStr clean_name);
    found ← page_exists page;
    page ←
      (if negb found then
         (* Try search if direct lookup fails *)
         let search_results := _search_wikipedia clean_name in
         if truthy search_results then
           title ← py_first search_results;
           page ← wiki_page world title;
           Ok (Some page)
         else Ok None
       else Ok (Some page));
    match page with
    | None => Ok None
    | Some page =>
        (* Extract summary (first few sentences) *)
        full_summary ← page_summary page;
        let summary := _extract_summary full_summary 3 in
        (* Get categories for cultural classification *)
        let categories := _get_cultural_categories page in
        (* Determine cultural significance *)
        let significance :=
          _classify_cultural_significance entity_type categories in
        url ← fullurl page;
        Ok (Some (WikiData entity_name entity_type summary url
                    (firstn 5 categories) significance "Wikipedia"
                    (wiki_clock world)))
    end).

(** [get_wikidata_info] *)
Definition get_wikidata_info (entity_name : pystr) : option wikidata_info :=
  try_or_none (
    response ← response_of (wikidata_reply world);
    if negb (response.1 =? 200)%Z then Ok None else
    search_data ← json_of response;
    found ← py_get search_data "search" PNone;
    if negb (truthy found) then Ok None else
    (* Get first result *)
    hits ← py_item search_data "search";
    hit ← py_first hits;
    entity_id ← py_item hit "id";
    hits ← py_item search_data "search";
    hit ← py_first hits;
    description ← py_get hit "description" (PStr []);
    Ok (Some (WikidataInfo entity_id description
                (lit "https://www.wikidata.org/wiki/" ++ format entity_id)%list))).

(** [_classify_from_multi_source]: the combined record has no key
    ["types"], so that [kg_types] is the default. *)
Definition _classify_from_multi_source (entity_type : pystr)
    (multi_data : combined) : result string :=
  (* Check literary info first *)
  if bool_decide (is_Some (literary_info multi_data)) then Ok "literary"
  else
    (* Check Knowledge Graph types *)
    let kg_types : list pystr := [] in
    let types_str := lower (join (lit " ") kg_types) in
    if contains (lit "book") types_str
       || contains (lit "creativework") types_str
    then Ok "literary"
    else if contains (lit "person") types_str then Ok "biographical"
    else if contains (lit "place") types_str then Ok "geographical"
    else if contains (lit "event") types_str then Ok "historical"
    else
      (* Check description for keywords *)
      text ← py_add (description multi_data) (PStr (lit " "));
      text ← py_add text (summary multi_data);
      description ← py_lower text;
      if any_in ["mythology"; "mythological"; "folklore"; "legend"]
           description
      then Ok "mythological"
      else if any_in ["ancient"; "classical"; "medieval"; "historical"]
                description
      then Ok "historical"
      else if any_in ["philosophy"; "philosophical"; "philosopher"]
                description
      then Ok "philosophical"
      else if any_in ["religion"; "religious"; "spiritual"; "sacred"]
                description
      then Ok "religious"
      (* Fallback to entity type *)
      else if bool_decide (entity_type = lit "WORK_OF_ART") then Ok "artistic"
      else if bool_decide (entity_type ∈ [lit "PERSON"; lit "ORG"])
      then Ok "biographical"
      else if bool_decide (entity_type ∈ [lit "GPE"; lit "LOC"])
      then Ok "geographical"
      else Ok "general".

End Service.

(** The keys that the multi-source update adds to [enriched_data]; a key
    that the combined record lacks is read as [None]. *)
Record multi_keys : Type := MultiKeys {
  mk_description : pyval;
  mk_image_url : pyval;
  mk_wikidata_id : pyval;
  mk_dbpedia_uri : pyval;
  mk_literary_info : option ol_record }.

(** The [enriched_data] dictionary.  [ed_multi] holds the keys written by
    the multi-source update, [ed_categories] and [ed_retrieved_at] the ones
    written by the Wikipedia update, when these updates took place. *)
Record enriched_record : Type := EnrichedData {
  ed_entity_name : pystr;
  ed_entity_type : pystr;
  ed_summary : pyval;
  ed_url : pyval;
  ed_wikidata : option wikidata_info;
  ed_cultural_significance : string;
  ed_source : option pystr;
  ed_confidence : string;
  ed_sources_consulted : list string;
  ed_multi : option multi_keys;
  ed_categories : option (list pystr);
  ed_retrieved_at : option pystr }.

Definition set_cultural_significance (v : string) (d : enriched_record)
    : enriched_record :=
  EnrichedData (ed_entity_name d) (ed_entity_type d) (ed_summary d)
    (ed_url d) (ed_wikidata d) v (ed_source d) (ed_confidence d)
    (ed_sources_consulted d) (ed_multi d) (ed_categories d)
    (ed_retrieved_at d).

(** [enriched_data.update({...})] with the fields of [multi_data]. *)
Definition update_from_multi `{Interpreter} (multi_data : combined)
    (d : enriched_record) : enriched_record :=
  EnrichedData (ed_entity_name d) (ed_entity_type d)
    (py_or (summary multi_data) (description multi_data))
    (url multi_data) (ed_wikidata d) (ed_cultural_significance d)
    (Some (lit "Multi-Source ("
           ++ format (PInt (Z.of_nat (length (sources_consulted multi_data))))
           ++ lit " sources)")%list)
    (confidence multi_data) (sources_consulted multi_data)
    (Some (MultiKeys (description multi_data)
             (default PNone (image_url multi_data))
             (default PNone (wikidata_id multi_data))
             (default PNone (dbpedia_uri multi_data))
             (literary_info multi_data)))
    (ed_categories d) (ed_retrieved_at d).

(** [enriched_data.update(wiki_data)], then the source appended and the
    confidence set. *)
Definition update_from_wikipedia (wiki_data : wiki_data) (d : enriched_record)
    : enriched_record :=
  EnrichedData (w_entity_name wiki_data) (w_entity_type wiki_data)
    (PStr (w_summary wiki_data)) (w_url wiki_data) (ed_wikidata d)
    (w_cultural_significance wiki_data) (Some (lit (w_source wiki_data)))
    "medium (Wikipedia only)" (ed_sources_consulted d ++ ["Wikipedia"])%list
    (ed_multi d) (Some (w_categories wiki_data))
    (Some (w_retrieved_at wiki_data)).

(** The assignments of the last resort. *)
Definition update_from_wikidata (wikidata_info : wikidata_info)
    (d : enriched_record) : enriched_record :=
  EnrichedData (ed_entity_name d) (ed_entity_type d)
    (wi_description wikidata_info) (PStr (wi_url wikidata_info))
    (Some wikidata_info) (ed_cultural_significance d) (Some (lit "Wikidata"))
    "low (Wikidata only)" (ed_sources_consulted d ++ ["Wikidata"])%list
    (ed_multi d) (ed_categories d) (ed_retrieved_at d).

Section Enrich.

Context `{Interpreter}.
Variable self : service.
Variable net : network.
Variable completion : list string.
Variable now : pystr.
Variable world : encyclopedia.

(** The multi-source attempt of [enrich_entity]: the dictionary after it,
    and whether the function returns there. *)
Definition multi_source_attempt (entity_name entity_type : pystr)
    (enriched_data : enriched_record) : enriched_record * bool :=
  match get_comprehensive_info self net entity_name entity_type true
          completion now with
  | Ok multi_data =>
      if match sources_consulted multi_data with [] => false | _ => true end
      then
        (* Multi-source found data - prioritize this *)
        let enriched_data := update_from_multi multi_data enriched_data in
        (* Classify cultural significance from available data *)
        match _classify_from_multi_source entity_type multi_data with
        | Ok significance =>
            (set_cultural_significance significance enriched_data, true)
        | Raise _ => (enriched_data, false)
        end
      else (enriched_data, false)
  | Raise _ => (enriched_data, false)
  end.

(** [enrich_entity] *)
Definition enrich_entity (entity_name entity_type : pystr)
    (use_multi_source : bool) : enriched_record :=
  let enriched_data :=
    EnrichedData entity_name entity_type PNone PNone None "unknown" None
      "low" [] None None None in
  (* Try multi-source lookup first (more accurate and up-to-date) *)
  let '(enriched_data, returned) :=
    if use_multi_source
    then multi_source_attempt entity_name entity_type enriched_data
    else (enriched_data, false) in
  if returned : bool then enriched_data
  else
    (* Fallback to Wikipedia-only approach *)
    match get_entity_summary world entity_name entity_type with
    | Some wiki_data => update_from_wikipedia wiki_data enriched_data
    | None =>
        (* Last resort: try Wikidata only *)
        match get_wikidata_info world entity_name with
        | Some wikidata_info =>
            update_from_wikidata wikidata_info enriched_data
        | None => enriched_data
        end
    end.

(** The fallbacks of [enrich_entity], applied to the dictionary [d] that
    they find. *)
Definition after_fallback (entity_name entity_type : pystr)
    (d : enriched_record) : enriched_record :=
  match get_entity_summary world entity_name entity_type with
  | Some wiki_data => update_from_wikipedia wiki_data d
  | None =>
      match get_wikidata_info world entity_name with
      | Some wikidata_info => update_from_wikidata wikidata_info d
      | None => d
      end
  end.

End Enrich.

End Wikipedia.

(** ** Purge of the entity cache, [database.py] *)

Module EntityStore.

Import Database.

Local Open Scope Z_scope.

(** The instants that [datetime] can hold, in microseconds since the
    epoch: from 0001-01-01T00:00:00 to 9999-12-31T23:59:59.999999. *)
Definition datetime_min : Z := - 719162 * 86400 * 1000000.
Definition datetime_max : Z := 2932897 * 86400 * 1000000 - 1.

(** [datetime.utcnow() - timedelta(days=days_old)]: [timedelta] takes at
    most 999999999 days, in either direction, and the difference must be
    an instant that [datetime] can hold; otherwise [OverflowError]. *)
Definition days_before (now days_old : Z) : option Z :=
  if Z.abs days_old <=? 999999999 then
    let cutoff := now - days days_old in
    if (datetime_min <=? cutoff) && (cutoff <=? datetime_max)
    then Some cutoff else None
  else None.

(** [clear_old_entity_cache]: [delete_ok] tells whether the store carries
    the deletion out; the rows whose [created_at] is before the cutoff
    go. *)
Definition clear_old_entity_cache (delete_ok : bool) (now : Z)
    (db : gmap (pystr * pystr) entity_row) (days_old : Z)
    : gmap (pystr * pystr) entity_row :=
  match days_before now days_old with
  | Some cutoff_date =>
      if delete_ok
      then filter (fun entry => ¬ (er_created_at entry.2 < cutoff_date)) db
      else db
  | None => db
  end.

End EntityStore.

(** ** Entity detection and the analysis of a text, [nlp_service.py] *)

Module Pipeline.

Import MultiSource Database Wikipedia.

Local Open Scope string_scope.

(** An entity span of the document that the language model returns. *)
Record span : Type := Span {
  sp_text : pystr;
  label_ : pystr;
  start_char : Z;
  end_char : Z }.

(** A detected entity; its [confidence] is the constant 1.0. *)
Record entity : Type := Entity {
  e_text : pystr;
  e_type : pystr;
  e_start : Z;
  e_end : Z;
  e_confidence : Z }.

(** The service object: the loaded language model ([None] when loading
    failed), which maps a text to its entity spans or raises. *)
Record nlp_service : Type := NlpService {
  nlp : option (pystr -> result (list span)) }.

(** Define culturally relevant entity types *)
Definition cultural_entity_types : list pystr :=
  [lit "PERSON"; lit "ORG"; lit "GPE"; lit "LOC"; lit "EVENT";
   lit "WORK_OF_ART"; lit "FAC"; lit "NORP"; lit "LANGUAGE"].

(** Minimum entity length to avoid noise *)
Definition min_entity_length : nat := 3.

(** Common words to exclude (avoid false positives) *)
Definition exclude_words : list pystr :=
  [lit "the"; lit "a"; lit "an"; lit "and"; lit "or"; lit "but"; lit "in";
   lit "on"; lit "at"; lit "to"; lit "for"; lit "of"; lit "with"; lit "by";
   lit "from"; lit "up"; lit "about"; lit "into"].

(** One turn of the loop over [doc.ents]: the list [entities] and the set
    [seen_entities] after it. *)
Definition visit `{Interpreter}
    (state : list entity * gset (pystr * pystr)) (ent : span)
    : list entity * gset (pystr * pystr) :=
  let '(entities, seen_entities) := state in
  (* Filter by relevant entity types *)
  if negb (bool_decide (label_ ent ∈ cultural_entity_types)) then state
  else
    (* Clean entity text *)
    let entity_text := strip (sp_text ent) in
    (* Skip short or common words *)
    if (length entity_text <? min_entity_length)%nat then state
    else if bool_decide (lower entity_text ∈ exclude_words) then state
    else
      (* Deduplicate (case-insensitive) *)
      let entity_key := (lower entity_text, label_ ent) in
      if bool_decide (entity_key ∈ seen_entities) then state
      else
        ((entities
          ++ [Entity entity_text (label_ ent) (start_char ent) (end_char ent)
                1])%list,
         {[entity_key]} ∪ seen_entities).

(** [extract_entities] *)
Definition extract_entities `{Interpreter} (self : nlp_service)
    (text : pystr) : list entity :=
  match nlp self with
  | None => []
  | Some model =>
      match model text with
      | Ok ents => (foldl visit ([], ∅) ents).1
      | Raise _ => []
      end
  end.

(** The entity that a span gives when it is kept, the key under which it
    is remembered, and what makes a span worth keeping. *)
Definition candidate (ent : span) : entity :=
  Entity (strip (sp_text ent)) (label_ ent) (start_char ent) (end_char ent) 1.

Definition entity_key `{Interpreter} (entity : entity) : pystr * pystr :=
  (lower (e_text entity), e_type entity).

Definition eligible `{Interpreter} (ent : span) : Prop :=
  label_ ent ∈ cultural_entity_types
  /\ (min_entity_length <= length (strip (sp_text ent)))%nat
  /\ lower (strip (sp_text ent)) ∉ exclude_words.

(** What the loop maintains: the set of seen keys is the set of the keys
    of the entities kept, which are pairwise distinct. *)
Definition tidy `{Interpreter}
    (state : list entity * gset (pystr * pystr)) : Prop :=
  (forall key, key ∈ state.2 <-> key ∈ entity_key <$> state.1)
  /\ NoDup (entity_key <$> state.1).

(** The enrichment dictionary of the encyclopedia service, with the keys
    that [enrich_entity] reads. *)
Definition as_enrichment (d : enriched_record) : Nlp.enrichment :=
  Nlp.Enrichment (ed_summary d) (ed_url d)
    ((fun categories => PList (PStr <$> categories)) <$> ed_categories d)
    (PStr (lit (ed_cultural_significance d)))
    (match ed_wikidata d with
     | Some info =>
         PDict [(lit "wikidata_id", wi_wikidata_id info);
                (lit "description", wi_description info);
                (lit "url", PStr (wi_url info))]
     | None => PNone
     end)
    (match ed_source d with Some s => PStr s | None => PNone end)
    (PStr (lit (ed_confidence d)))
    (PList ((fun source => PStr (lit source)) <$> ed_sources_consulted d)).

(** What one call of [enrich_entity] meets: the store at its read and at
    its write, the clock, and the providers and the encyclopedia as the
    lookup finds them. *)
Record moment : Type := Moment {
  read : store_env;
  write : store_env;
  clock : Z;
  net : network;
  completion : list string;
  stamp : pystr;
  world : encyclopedia }.

(** A detected entity with the four keys taken from its enrichment. *)
Record enriched_entity : Type := EnrichedEntity {
  detected : entity;
  summary_shown : pyval;
  url_shown : pyval;
  significance_shown : pyval;
  source_shown : pyval }.

(** [{**entity, "summary": enrichment.get("summary"), ...}]: the
    enrichment is a row of the cache or a fresh record. *)
Definition with_enrichment (entity : entity) (enrichment : Nlp.enriched)
    : enriched_entity :=
  match enrichment with
  | Nlp.FromCache cached =>
      EnrichedEntity entity (er_summary cached) (er_url cached)
        (er_cultural_significance cached) (er_source cached)
  | Nlp.FromProviders fresh =>
      EnrichedEntity entity (Nlp.en_summary fresh) (Nlp.en_url fresh)
        (Nlp.en_cultural_significance fresh) (Nlp.en_source fresh)
  end.

(** The entities beyond the limit, added without enrichment. *)
Definition without_enrichment (entity : entity) : enriched_entity :=
  EnrichedEntity entity PNone PNone (PStr (lit "unknown")) PNone.

(** The dictionary that [analyze_text_with_entities] returns. *)
Record entity_analysis : Type := EntityAnalysis {
  detected_entities : list enriched_entity;
  enriched_count : nat;
  total_detected : nat }.

Section Analysis.

Context `{Interpreter}.
Variable self : nlp_service.
Variable multi_source_service : service.

(** The moment of the call made for the entity of index [i]. *)
Variable moments : nat -> moment.

(** [enrich_entity] of the service, at a moment: the method of
    [nlp_service.py], whose fresh record is the one that
    [wikipedia_service.enrich_entity] returns. *)
Definition enrich_entity (m : moment)
    (db : gmap (pystr * pystr) entity_row)
    (entity_text entity_type : pystr) (use_cache : bool)
    : Nlp.enriched * gmap (pystr * pystr) entity_row :=
  Nlp.enrich_entity (read m) (write m) (clock m) db
    (as_enrichment
       (Wikipedia.enrich_entity multi_source_service (net m) (completion m)
          (stamp m) (world m) entity_text entity_type true))
    entity_text entity_type use_cache.

(** The loop [for i, entity in enumerate(entities[:max_enrich])], from
    index [i]. *)
Fixpoint enrich_each (i : nat) (entities : list entity)
    (db : gmap (pystr * pystr) entity_row)
    : list enriched_entity * gmap (pystr * pystr) entity_row :=
  match entities with
  | [] => ([], db)
  | entity :: entities =>
      let '(enrichment, db) :=
        enrich_entity (moments i) db (e_text entity) (e_type entity) true in
      (* Combine extraction and enrichment *)
      let enriched := with_enrichment entity enrichment in
      let '(enriched_entities, db) := enrich_each (S i) entities db in
      (enriched :: enriched_entities, db)
  end.

(** [analyze_text_with_entities], with the entity cache before and after
    it. *)
Definition analyze_text_with_entities
    (db : gmap (pystr * pystr) entity_row) (text : pystr)
    (enrich_all : bool)
    : entity_analysis * gmap (pystr * pystr) entity_row :=
  (* Extract entities *)
  let entities := extract_entities self text in
  match entities with
  | [] => (EntityAnalysis [] 0 0, db)
  | _ =>
      (* Enrich entities (limit to avoid long processing times) *)
      let max_enrich := if enrich_all then 10%nat else 5%nat in
      let '(enriched_entities, db) :=
        enrich_each 0 (firstn max_enrich entities) db in
      (* Add remaining entities without full enrichment *)
      let enriched_entities :=
        if (max_enrich <? length entities)%nat
        then (enriched_entities
              ++ (without_enrichment <$> skipn max_enrich entities))%list
        else enriched_entities in
      (EntityAnalysis enriched_entities
         (Nat.min (length entities) max_enrich) (length entities), db)
  end.

(** A highlight region and its tooltip. *)
Record highlight : Type := Highlight {
  hl_start : Z;
  hl_end : Z;
  hl_text : pystr;
  hl_type : pystr;
  tooltip_title : pystr;
  tooltip_summary : pyval;
  tooltip_significance : pyval;
  tooltip_url : pyval;
  tooltip_source : pyval }.

(** [get_entity_highlights]: every entity of the analysis has the keys
    that the tooltip reads, so that no default is used. *)
Definition get_entity_highlights
    (db : gmap (pystr * pystr) entity_row) (text : pystr)
    : list highlight * gmap (pystr * pystr) entity_row :=
  let '(result, db) := analyze_text_with_entities db text false in
  ((fun entity =>
      Highlight (e_start (detected entity)) (e_end (detected entity))
        (e_text (detected entity)) (e_type (detected entity))
        (e_text (detected entity)) (summary_shown entity)
        (significance_shown entity) (url_shown entity)
        (source_shown entity)) <$> detected_entities result, db).

End Analysis.

End Pipeline.

(** ** The text endpoints, [main.py] *)

Module Api.

Import MultiSource Database Wikipedia Pipeline.

(** What an endpoint gives: a body, or an [HTTPException] with its status
    code. *)
Inductive http (A : Type) : Type :=
| Answer (body : A)
| HTTPException (status_code : Z).

Arguments Answer {A} body.
Arguments HTTPException {A} status_code.

(** The guard of the three text endpoints:
    [not text or len(text.strip()) < 10]. *)
Definition too_short (text : pystr) : bool :=
  negb (truthy (PStr text)) || (length (strip text) <? 10)%nat.

(** [request.language or "en"] *)
Definition language_or_en (language : option pystr) : pystr :=
  match language with
  | Some l => if truthy (PStr l) then l else lit "en"
  | None => lit "en"
  end.

(** The dictionary of a cache hit, read as an analysis result: all its
    keys are there. *)
Definition as_result (cached : analysis) : analysis_result :=
  AnalysisResult (Some (a_cultural_origin cached))
    (Some (a_cross_cultural_connections cached))
    (Some (a_modern_analogy cached)) (Some (a_timeline_events cached))
    (Some (a_geographic_locations cached)) (Some (a_key_concepts cached))
    (Some (a_external_resources cached)).

(** The [analysis_data] dictionary; [ad_user_id] is the key that
    [save_analysis] adds. *)
Record analysis_data : Type := AnalysisData {
  ad_input_text : pystr;
  ad_language : option pystr;
  ad_cultural_origin : pyval;
  ad_cross_cultural_connections : pyval;
  ad_modern_analogy : pyval;
  ad_image_url : pyval;
  ad_timeline_events : pyval;
  ad_geographic_locations : pyval;
  ad_key_concepts : pyval;
  ad_external_resources : pyval;
  ad_detected_entities : list enriched_entity;
  ad_created_at : pystr;
  ad_user_id : option pyval }.

Definition with_user_id (user_id : pyval) (d : analysis_data)
    : analysis_data :=
  AnalysisData (ad_input_text d) (ad_language d) (ad_cultural_origin d)
    (ad_cross_cultural_connections d) (ad_modern_analogy d) (ad_image_url d)
    (ad_timeline_events d) (ad_geographic_locations d) (ad_key_concepts d)
    (ad_external_resources d) (ad_detected_entities d) (ad_created_at d)
    (Some user_id).

Section Endpoints.

Context `{Interpreter}.

(** The rows of the [analyses] table, as the store returns them. *)
Variable Row : Type.

(** [supabase.table('analyses').insert(d).execute()]: the rows of the
    response, or an exception. *)
Variable insert : analysis_data -> result (list Row).

(** [save_analysis], of [database.py]: an exception of the store is
    raised again. *)
Definition save_analysis (analysis_data : analysis_data) (user_id : pyval)
    : result (option Row) :=
  let analysis_data :=
    if truthy user_id then with_user_id user_id analysis_data
    else analysis_data in
  data ← insert analysis_data;
  Ok (head data).

Variable increment_rpc : Z -> list cache_row -> list cache_row.
Variable self : nlp_service.
Variable multi_source_service : service.

(** What one request meets: the store at the read of the analysis cache
    and the clock then, the outcome of the call to the language model,
    the store at the write and its two clock readings, the moments of the
    entity lookups and the clock reading stamped on the analysis. *)
Record circumstances : Type := Circumstances {
  cache_read : store_env;
  read_at : Z;
  gemini : result analysis_result;
  cache_write : store_env;
  written_at : Z * Z;
  moments : nat -> moment;
  created : pystr }.

Variable now : circumstances.

(** The first step of [analyze_text]: the analysis from the cache or from
    the language model, and the table of the cache afterwards. *)
Definition cached_or_fresh (cache : list cache_row) (text language : pystr)
    : result analysis_result * list cache_row :=
  (* Check Supabase persistent cache first *)
  let '(cached_result, cache) :=
    get_cached_analysis increment_rpc (cache_read now) (read_at now) cache
      text language in
  match cached_result with
  | Some cached_result => (Ok (as_result cached_result), cache)
  | None =>
      (* Call Gemini API *)
      match gemini now with
      | Ok analysis_result =>
          (* Save to Supabase cache for future requests *)
          (Ok analysis_result,
           (save_analysis_cache (cache_write now) (written_at now).1
              (written_at now).2 cache text language analysis_result).2)
      | Raise e => (Raise e, cache)
      end
  end.

(** [analyze_text]: the answer, and the two caches after the request. *)
Definition analyze_text (text : pystr) (language : option pystr)
    (current_user : pyval) (cache : list cache_row)
    (entities : gmap (pystr * pystr) entity_row)
    : http (option Row) * list cache_row * gmap (pystr * pystr) entity_row :=
  if too_short text then (HTTPException 400, cache, entities)
  else
    let '(analysis_result, cache) :=
      cached_or_fresh cache text (language_or_en language) in
    match analysis_result with
    | Raise _ => (HTTPException 500, cache, entities)
    | Ok analysis_result =>
        (* Extract and enrich cultural entities with NLP *)
        let '(entity_analysis, entities) :=
          analyze_text_with_entities self multi_source_service (moments now)
            entities text true in
        (* Prepare data for Supabase *)
        let saved_analysis : result (option Row) :=
          cultural_origin ← item (ar_cultural_origin analysis_result);
          cross_cultural_connections ←
            item (ar_cross_cultural_connections analysis_result);
          modern_analogy ← item (ar_modern_analogy analysis_result);
          let analysis_data :=
            AnalysisData text language cultural_origin
              cross_cultural_connections modern_analogy PNone
              (get_or (PList []) (ar_timeline_events analysis_result))
              (get_or (PList []) (ar_geographic_locations analysis_result))
              (get_or (PList []) (ar_key_concepts analysis_result))
              (get_or (PDict []) (ar_external_resources analysis_result))
              (detected_entities entity_analysis) (created now) None in
          (* Save to Supabase with user_id *)
          user_id ← py_item current_user "id";
          save_analysis analysis_data user_id in
        match saved_analysis with
        | Ok saved_analysis => (Answer saved_analysis, cache, entities)
        | Raise _ => (HTTPException 500, cache, entities)
        end
    end.

(** [extract_entities], the endpoint *)
Definition extract_entities (text : pystr)
    (entities : gmap (pystr * pystr) entity_row)
    : http entity_analysis * gmap (pystr * pystr) entity_row :=
  if too_short text then (HTTPException 400, entities)
  else
    let '(result, entities) :=
      analyze_text_with_entities self multi_source_service (moments now)
        entities text true in
    (Answer (EntityAnalysis (detected_entities result)
               (enriched_count result) (total_detected result)), entities).

(** [get_entity_highlights], the endpoint: the highlights and their
    count. *)
Definition get_entity_highlights (text : pystr)
    (entities : gmap (pystr * pystr) entity_row)
    : http (list highlight * nat) * gmap (pystr * pystr) entity_row :=
  if too_short text then (HTTPException 400, entities)
  else
    let '(highlights, entities) :=
      Pipeline.get_entity_highlights self multi_source_service (moments now)
        entities text in
    (Answer (highlights, length highlights), entities).

End Endpoints.

End Api.

(** ** Sample pages, documents and requests *)

Module Cases.

Import MultiSource Database Wikipedia Pipeline Api Sample.

(** No provider answers with status 200. *)
Definition unreachable : network :=
  stamped NoReply (Reply 503 None) (Reply 404 None) (fun _ => NoReply)
    (Reply 500 (Some (PList []))).

Definition hamlet_page : page :=
  Page (Ok true)
    (Ok (lit "Hamlet is a tragedy by William Shakespeare. It is set in Denmark."))
    (Ok (PStr (lit "https://en.wikipedia.org/wiki/Hamlet")))
    (Ok [lit "Category:English Renaissance plays";
         lit "Category:Plays set in medieval Denmark"]).

(** An encyclopedia with that page under every title, and one that cannot
    be reached. *)
Definition with_page : encyclopedia :=
  Encyclopedia (fun _ => Ok hamlet_page) NoReply NoReply stamp.

Definition offline : encyclopedia :=
  Encyclopedia (fun _ => Raise ConnectionError) NoReply NoReply stamp.

Definition blank (entity_name entity_type : pystr) : enriched_record :=
  EnrichedData entity_name entity_type PNone PNone None "unknown" None "low"
    [] None None None.

(** The combined record of a lookup, a blank one if the lookup raises. *)
Definition record_of (self : service) (net : network)
    (entity_name entity_type : pystr) (completion : list string)
    : combined :=
  match get_comprehensive_info (H:=plain) self net entity_name entity_type
          true completion clock with
  | Ok c => c
  | Raise _ =>
      Combined entity_name entity_type PNone PNone PNone [] "low" clock None
        None None None None
  end.

Definition hamlet_from_dbpedia : combined :=
  Eval vm_compute in
    record_of no_key only_dbpedia (lit "Hamlet") (lit "MISC")
      ["kg"; "dbpedia"; "wikidata"].

Definition gandhi_from_two : combined :=
  Eval vm_compute in
    record_of with_key kg_and_wikidata (lit "Mahatma Gandhi") (lit "PERSON")
      ["wikidata"; "kg"; "dbpedia"].

(** A language model that finds four spans in every text. *)
Definition reader : nlp_service :=
  NlpService
    (Some (fun _ =>
             Ok [Span (lit "Rome") (lit "GPE") 4 8;
                 Span (lit "the") (lit "ORG") 10 13;
                 Span (lit " rome") (lit "GPE") 20 25;
                 Span (lit "Hamlet") (lit "WORK_OF_ART") 30 36])).

Definition a_text : pystr := lit "Did Rome, the city, or rome inspire Hamlet?".

Definition rome : entity := Entity (lit "Rome") (lit "GPE") 4 8 1.

(** Lookups during which the store works, the four providers answer and
    the encyclopedia has a page; and lookups that find nothing. *)
Definition lucky : moment :=
  Moment store_up store_up 1000 all_four
    ["wikidata"; "kg"; "dbpedia"; "openlibrary"] stamp with_page.

Definition unlucky : moment :=
  Moment store_up store_up 2000 silent ["kg"; "dbpedia"; "wikidata"] stamp
    offline.

(** What [rome] is given at a lucky moment. *)
Definition rome_enrichment : Nlp.enrichment :=
  as_enrichment
    (Wikipedia.enrich_entity (H:=plain) with_key all_four
       ["wikidata"; "kg"; "dbpedia"; "openlibrary"] stamp with_page
       (lit "Rome") (lit "GPE") true).

(** A store of analyses that answers every insertion with one row. *)
Definition one_row (d : analysis_data) : result (list Z) := Ok [7%Z].

(** A request that finds the language model down, and one that finds it
    up. *)
Definition model_down : circumstances :=
  Circumstances store_up (days 1) (Raise ConnectionError) store_up
    (days 1, days 1) (fun _ => lucky) clock.

Definition model_up : circumstances :=
  Circumstances store_up (days 1) (Ok an_analysis) store_up
    (days 1, days 1) (fun _ => lucky) clock.

Definition a_user : pyval := PDict [(lit "id", PInt 3)].

End Cases.

(** * Properties *)

(** Case analysis on the truth values and slices met by the merge. *)
Ltac bind_cases :=
  match goal with
  | |- context [bind ?r _] => destruct r; cbn [bind]
  | |- context [if ?b then _ else _] => destruct b
  end.

Ltac merge_cases :=
  repeat (unfold py_or;
          match goal with
          | E : truthy ?v = _ |- context [truthy ?v] => rewrite E
          | E : slice_to ?n ?v = _ |- context [slice_to ?n ?v] => rewrite E
          | |- context [truthy ?v] => is_var v; destruct (truthy v) eqn:?
          | |- context [slice_to ?n ?v] => destruct (slice_to n v) eqn:?
          end; cbn).

(** ** The results dictionary of the parallel body *)

Section Collect.

Import MultiSource.

Lemma future_of_named source tasks outcome :
  future_of source tasks = Some outcome -> source ∈ tasks.*1.
Proof.
  induction tasks as [|[name o] rest IH]; cbn; [discriminate|].
  destruct (String.eqb source name) eqn:E.
  - apply String.eqb_eq in E as ->. intros _. left.
  - intros Hf. right. auto.
Qed.

Lemma collect_from tasks completion (acc : gmap string (option payload))
    source :
  foldl (fun results source =>
           match future_of source tasks with
           | Some outcome => <[source := try_or_none (Ok outcome)]> results
           | None => results
           end) acc completion !! source
  = match future_of source tasks with
    | Some outcome =>
        if decide (source ∈ completion) then Some outcome else acc !! source
    | None => acc !! source
    end.
Proof.
  revert acc. induction completion as [|x l IH]; intros acc; cbn.
  - destruct (future_of source tasks); [|done].
    rewrite decide_False; [done|]. apply not_elem_of_nil.
  - rewrite IH. destruct (future_of source tasks) as [o|] eqn:Es.
    + destruct (decide (source ∈ l)) as [Hin|Hout].
      * rewrite decide_True; [done|]. by right.
      * destruct (decide (x = source)) as [->|Hne].
        -- rewrite Es, lookup_insert_eq, decide_True; [done|]. left.
        -- rewrite decide_False.
           ++ destruct (future_of x tasks); [|done].
              by rewrite lookup_insert_ne.
           ++ intros [->|?]%elem_of_cons; done.
    + destruct (future_of x tasks) as [o|] eqn:Ex; [|done].
      rewrite lookup_insert_ne; [done|]. congruence.
Qed.

(** Once every submitted future has completed, whatever the order, the
    results dictionary holds the outcome of each task under its key. *)
Lemma results_get_collect tasks completion source :
  completion ≡ₚ tasks.*1 ->
  results_get (collect tasks completion) source
  = default None (future_of source tasks).
Proof.
  intros Hperm. unfold results_get, collect. rewrite collect_from.
  rewrite lookup_empty.
  destruct (future_of source tasks) as [o|] eqn:E; [|done].
  rewrite decide_True; [done|].
  rewrite Hperm. eapply future_of_named; eassumption.
Qed.

End Collect.


(** ** The merge, in closed form *)

Section MergeFacts.

Import MultiSource Merge.

Context `{Interpreter}.

#[local] Arguments kg_block : simpl never.
#[local] Arguments dbpedia_block : simpl never.
#[local] Arguments wikidata_block : simpl never.
#[local] Arguments openlibrary_block : simpl never.
#[local] Arguments confidence_block : simpl never.

Lemma merge_closed_form r entity_name entity_type now :
  merge r entity_name entity_type now
  = s ← summary_of r; Ok (merged_record r entity_name entity_type now s).
Proof.
  destruct r as [[[]|] [[]|] [[]|] [o|]];
  unfold merge, merged_record, summary_of, abstract_needed, kg_summary,
    description_of, url_of, image_url_of, responders; cbn.
  all: unfold kg_block; cbn; merge_cases.
  all: unfold dbpedia_block; cbn; merge_cases.
  all: unfold wikidata_block; cbn; merge_cases.
  all: unfold openlibrary_block; cbn; merge_cases.
  all: unfold confidence_block; cbn.
  all: reflexivity.
Qed.

Lemma sequential_merge self net entity_name entity_type now :
  _get_comprehensive_info_sequential self net entity_name entity_type now
  = merge (responses_of self net entity_name entity_type)
      entity_name entity_type now.
Proof.
  unfold _get_comprehensive_info_sequential, merge, responses_of.
  change (bool_decide (entity_type = lit "WORK_OF_ART") || _)
    with (literary entity_name entity_type).
  cbn [kg dbpedia wikidata openlibrary].
  destruct (literary entity_name entity_type);
    unfold kg_block, dbpedia_block, wikidata_block, openlibrary_block,
      confidence_block; cbv zeta; reflexivity.
Qed.

Lemma future_of_tasks self net entity_name entity_type :
  let tasks := tasks self net entity_name entity_type in
  future_of "kg" tasks = Some (fetch_kg self net entity_name entity_type)
  /\ future_of "dbpedia" tasks = Some (fetch_dbpedia net entity_name)
  /\ future_of "wikidata" tasks = Some (fetch_wikidata net entity_name)
  /\ future_of "openlibrary" tasks
     = if literary entity_name entity_type
       then Some (fetch_openlibrary net entity_name) else None.
Proof.
  unfold tasks, literary.
  destruct (bool_decide (entity_type = lit "WORK_OF_ART") || _); cbn; auto.
Qed.

(** The closures return what the methods return. *)
Lemma fetch_kg_method self net entity_name entity_type :
  fetch_kg self net entity_name entity_type
  = OfKg <$> get_knowledge_graph_info self net entity_name entity_type.
Proof.
  unfold fetch_kg, get_knowledge_graph_info.
  by destruct (truthy (kg_api_key self)).
Qed.

(** The closure of Wikidata looks at the site links before the label and
    the description, the method after them: an exception raised by either
    is caught by the same handler. *)
Lemma fetch_wikidata_method net entity_name :
  fetch_wikidata net entity_name
  = OfWikidata <$> get_wikidata_enhanced net entity_name.
Proof.
  unfold fetch_wikidata, get_wikidata_enhanced,
    _get_wikipedia_url_from_sitelinks.
  f_equal. unfold mbind, result_bind.
  repeat bind_cases; reflexivity.
Qed.

Lemma fetch_results self net entity_name entity_type :
  as_kg (fetch_kg self net entity_name entity_type)
  = get_knowledge_graph_info self net entity_name entity_type
  /\ as_dbpedia (fetch_dbpedia net entity_name)
     = get_dbpedia_info net entity_name
  /\ as_wikidata (fetch_wikidata net entity_name)
     = get_wikidata_enhanced net entity_name
  /\ as_openlibrary (fetch_openlibrary net entity_name)
     = get_openlibrary_info net entity_name.
Proof.
  rewrite fetch_kg_method, fetch_wikidata_method.
  unfold fetch_dbpedia, fetch_openlibrary.
  fold (get_dbpedia_info net entity_name).
  fold (get_openlibrary_info net entity_name).
  destruct (get_knowledge_graph_info self net entity_name entity_type),
    (get_dbpedia_info net entity_name),
    (get_wikidata_enhanced net entity_name),
    (get_openlibrary_info net entity_name); auto.
Qed.

Lemma parallel_blocks self net entity_name entity_type completion now :
  _get_comprehensive_info_parallel self net entity_name entity_type
    completion now
  = let results :=
      collect (tasks self net entity_name entity_type) completion in
    merge (Responses (as_kg (results_get results "kg"))
             (as_dbpedia (results_get results "dbpedia"))
             (as_wikidata (results_get results "wikidata"))
             (as_openlibrary (results_get results "openlibrary")))
      entity_name entity_type now.
Proof.
  unfold _get_comprehensive_info_parallel, merge, kg_block, dbpedia_block,
    wikidata_block, openlibrary_block, confidence_block.
  cbv zeta. reflexivity.
Qed.

Lemma parallel_merge self net entity_name entity_type completion now :
  completion ≡ₚ (tasks self net entity_name entity_type).*1 ->
  _get_comprehensive_info_parallel self net entity_name entity_type
    completion now
  = merge (responses_of self net entity_name entity_type)
      entity_name entity_type now.
Proof.
  intros Hperm.
  destruct (future_of_tasks self net entity_name entity_type)
    as (Hkg & Hdb & Hwd & Hol).
  destruct (fetch_results self net entity_name entity_type)
    as (Fkg & Fdb & Fwd & Fol).
  rewrite parallel_blocks. cbv zeta.
  rewrite !(results_get_collect _ _ _ Hperm), Hkg, Hdb, Hwd, Hol.
  unfold responses_of. cbn [from_option id].
  rewrite Fkg, Fdb, Fwd.
  destruct (literary entity_name entity_type); cbn [from_option id].
  - by rewrite Fol.
  - reflexivity.
Qed.

(** Both bodies compute the merge of the responses. *)
Lemma get_comprehensive_info_merge self net entity_name entity_type
    parallel completion now :
  (parallel = true ->
   completion ≡ₚ (tasks self net entity_name entity_type).*1) ->
  get_comprehensive_info self net entity_name entity_type parallel
    completion now
  = merge (responses_of self net entity_name entity_type)
      entity_name entity_type now.
Proof.
  intros Hperm. unfold get_comprehensive_info. destruct parallel.
  - apply parallel_merge; auto.
  - apply sequential_merge.
Qed.

End MergeFacts.

(** ** The aggregator *)

Section AggregatorFacts.

Import MultiSource Merge.

Context `{Interpreter}.
Variable self : service.
Variable net : network.
Variables entity_name entity_type : pystr.

Local Abbreviation r := (responses_of self net entity_name entity_type).
Local Abbreviation all_done completion :=
  (completion ≡ₚ (tasks self net entity_name entity_type).*1).

Lemma summary_of_raise (r : responses) e :
  summary_of r = Raise e -> abstract_rejected r e.
Proof.
  unfold summary_of, abstract_rejected, abstract_needed.
  destruct (responders r); [discriminate|].
  destruct (dbpedia r) as [d|]; [|discriminate].
  destruct (truthy (kg_summary r)); [discriminate|].
  intros Hs. eauto.
Qed.

Lemma summary_of_ok (r : responses) :
  (forall d, dbpedia r = Some d -> sliceable (dbp_abstract d) = true) ->
  exists s, summary_of r = Ok s.
Proof.
  intros Hd. unfold summary_of, abstract_needed.
  destruct (responders r); [eauto|].
  destruct (dbpedia r) as [d|]; [|eauto].
  destruct (truthy (kg_summary r)); [eauto|].
  specialize (Hd d eq_refl). destruct (dbp_abstract d); cbn in *; eauto;
    discriminate.
Qed.

(** The outcome of a lookup, in either mode. *)
Lemma get_comprehensive_info_closed_form parallel completion now :
  (parallel = true -> all_done completion) ->
  get_comprehensive_info self net entity_name entity_type parallel
    completion now
  = s ← summary_of r; Ok (merged_record r entity_name entity_type now s).
Proof.
  intros Hdone. rewrite get_comprehensive_info_merge by done.
  apply merge_closed_form.
Qed.

Lemma confidence_of_table (r : responses) :
  confidence_of (responders r)
  = if bool_decide (responders r = ["DBpedia"]) then "high"%string
    else Spec.confidence_tier (responders r).
Proof. destruct r as [[k|] [d|] [w|] [o|]]; reflexivity. Qed.

Lemma fields_without_kg_and_wikidata (r : responses) :
  kg r = None -> wikidata r = None ->
  description_of r = PNone /\ url_of r = PNone /\ image_url_of r = None.
Proof.
  destruct r as [k d w o]. cbn. intros -> ->. done.
Qed.

Lemma summary_from_kg (r : responses) s k :
  summary_of r = Ok s -> kg r = Some k ->
  (truthy (kg_detailed_description k) = true ->
   s = kg_detailed_description k)
  /\ (dbpedia r = None ->
      s = py_or (kg_detailed_description k) (kg_description k)).
Proof.
  destruct r as [k' d w o]. cbn. intros Hs ->.
  unfold summary_of, abstract_needed, kg_summary, responders in Hs.
  cbn in Hs. split.
  - intros Hdd. unfold py_or in Hs. rewrite Hdd in Hs.
    destruct d; rewrite ?Hdd in Hs; congruence.
  - intros ->. congruence.
Qed.

Lemma summary_from_dbpedia (r : responses) s d :
  summary_of r = Ok s -> dbpedia r = Some d ->
  truthy (kg_summary r) = false -> slice_to 500 (dbp_abstract d) = Ok s.
Proof.
  unfold summary_of, abstract_needed, responders. intros Hs Hd Hk.
  rewrite Hd, Hk in Hs. by destruct (kg r).
Qed.

Lemma summary_without_kg_and_dbpedia (r : responses) s :
  summary_of r = Ok s ->
  kg r = None -> dbpedia r = None -> responders r <> [] -> s = PNone.
Proof.
  unfold summary_of, abstract_needed, kg_summary. intros Hs Hk Hd Hr.
  rewrite Hk, Hd in Hs. destruct (responders r); [done|]. congruence.
Qed.

Lemma summary_without_responders (r : responses) s :
  summary_of r = Ok s -> responders r = [] -> s = no_information.
Proof.
  unfold summary_of. intros Hs Hr. rewrite Hr in Hs. congruence.
Qed.

End AggregatorFacts.

Section AggregatorClaims.

Import MultiSource Merge.

Context `{Interpreter}.
Variable self : service.
Variable net : network.
Variables entity_name entity_type : pystr.

Local Abbreviation r := (responses_of self net entity_name entity_type).

(** C1, as amended: in both modes the combined record lists the providers
    that responded, in priority order, and its confidence is that of the
    table of the specification with one change: a lone DBpedia yields
    "high", as a lone Knowledge Graph does ("medium" is for a lone Wikidata
    or OpenLibrary).  The call yields no record only when the DBpedia block
    slices an abstract that is not a sequence. *)
Theorem confidence_from_sources_consulted parallel completion now :
  (parallel = true ->
   completion ≡ₚ (tasks self net entity_name entity_type).*1) ->
  match get_comprehensive_info self net entity_name entity_type parallel
          completion now with
  | Ok c =>
      sources_consulted c = responders r
      /\ confidence c
         = if bool_decide (sources_consulted c = ["DBpedia"])
           then "high"%string
           else Spec.confidence_tier (sources_consulted c)
  | Raise e => abstract_rejected r e
  end.
Proof.
  intros Hdone. rewrite get_comprehensive_info_closed_form by done.
  destruct (summary_of r) as [s|e] eqn:Hs; cbn.
  - split; [reflexivity|]. apply confidence_of_table.
  - by apply summary_of_raise.
Qed.

(** C2, as amended: whichever providers fail, time out, answer with an
    error status, with no data or with JSON of the wrong shape, and for
    every entity name, the empty one included, the call returns a record,
    provided that a DBpedia abstract, when DBpedia answers, is a string or
    a list.  The aggregator rejects no entity name. *)
Theorem comprehensive_info_returns parallel completion now :
  (parallel = true ->
   completion ≡ₚ (tasks self net entity_name entity_type).*1) ->
  (forall d, get_dbpedia_info net entity_name = Some d ->
             sliceable (dbp_abstract d) = true) ->
  exists c,
    get_comprehensive_info self net entity_name entity_type parallel
      completion now = Ok c.
Proof.
  intros Hdone Hd. rewrite get_comprehensive_info_closed_form by done.
  destruct (summary_of_ok r Hd) as [s ->]. cbn. eauto.
Qed.

(** C3, as amended: the description is the Knowledge Graph description
    when that provider responds with a non-empty one, else the Wikidata
    description when Wikidata responds; the URL is the Knowledge Graph URL
    when non-empty, else the Wikipedia link found by Wikidata; the image
    URL comes from the Knowledge Graph alone.  DBpedia and OpenLibrary
    supply none of the three: when only they respond, the description and
    the URL are [None] and there is no image URL. *)
Theorem description_url_image_by_priority parallel completion now :
  (parallel = true ->
   completion ≡ₚ (tasks self net entity_name entity_type).*1) ->
  match get_comprehensive_info self net entity_name entity_type parallel
          completion now with
  | Ok c =>
      description c = description_of r
      /\ url c = url_of r
      /\ image_url c = image_url_of r
      /\ (kg r = None -> wikidata r = None ->
          description c = PNone /\ url c = PNone /\ image_url c = None)
  | Raise e => abstract_rejected r e
  end.
Proof.
  intros Hdone. rewrite get_comprehensive_info_closed_form by done.
  destruct (summary_of r) as [s|e] eqn:Hs; cbn.
  - split; [done|]. split; [done|]. split; [done|].
    apply (fields_without_kg_and_wikidata r).
  - by apply summary_of_raise.
Qed.

(** C4, as amended: with at least one responding provider, the summary is
    the Knowledge Graph detailed description when that is non-empty; when
    the Knowledge Graph supplies no text at all (it is absent, or both of
    its texts are empty) and DBpedia responds, it is the first 500
    characters of the DBpedia abstract; when the Knowledge Graph responds
    and DBpedia does not, it is the Knowledge Graph detailed description
    or else its description.  Wikidata and OpenLibrary never supply the
    summary: when neither the Knowledge Graph nor DBpedia responds it
    stays [None].  Without any provider it is the sentinel. *)
Theorem summary_by_priority parallel completion now :
  (parallel = true ->
   completion ≡ₚ (tasks self net entity_name entity_type).*1) ->
  match get_comprehensive_info self net entity_name entity_type parallel
          completion now with
  | Ok c =>
      (forall k, kg r = Some k ->
         truthy (kg_detailed_description k) = true ->
         summary c = kg_detailed_description k)
      /\ (forall k, kg r = Some k -> dbpedia r = None ->
            summary c = py_or (kg_detailed_description k) (kg_description k))
      /\ (forall d, dbpedia r = Some d -> truthy (kg_summary r) = false ->
            slice_to 500 (dbp_abstract d) = Ok (summary c))
      /\ (kg r = None -> dbpedia r = None -> responders r <> [] ->
          summary c = PNone)
      /\ (responders r = [] -> summary c = no_information)
  | Raise e => abstract_rejected r e
  end.
Proof.
  intros Hdone. rewrite get_comprehensive_info_closed_form by done.
  destruct (summary_of r) as [s|e] eqn:Hs; cbn;
    [|by apply summary_of_raise].
  split; [intros k Hk; by apply (summary_from_kg r s k)|].
  split; [intros k Hk; by apply (summary_from_kg r s k)|].
  split; [intros d; by apply (summary_from_dbpedia r)|].
  split.
  - by apply (summary_without_kg_and_dbpedia r).
  - by apply (summary_without_responders r).
Qed.

(** C9: once every submitted task has completed, in whatever order, the
    parallel body returns what the sequential body returns, the same
    record or the same exception; and the merged fields do not depend on
    the clock readings of the two runs. *)
Theorem parallel_agrees_with_sequential completion now now' :
  completion ≡ₚ (tasks self net entity_name entity_type).*1 ->
  _get_comprehensive_info_parallel self net entity_name entity_type
    completion now
  = _get_comprehensive_info_sequential self net entity_name entity_type now
  /\ map_result merged_fields
       (_get_comprehensive_info_parallel self net entity_name entity_type
          completion now)
     = map_result merged_fields
         (_get_comprehensive_info_sequential self net entity_name
            entity_type now').
Proof.
  intros Hdone. rewrite parallel_merge by done.
  rewrite !sequential_merge. split; [reflexivity|].
  rewrite !merge_closed_form. by destruct (summary_of r).
Qed.

End AggregatorClaims.

(** ** The aggregator on sample lookups *)

Section AggregatorSamples.

Import MultiSource Merge Sample.

Local Open Scope string_scope.

Lemma confidence_from_sources_consulted_witness :
  (true = true ->
   ["openlibrary"; "wikidata"; "kg"; "dbpedia"]
   ≡ₚ (tasks (H:=plain) with_key all_four (lit "Hamlet")
         (lit "WORK_OF_ART")).*1)
  /\ match get_comprehensive_info (H:=plain) with_key all_four
             (lit "Hamlet") (lit "WORK_OF_ART") true
             ["openlibrary"; "wikidata"; "kg"; "dbpedia"] clock with
     | Ok c =>
         sources_consulted c
         = responders (responses_of (H:=plain) with_key all_four
                         (lit "Hamlet") (lit "WORK_OF_ART"))
         /\ confidence c
            = if bool_decide (sources_consulted c = ["DBpedia"])
              then "high"
              else Spec.confidence_tier (sources_consulted c)
     | Raise e =>
         abstract_rejected
           (responses_of (H:=plain) with_key all_four (lit "Hamlet")
              (lit "WORK_OF_ART")) e
     end.
Proof.
  assert (Hdone : true = true ->
            ["openlibrary"; "wikidata"; "kg"; "dbpedia"]
            ≡ₚ (tasks (H:=plain) with_key all_four (lit "Hamlet")
                  (lit "WORK_OF_ART")).*1).
  { intros _. vm_compute. solve_Permutation. }
  split; [exact Hdone|].
  exact (confidence_from_sources_consulted (H:=plain) with_key all_four
           (lit "Hamlet") (lit "WORK_OF_ART") true
           ["openlibrary"; "wikidata"; "kg"; "dbpedia"] clock Hdone).
Defined.

(** A lone DBpedia is rated "high", where the table of the specification
    says "medium". *)
Lemma lone_dbpedia_rated_high :
  exists c,
    get_comprehensive_info (H:=plain) no_key only_dbpedia (lit "Hamlet")
      (lit "MISC") true ["dbpedia"; "kg"; "wikidata"] clock = Ok c
    /\ sources_consulted c = ["DBpedia"]
    /\ confidence c = "high"
    /\ Spec.confidence_tier (sources_consulted c) = "medium"
    /\ confidence c <> Spec.confidence_tier (sources_consulted c).
Proof.
  eexists. split; [vm_compute; reflexivity|]. cbn. repeat split. discriminate.
Qed.

Lemma comprehensive_info_returns_witness :
  (false = true ->
   [] ≡ₚ (tasks (H:=plain) with_key all_four [] (lit "WORK_OF_ART")).*1)
  /\ (forall d, get_dbpedia_info all_four [] = Some d ->
                sliceable (dbp_abstract d) = true)
  /\ exists c,
       get_comprehensive_info (H:=plain) with_key all_four []
         (lit "WORK_OF_ART") false [] clock = Ok c.
Proof.
  assert (Hdone : false = true ->
            [] ≡ₚ (tasks (H:=plain) with_key all_four []
                     (lit "WORK_OF_ART")).*1) by discriminate.
  assert (Hd : forall d, get_dbpedia_info all_four [] = Some d ->
                         sliceable (dbp_abstract d) = true).
  { intros d Hd. vm_compute in Hd. by injection Hd as <-. }
  split; [exact Hdone|]. split; [exact Hd|].
  exact (comprehensive_info_returns (H:=plain) with_key all_four []
           (lit "WORK_OF_ART") false [] clock Hdone Hd).
Defined.

(** The empty entity name is looked up like any other: the call returns,
    so it does not fail exactly on the empty name. *)
Lemma empty_entity_name_accepted :
  ~ (is_ok (get_comprehensive_info (H:=plain) no_key silent []
              (lit "MISC") true ["kg"; "dbpedia"; "wikidata"] clock) = false
     <-> ([] : pystr) = []).
Proof.
  intros [_ Hfails]. specialize (Hfails eq_refl).
  vm_compute in Hfails. discriminate.
Qed.

(** The records that the provider calls build from the sample replies. *)
Lemma sample_records :
  get_knowledge_graph_info with_key all_four (lit "Mahatma Gandhi")
    (lit "PERSON") = Some a_kg
  /\ get_dbpedia_info all_four (lit "Hamlet") = Some a_dbpedia
  /\ get_wikidata_enhanced (H:=plain) all_four (lit "Hamlet")
     = Some a_wikidata
  /\ get_openlibrary_info (H:=plain) all_four (lit "Hamlet") = Some an_ol.
Proof. vm_compute. done. Qed.

(** Replies of the wrong shape count as no data: the lookup returns a
    record without sources, in either mode. *)
Lemma malformed_replies_tolerated parallel :
  exists c,
    get_comprehensive_info (H:=plain) with_key malformed (lit "Hamlet")
      (lit "WORK_OF_ART") parallel
      ["kg"; "dbpedia"; "wikidata"; "openlibrary"] clock = Ok c
    /\ sources_consulted c = []
    /\ confidence c = "none"
    /\ summary c = no_information.
Proof.
  destruct parallel; (eexists; split; [vm_compute; reflexivity|]); by cbn.
Qed.

(** A DBpedia answer whose abstract is JSON [null] makes the merge raise,
    in either mode. *)
Lemma null_abstract_raises parallel :
  get_comprehensive_info (H:=plain) no_key null_abstract (lit "Hamlet") (lit "MISC") parallel ["kg"; "dbpedia"; "wikidata"] clock
  = Raise TypeError.
Proof. destruct parallel; vm_compute; reflexivity. Qed.

Lemma description_url_image_by_priority_witness :
  (true = true ->
   ["dbpedia"; "openlibrary"; "kg"; "wikidata"]
   ≡ₚ (tasks (H:=plain) with_key all_four (lit "Hamlet")
         (lit "WORK_OF_ART")).*1)
  /\ match get_comprehensive_info (H:=plain) with_key all_four
             (lit "Hamlet") (lit "WORK_OF_ART") true
             ["dbpedia"; "openlibrary"; "kg"; "wikidata"] clock with
     | Ok c =>
         let r := responses_of (H:=plain) with_key all_four (lit "Hamlet")
                    (lit "WORK_OF_ART") in
         description c = description_of r
         /\ url c = url_of r
         /\ image_url c = image_url_of r
         /\ (kg r = None -> wikidata r = None ->
             description c = PNone /\ url c = PNone /\ image_url c = None)
     | Raise e =>
         abstract_rejected
           (responses_of (H:=plain) with_key all_four (lit "Hamlet")
              (lit "WORK_OF_ART")) e
     end.
Proof.
  assert (Hdone : true = true ->
            ["dbpedia"; "openlibrary"; "kg"; "wikidata"]
            ≡ₚ (tasks (H:=plain) with_key all_four (lit "Hamlet")
                  (lit "WORK_OF_ART")).*1).
  { intros _. vm_compute. solve_Permutation. }
  split; [exact Hdone|].
  exact (description_url_image_by_priority (H:=plain) with_key all_four
           (lit "Hamlet") (lit "WORK_OF_ART") true
           ["dbpedia"; "openlibrary"; "kg"; "wikidata"] clock Hdone).
Defined.

(** When only DBpedia and OpenLibrary respond, the description is [None]:
    it does not come from DBpedia, whose abstract is not empty. *)
Lemma description_not_from_dbpedia :
  let r := responses_of (H:=plain) no_key dbpedia_and_openlibrary
             (lit "Hamlet") (lit "WORK_OF_ART") in
  exists c,
    get_comprehensive_info (H:=plain) no_key dbpedia_and_openlibrary
      (lit "Hamlet") (lit "WORK_OF_ART") false [] clock = Ok c
    /\ sources_consulted c = ["DBpedia"; "OpenLibrary"]
    /\ description c = PNone
    /\ Spec.description r = dbp_abstract a_dbpedia
    /\ description c <> Spec.description r
    /\ url c = PNone
    /\ image_url c = None.
Proof.
  eexists. split; [vm_compute; reflexivity|]. cbn.
  repeat split. discriminate.
Qed.

Lemma summary_by_priority_witness :
  (true = true ->
   ["kg"; "wikidata"; "dbpedia"]
   ≡ₚ (tasks (H:=plain) with_key all_four (lit "Mahatma Gandhi")
         (lit "PERSON")).*1)
  /\ match get_comprehensive_info (H:=plain) with_key all_four
             (lit "Mahatma Gandhi") (lit "PERSON") true
             ["kg"; "wikidata"; "dbpedia"] clock with
     | Ok c =>
         let r := responses_of (H:=plain) with_key all_four
                    (lit "Mahatma Gandhi") (lit "PERSON") in
         (forall k, kg r = Some k ->
            truthy (kg_detailed_description k) = true ->
            summary c = kg_detailed_description k)
         /\ (forall k, kg r = Some k -> dbpedia r = None ->
               summary c
               = py_or (kg_detailed_description k) (kg_description k))
         /\ (forall d, dbpedia r = Some d -> truthy (kg_summary r) = false ->
               slice_to 500 (dbp_abstract d) = Ok (summary c))
         /\ (kg r = None -> dbpedia r = None -> responders r <> [] ->
             summary c = PNone)
         /\ (responders r = [] -> summary c = no_information)
     | Raise e =>
         abstract_rejected
           (responses_of (H:=plain) with_key all_four
              (lit "Mahatma Gandhi") (lit "PERSON")) e
     end.
Proof.
  assert (Hdone : true = true ->
            ["kg"; "wikidata"; "dbpedia"]
            ≡ₚ (tasks (H:=plain) with_key all_four (lit "Mahatma Gandhi")
                  (lit "PERSON")).*1).
  { intros _. vm_compute. solve_Permutation. }
  split; [exact Hdone|].
  exact (summary_by_priority (H:=plain) with_key all_four
           (lit "Mahatma Gandhi") (lit "PERSON") true
           ["kg"; "wikidata"; "dbpedia"] clock Hdone).
Defined.

(** When only Wikidata responds, with a non-empty description, the summary
    of the combined record is [None], not that description. *)
Lemma lone_wikidata_leaves_summary_empty :
  let r := responses_of (H:=plain) no_key only_wikidata (lit "Hamlet")
             (lit "MISC") in
  exists c,
    get_comprehensive_info (H:=plain) no_key only_wikidata (lit "Hamlet")
      (lit "MISC") true ["wikidata"; "dbpedia"; "kg"] clock = Ok c
    /\ sources_consulted c = ["Wikidata"]
    /\ summary c = PNone
    /\ Spec.summary r = wd_description a_wikidata
    /\ summary c <> Spec.summary r.
Proof.
  eexists. split; [vm_compute; reflexivity|]. cbn.
  repeat split. discriminate.
Qed.

(** The scenario of the specification: the Knowledge Graph and Wikidata
    answer, DBpedia times out. *)
Lemma gandhi_scenario :
  exists c,
    get_comprehensive_info (H:=plain) with_key kg_and_wikidata
      (lit "Mahatma Gandhi") (lit "PERSON") true
      ["wikidata"; "kg"; "dbpedia"] clock = Ok c
    /\ sources_consulted c = ["Google Knowledge Graph"; "Wikidata"]
    /\ confidence c = "high (verified)"
    /\ summary c = kg_detailed_description a_kg.
Proof. eexists. split; [vm_compute; reflexivity|]. by cbn. Qed.

Lemma parallel_agrees_with_sequential_witness :
  ["wikidata"; "openlibrary"; "dbpedia"; "kg"]
  ≡ₚ (tasks (H:=plain) with_key all_four (lit "Hamlet")
        (lit "WORK_OF_ART")).*1
  /\ _get_comprehensive_info_parallel (H:=plain) with_key all_four
       (lit "Hamlet") (lit "WORK_OF_ART")
       ["wikidata"; "openlibrary"; "dbpedia"; "kg"] clock
     = _get_comprehensive_info_sequential (H:=plain) with_key all_four
         (lit "Hamlet") (lit "WORK_OF_ART") clock
  /\ map_result merged_fields
       (_get_comprehensive_info_parallel (H:=plain) with_key all_four
          (lit "Hamlet") (lit "WORK_OF_ART")
          ["wikidata"; "openlibrary"; "dbpedia"; "kg"] clock)
     = map_result merged_fields
         (_get_comprehensive_info_sequential (H:=plain) with_key all_four
            (lit "Hamlet") (lit "WORK_OF_ART") (lit "2025-01-02T00:00:00")).
Proof.
  assert (Hdone : ["wikidata"; "openlibrary"; "dbpedia"; "kg"]
            ≡ₚ (tasks (H:=plain) with_key all_four (lit "Hamlet")
                  (lit "WORK_OF_ART")).*1).
  { vm_compute. solve_Permutation. }
  split; [exact Hdone|].
  exact (parallel_agrees_with_sequential (H:=plain) with_key all_four
           (lit "Hamlet") (lit "WORK_OF_ART")
           ["wikidata"; "openlibrary"; "dbpedia"; "kg"] clock
           (lit "2025-01-02T00:00:00") Hdone).
Defined.

End AggregatorSamples.

(** ** Normalisation of the text before hashing *)

Section Normalise.

Lemma lstrip_spaces ws t :
  forallb isspace ws = true -> lstrip (ws ++ t) = lstrip t.
Proof.
  induction ws as [|c ws IH]; cbn; [done|].
  intros [Hc Hws]%andb_prop. rewrite Hc. auto.
Qed.

Lemma lstrip_all_spaces ws : forallb isspace ws = true -> lstrip ws = [].
Proof.
  intros Hws. rewrite <- (app_nil_r ws). by rewrite lstrip_spaces.
Qed.

Lemma lstrip_app t u :
  lstrip (t ++ u) = match lstrip t with [] => lstrip u | s => s ++ u end.
Proof.
  induction t as [|c t IH]; cbn.
  - by destruct (lstrip u).
  - destruct (isspace c); [done|reflexivity].
Qed.

Lemma lstrip_head t c s : lstrip t = c :: s -> isspace c = false.
Proof.
  induction t as [|a t IH]; cbn; [discriminate|].
  destruct (isspace a) eqn:Ha; [done|]. by intros [= <- _].
Qed.

Lemma forallb_rev {A} (f : A -> bool) l : forallb f (rev l) = forallb f l.
Proof.
  induction l as [|a l IH]; cbn; [done|].
  rewrite forallb_app, IH. cbn. rewrite andb_true_r. apply andb_comm.
Qed.

Lemma rstrip_spaces t ws :
  forallb isspace ws = true -> rstrip (t ++ ws) = rstrip t.
Proof.
  intros Hws. unfold rstrip. rewrite rev_app_distr, lstrip_spaces; [done|].
  by rewrite forallb_rev.
Qed.

(** [strip] removes any leading and trailing white space. *)
Lemma strip_spaces ws1 t ws2 :
  forallb isspace ws1 = true -> forallb isspace ws2 = true ->
  strip (ws1 ++ t ++ ws2) = strip t.
Proof.
  intros H1 H2. unfold strip. rewrite lstrip_spaces by done.
  rewrite lstrip_app. destruct (lstrip t) as [|c s] eqn:Et.
  - by rewrite lstrip_all_spaces.
  - by rewrite rstrip_spaces.
Qed.

Lemma letter_not_space c : 65 <= c <= 122 -> isspace c = false.
Proof.
  intros Hc. unfold isspace.
  repeat match goal with
         | |- context [?x <=? ?y] => destruct (N.leb_spec x y); try lia
         | |- context [?x =? ?y] => destruct (N.eqb_spec x y); try lia
         end.
Qed.

Lemma same_letter_isspace a b : same_letter a b -> isspace a = isspace b.
Proof.
  unfold same_letter, ascii_lower, is_ascii_upper.
  destruct (N.leb_spec 65 a), (N.leb_spec a 90), (N.leb_spec 65 b),
    (N.leb_spec b 90); cbn; intros Hab; try (f_equal; lia).
  all: rewrite !letter_not_space by lia; reflexivity.
Qed.

Lemma same_letter_lstrip t1 t2 :
  Forall2 same_letter t1 t2 -> Forall2 same_letter (lstrip t1) (lstrip t2).
Proof.
  induction 1 as [|a b t1 t2 Hab Ht IH]; cbn; [constructor|].
  rewrite <- (same_letter_isspace a b Hab).
  destruct (isspace a); [done|by constructor].
Qed.

Lemma Forall2_rev {A} (R : A -> A -> Prop) l1 l2 :
  Forall2 R l1 l2 -> Forall2 R (rev l1) (rev l2).
Proof.
  induction 1; cbn; [constructor|].
  apply Forall2_app; [done|]. by repeat constructor.
Qed.

Lemma same_letter_strip t1 t2 :
  Forall2 same_letter t1 t2 -> Forall2 same_letter (strip t1) (strip t2).
Proof.
  intros Ht. unfold strip, rstrip.
  apply Forall2_rev, same_letter_lstrip, Forall2_rev.
  by apply same_letter_lstrip.
Qed.

Lemma same_letter_map t1 t2 :
  Forall2 same_letter t1 t2 -> map ascii_lower t1 = map ascii_lower t2.
Proof. induction 1; cbn; congruence. Qed.

(** Two code points that are the same letter up to ASCII case are equal, or
    the capital and the small form of one ASCII letter. *)
Lemma same_letter_cases a b :
  same_letter a b ->
  a = b \/ (65 <= a <= 90 /\ b = a + 32) \/ (65 <= b <= 90 /\ a = b + 32).
Proof.
  unfold same_letter, ascii_lower, is_ascii_upper.
  destruct (N.leb_spec 65 a), (N.leb_spec a 90), (N.leb_spec 65 b),
    (N.leb_spec b 90); cbn; lia.
Qed.

Ltac compare_codes :=
  repeat match goal with
         | |- context [N.leb ?x ?y] => destruct (N.leb_spec x y); try lia
         | |- context [N.ltb ?x ?y] => destruct (N.ltb_spec x y); try lia
         | |- context [N.eqb ?x ?y] => destruct (N.eqb_spec x y); try lia
         end.

(** The case mapping of Unicode reads nothing of a character that tells
    the two ASCII cases of a letter apart. *)
Lemma same_letter_tables `{Interpreter} a b :
  same_letter a b ->
  (a =? 0x3A3) = (b =? 0x3A3)
  /\ to_lower_full a = to_lower_full b
  /\ is_cased a = is_cased b
  /\ is_case_ignorable a = is_case_ignorable b.
Proof.
  intros [->|[[Ha ->]|[Hb ->]]]%same_letter_cases; [done|..];
    unfold to_lower_full, is_cased, is_case_ignorable, is_ascii,
      is_ascii_letter, ascii_lower, is_ascii_upper;
    compare_codes; cbn; repeat split; try done; f_equal; lia.
Qed.

Lemma same_letter_nearest `{Interpreter} l1 l2 :
  Forall2 same_letter l1 l2 ->
  is_cased <$> find (fun c => negb (is_case_ignorable c)) l1
  = is_cased <$> find (fun c => negb (is_case_ignorable c)) l2.
Proof.
  induction 1 as [|a b l1 l2 Hab _ IH]; cbn [find]; [done|].
  destruct (same_letter_tables a b Hab) as (_ & _ & Hc & Hi).
  rewrite Hi. destruct (is_case_ignorable b); cbn [negb]; [done|].
  cbn. by rewrite Hc.
Qed.

Lemma handle_capital_sigma_nearest `{Interpreter} before after :
  handle_capital_sigma before after
  = if match is_cased <$> find (fun c => negb (is_case_ignorable c)) before
       with
       | Some cased =>
           cased
           && match is_cased
                    <$> find (fun c => negb (is_case_ignorable c)) after
              with
              | Some cased' => negb cased'
              | None => true
              end
       | None => false
       end
    then 0x3C2 else 0x3C3.
Proof.
  unfold handle_capital_sigma.
  destruct (find _ before); [|done].
  by destruct (find _ after).
Qed.

Lemma do_lower_same_letters `{Interpreter} s1 s2 :
  Forall2 same_letter s1 s2 ->
  forall before1 before2,
    Forall2 same_letter before1 before2 ->
    do_lower before1 s1 = do_lower before2 s2.
Proof.
  induction 1 as [|a b s1 s2 Hab Hs IH]; intros before1 before2 Hb;
    cbn [do_lower]; [done|].
  destruct (same_letter_tables a b Hab) as (Hsigma & Hl & _ & _).
  rewrite Hsigma, Hl, (IH (a :: before1) (b :: before2))
    by by constructor.
  rewrite !handle_capital_sigma_nearest.
  by rewrite (same_letter_nearest before1 before2),
    (same_letter_nearest s1 s2).
Qed.

(** The letter by letter lowering of a pure ASCII string is what the case
    mapping of Unicode gives for it. *)
Lemma do_lower_ascii `{Interpreter} s before :
  forallb is_ascii s = true -> do_lower before s = map ascii_lower s.
Proof.
  revert before. induction s as [|c s IH]; intros before; cbn; [done|].
  intros [Hc Hs]%andb_prop. rewrite IH by done.
  unfold to_lower_full. rewrite Hc.
  apply N.ltb_lt in Hc. by destruct (N.eqb_spec c 0x3A3); [lia|].
Qed.

Lemma lower_do_lower `{Interpreter} s : lower s = do_lower [] s.
Proof.
  unfold lower. destruct (forallb is_ascii s) eqn:Hs; [|done].
  by rewrite do_lower_ascii.
Qed.

(** On every text, [lower] forgets the case of the ASCII letters. *)
Lemma lower_same_letters `{Interpreter} t1 t2 :
  Forall2 same_letter t1 t2 -> lower t1 = lower t2.
Proof.
  intros Ht. rewrite !lower_do_lower.
  apply do_lower_same_letters; [done|constructor].
Qed.

(** On every text, [strip] then [lower] forgets the case of the ASCII
    letters. *)
Lemma normalise_same_letters `{Interpreter} t1 t2 :
  Forall2 same_letter t1 t2 -> lower (strip t1) = lower (strip t2).
Proof. intros Ht. by apply lower_same_letters, same_letter_strip. Qed.

End Normalise.

(** ** UTF-8 and the text hash *)

Section TextHash.

Import Database.

(** The digest of the test vector "abc" of FIPS 180-4. *)
Lemma sha256_abc :
  Sha256.hexdigest (lit "abc")
  = lit "ba7816bf8f01cfea414140de5dae2223b00361a396177a9cb410ff61f20015ad".
Proof. vm_compute. reflexivity. Qed.

Lemma div_mod_eq a b n : a / n = b / n -> a mod n = b mod n -> a = b.
Proof.
  intros Hq Hr. rewrite (N.Div0.div_mod a n), (N.Div0.div_mod b n).
  congruence.
Qed.

Lemma lead_bounds c :
  (c < 2048 -> c / 64 < 32) /\ (c < 65536 -> c / 4096 < 16)
  /\ c / 64 / 64 = c / 4096 /\ c / 4096 / 64 = c / 262144.
Proof.
  repeat split.
  - intros. by apply N.Div0.div_lt_upper_bound.
  - intros. by apply N.Div0.div_lt_upper_bound.
  - by rewrite N.Div0.div_div.
  - by rewrite N.Div0.div_div.
Qed.

Opaque N.add N.div N.modulo.

(** The first byte of an encoded code point tells how many bytes follow,
    and the bytes give the code point back. *)
Lemma utf8_char_inj c1 c2 b1 b2 r1 r2 :
  utf8_char c1 = Ok b1 -> utf8_char c2 = Ok b2 ->
  b1 ++ r1 = b2 ++ r2 -> c1 = c2 /\ r1 = r2.
Proof.
  destruct (lead_bounds c1) as (A1 & B1 & C1 & D1).
  destruct (lead_bounds c2) as (A2 & B2 & C2 & D2).
  unfold utf8_char.
  repeat match goal with
         | |- context [?x <? ?y] => destruct (N.ltb_spec x y)
         | |- context [?x <=? ?y] => destruct (N.leb_spec x y)
         end; cbn [andb]; try discriminate.
  all: intros [= <-] [= <-]; cbn [app]; intros Heq; injection Heq as ?.
  all: try (exfalso;
            pose proof (N.le_0_l (c1 / 64)); pose proof (N.le_0_l (c2 / 64));
            pose proof (N.le_0_l (c1 / 4096));
            pose proof (N.le_0_l (c2 / 4096));
            pose proof (N.le_0_l (c1 / 262144));
            pose proof (N.le_0_l (c2 / 262144)); lia).
  all: split; [|assumption].
  all: repeat (apply (div_mod_eq _ _ 64); rewrite ?C1, ?C2, ?D1, ?D2;
               [|lia]); lia.
Qed.

Lemma utf8_char_nonempty c bs : utf8_char c = Ok bs -> bs <> [].
Proof.
  unfold utf8_char.
  repeat match goal with
         | |- context [if ?b then _ else _] => destruct b
         end; intros [= <-]; discriminate.
Qed.

Transparent N.add N.div N.modulo.

(** The encoding is injective: distinct strings give distinct bytes. *)
Lemma utf8_inj s1 s2 bs : utf8 s1 = Ok bs -> utf8 s2 = Ok bs -> s1 = s2.
Proof.
  revert s2 bs. induction s1 as [|c1 s1 IH]; intros [|c2 s2] bs; cbn.
  - done.
  - intros [= <-]. destruct (utf8_char c2) as [b2|] eqn:E2; [|done].
    destruct (utf8 s2); cbn; [|done]. intros [= Hb].
    apply utf8_char_nonempty in E2. by destruct b2.
  - destruct (utf8_char c1) as [b1|] eqn:E1; [|done].
    destruct (utf8 s1); cbn; [|done]. intros [= <-] [= Hb].
    apply utf8_char_nonempty in E1. by destruct b1.
  - destruct (utf8_char c1) as [b1|] eqn:E1; [|done].
    destruct (utf8 s1) as [r1|] eqn:Es1; cbn; [|done]. intros [= <-].
    destruct (utf8_char c2) as [b2|] eqn:E2; [|done].
    destruct (utf8 s2) as [r2|] eqn:Es2; cbn; [|done]. intros [= Hb].
    symmetry in Hb.
    destruct (utf8_char_inj _ _ _ _ _ _ E1 E2 Hb) as [-> ->].
    f_equal. by eapply IH.
Qed.

End TextHash.

(** ** The analysis cache *)

Section AnalysisCacheFacts.

Import Database.

Local Open Scope Z_scope.

Lemma filter_none {A} (P : A -> Prop) `{!forall x, Decision (P x)} (l : list A) :
  (forall x, x ∈ l -> ~ P x) -> filter P l = [].
Proof.
  induction l as [|a l IH]; intros Hl; [done|].
  rewrite filter_cons_False by (apply Hl; left).
  apply IH. intros x Hx. apply Hl. by right.
Qed.

(** With one row per key, the query of a fresh entry returns that row. *)
Lemma select_fresh_unique db r cutoff :
  NoDup (key_of <$> db) -> r ∈ db -> cutoff < created_at r ->
  select_fresh (text_hash r) (language r) cutoff db = [r].
Proof.
  unfold select_fresh.
  induction db as [|a db IH]; intros Hnd Hin Hfresh.
  - by apply elem_of_nil in Hin.
  - rewrite fmap_cons in Hnd. apply NoDup_cons in Hnd as [Ha Hnd].
    apply elem_of_cons in Hin as [<-|Hin].
    + rewrite filter_cons_True by done. f_equal.
      apply filter_none. intros x Hx (Hh & Hl & _). apply Ha.
      apply list_elem_of_fmap. exists x. split; [|done].
      unfold key_of. by rewrite Hh, Hl.
    + rewrite filter_cons_False; [by apply IH|].
      intros (Hh & Hl & _). apply Ha.
      apply list_elem_of_fmap. exists r. split; [|done].
      unfold key_of. by rewrite Hh, Hl.
Qed.

(** Without a fresh row of the key, the query returns nothing. *)
Lemma select_fresh_expired db h l cutoff :
  (forall r, r ∈ db -> key_of r = (h, l) -> created_at r <= cutoff) ->
  select_fresh h l cutoff db = [].
Proof.
  intros Hold. apply filter_none. intros x Hx (Hh & Hl & Hfresh).
  specialize (Hold x Hx). unfold key_of in Hold.
  rewrite Hh, Hl in Hold. specialize (Hold eq_refl). lia.
Qed.

Lemma unique_key db r r' :
  NoDup (key_of <$> db) -> r ∈ db -> r' ∈ db -> key_of r = key_of r' ->
  r = r'.
Proof.
  induction db as [|a db IH]; intros Hnd Hr Hr' Hk.
  - by apply elem_of_nil in Hr.
  - rewrite fmap_cons in Hnd. apply NoDup_cons in Hnd as [Ha Hnd].
    apply elem_of_cons in Hr as [->|Hr], Hr' as [->|Hr']; auto.
    + exfalso. apply Ha. rewrite Hk. by apply list_elem_of_fmap_2.
    + exfalso. apply Ha. rewrite <- Hk. by apply list_elem_of_fmap_2.
Qed.

Section Read.

Context `{Interpreter}.
Variable increment_rpc : Z -> list cache_row -> list cache_row.

Lemma get_cached_analysis_hit env now db text language h r :
  generate_text_hash text language = Ok h ->
  NoDup (key_of <$> db) -> r ∈ db -> key_of r = (h, language) ->
  now - days 30 < created_at r -> select_ok env = true ->
  get_cached_analysis increment_rpc env now db text language
  = (Some (analysis_of r),
     if rpc_ok env then increment_rpc (id r) db else db).
Proof.
  intros Hh Hnd Hin [= <- <-] Hfresh Hok.
  unfold get_cached_analysis. rewrite Hh, Hok. cbn [negb].
  by rewrite select_fresh_unique.
Qed.

Lemma get_cached_analysis_expired env now db text language h :
  generate_text_hash text language = Ok h ->
  (forall r, r ∈ db -> key_of r = (h, language) ->
             created_at r <= now - days 30) ->
  get_cached_analysis increment_rpc env now db text language = (None, db).
Proof.
  intros Hh Hold. unfold get_cached_analysis. rewrite Hh.
  destruct (select_ok env); cbn [negb]; [|done].
  by rewrite select_fresh_expired.
Qed.

End Read.

Lemma increment_cache_hit_lookup cache_id db i x :
  db !! i = Some x ->
  increment_cache_hit cache_id db !! i
  = Some (if bool_decide (id x = cache_id) then hit x else x).
Proof.
  intros Hx. unfold increment_cache_hit.
  change (map ?f ?l) with (f <$> l). by rewrite list_lookup_fmap, Hx.
Qed.

Lemma cleanup_removes_old now db r :
  created_at r < now - days 30 -> r ∉ (cleanup_analysis_cache now db).2.
Proof.
  intros Hold. unfold cleanup_analysis_cache. cbn [snd].
  rewrite list_elem_of_filter. intros [Hkeep _]. lia.
Qed.

(** *** Writes *)

Lemma upsert_keys cache_data db :
  key_of <$> upsert cache_data db
  = if bool_decide (key_of cache_data ∈ key_of <$> db)
    then key_of <$> db else (key_of <$> db) ++ [key_of cache_data].
Proof.
  induction db as [|r db IH]; [done|]. cbn [upsert].
  destruct (decide (text_hash r = text_hash cache_data
                    ∧ language r = language cache_data)) as [[Hh Hl]|Hne].
  - rewrite bool_decide_eq_true_2 by done. rewrite !fmap_cons.
    rewrite bool_decide_eq_true_2.
    + f_equal. unfold key_of, with_id. cbn. by rewrite Hh, Hl.
    + apply elem_of_cons. left. unfold key_of. by rewrite Hh, Hl.
  - rewrite bool_decide_eq_false_2 by done. rewrite !fmap_cons, IH.
    destruct (bool_decide (key_of cache_data ∈ key_of <$> db)) eqn:E.
    + apply bool_decide_eq_true_1 in E.
      rewrite bool_decide_eq_true_2; [done|by right].
    + apply bool_decide_eq_false_1 in E.
      rewrite bool_decide_eq_false_2; [done|].
      intros [Hk|Hk]%elem_of_cons; [|done].
      apply Hne. by injection Hk as -> ->.
Qed.

(** The upsert keeps one row per key. *)
Lemma upsert_NoDup cache_data db :
  NoDup (key_of <$> db) -> NoDup (key_of <$> upsert cache_data db).
Proof.
  intros Hnd. rewrite upsert_keys. case_bool_decide as Hk; [done|].
  apply NoDup_app. split; [done|]. split.
  - intros k Hin [->|[]%elem_of_nil]%elem_of_cons. done.
  - apply NoDup_singleton.
Qed.

(** The row stored under the key after an upsert: the new columns, with
    the id of the row that was there. *)
Lemma find_key_upsert cache_data db :
  find_key (key_of cache_data) (upsert cache_data db)
  = Some (with_id (match find_key (key_of cache_data) db with
                   | Some old => id old
                   | None => id cache_data
                   end) cache_data).
Proof.
  unfold find_key. induction db as [|r db IH]; cbn [upsert].
  - rewrite filter_cons_True by done. cbn. by destruct cache_data.
  - destruct (decide (text_hash r = text_hash cache_data
                      ∧ language r = language cache_data)) as [[Hh Hl]|Hne].
    + rewrite bool_decide_eq_true_2 by done.
      rewrite (filter_cons_True _ (with_id _ _)) by done.
      rewrite (filter_cons_True _ r); [done|].
      unfold key_of. by rewrite Hh, Hl.
    + rewrite bool_decide_eq_false_2 by done.
      assert (key_of r <> key_of cache_data) as Hk.
      { intros [= Hh Hl]. by apply Hne. }
      by rewrite !(filter_cons_False _ r) by done.
Qed.

Lemma find_key_elem k db r : find_key k db = Some r -> r ∈ db /\ key_of r = k.
Proof.
  unfold find_key. intros Hf.
  assert (r ∈ filter (fun r => key_of r = k) db) as Hin.
  { destruct (filter _ db); [done|]. injection Hf as ->. left. }
  by apply list_elem_of_filter in Hin as [? ?].
Qed.

End AnalysisCacheFacts.

(** ** Claims on the analysis cache *)

Section AnalysisCacheClaims.

Import Database.

Local Open Scope Z_scope.

Context `{Interpreter}.

(** C5, as amended: the text hash is the SHA-256 digest of the UTF-8 bytes
    of [lower(strip(text)) + "|" + language].  For all texts, it does not
    change when white space is added around the text, nor when ASCII
    letters of the text change case, whatever other characters the text
    has; and it depends on the text only through [lower(strip(text))].
    Letter case outside ASCII is another matter: the capital of the
    dotless i is the letter I, which [lower] turns into the dotted i, so
    that a name in capitals and the same name in small letters with a
    dotless i are hashed apart.  The language is taken as it is: two
    distinct language codes, such as "en" and "EN", give distinct bytes to
    hash, and on the example of the specification distinct digests. *)
Theorem text_hash_normalises_text_not_language :
  (forall text language,
     generate_text_hash text language
     = bytes ← utf8 (hash_input text language); Ok (Sha256.hexdigest bytes))
  /\ (forall ws1 ws2 text language,
        forallb isspace ws1 = true -> forallb isspace ws2 = true ->
        generate_text_hash (ws1 ++ text ++ ws2) language
        = generate_text_hash text language)
  /\ (forall ws1 ws2 ws3 ws4 t1 t2 language,
        forallb isspace ws1 = true -> forallb isspace ws2 = true ->
        forallb isspace ws3 = true -> forallb isspace ws4 = true ->
        Forall2 same_letter t1 t2 ->
        generate_text_hash (ws1 ++ t1 ++ ws2) language
        = generate_text_hash (ws3 ++ t2 ++ ws4) language)
  /\ (forall t1 t2 language,
        lower (strip t1) = lower (strip t2) ->
        generate_text_hash t1 language = generate_text_hash t2 language)
  /\ (unicode_lower 0x131%N = [0x131%N] ->
      lower (strip Sample.istanbul_capitals) = lit "istanbul"
      /\ lower (strip Sample.istanbul_small) = Sample.istanbul_small
      /\ generate_text_hash Sample.istanbul_capitals (lit "tr")
         <> generate_text_hash Sample.istanbul_small (lit "tr"))
  /\ (forall text l1 l2 b1 b2,
        l1 <> l2 ->
        utf8 (hash_input text l1) = Ok b1 ->
        utf8 (hash_input text l2) = Ok b2 -> b1 <> b2)
  /\ generate_text_hash (lit "  Hello World  ") (lit "en")
     = generate_text_hash (lit "hello world") (lit "en")
  /\ generate_text_hash (lit "hello world") (lit "en")
     = Ok (lit "06c5cca533c674661fd90cf58c162be637ad082d1817b73f76521d77c9354791")
  /\ generate_text_hash (lit "hello world") (lit "EN")
     = Ok (lit "573e4c1a32e2c749a5fa483d5b22a22a8df65be6e7f54ad8c270f7bfc40ffb90")
  /\ generate_text_hash (lit "  Hello World  ") (lit "en")
     <> generate_text_hash (lit "hello world") (lit "EN").
Proof.
  assert (Hnorm : forall t1 t2 language,
            lower (strip t1) = lower (strip t2) ->
            generate_text_hash t1 language = generate_text_hash t2 language).
  { intros t1 t2 language Hn. unfold generate_text_hash. by rewrite Hn. }
  split; [reflexivity|]. split.
  { intros. apply Hnorm. by rewrite strip_spaces. }
  split.
  { intros. apply Hnorm. rewrite !strip_spaces by done.
    by apply normalise_same_letters. }
  split; [exact Hnorm|]. split.
  { intros Hi.
    assert (Hsmall : lower (strip Sample.istanbul_small)
                     = Sample.istanbul_small).
    { change (strip Sample.istanbul_small) with Sample.istanbul_small.
      unfold lower, Sample.istanbul_small.
      change (forallb is_ascii (0x131%N :: lit "stanbul")) with false.
      cbv iota. cbn [do_lower]. unfold to_lower_full.
      change (is_ascii 0x131) with false. cbv iota. rewrite Hi.
      reflexivity. }
    split; [reflexivity|]. split; [exact Hsmall|].
    unfold generate_text_hash. rewrite Hsmall.
    vm_compute. discriminate. }
  split.
  { intros text l1 l2 b1 b2 Hl H1 H2 ->. apply Hl.
    pose proof (utf8_inj _ _ _ H1 H2) as Heq. unfold hash_input in Heq.
    by repeat apply app_inv_head in Heq. }
  split; [reflexivity|]. split; [vm_compute; reflexivity|].
  split; [vm_compute; reflexivity|]. vm_compute. discriminate.
Qed.

Variable increment_rpc : Z -> list cache_row -> list cache_row.

(** C6, as amended: with one row per key, a read whose stored entry was
    created 30 days ago or earlier returns absent and leaves the table as
    it was: the row is still there and still counted, until the purge,
    which removes the rows older than 30 days; a read whose stored entry
    is strictly newer than 30 days returns the stored analysis fields,
    when the store answers the query. *)
Theorem expired_entry_absent_but_kept env now db text language h r :
  generate_text_hash text language = Ok h ->
  NoDup (key_of <$> db) -> r ∈ db -> key_of r = (h, language) ->
  (created_at r <= now - days 30 ->
   get_cached_analysis increment_rpc env now db text language = (None, db)
   /\ r ∈ (get_cached_analysis increment_rpc env now db text language).2
   /\ total_cached_entries
        (get_cached_analysis increment_rpc env now db text language).2
      = total_cached_entries db
   /\ (created_at r < now - days 30 -> rpc_ok env = true ->
       r ∉ (cleanup_expired_cache env now db 30).2))
  /\ (now - days 30 < created_at r -> select_ok env = true ->
      (get_cached_analysis increment_rpc env now db text language).1
      = Some (analysis_of r)).
Proof.
  intros Hh Hnd Hin Hk. split.
  - intros Hold.
    assert (get_cached_analysis increment_rpc env now db text language
            = (None, db)) as ->.
    { apply (get_cached_analysis_expired _ _ _ _ _ _ h); [done|].
      intros r' Hin' Hk'.
      by rewrite <- (unique_key db r r') by congruence. }
    repeat split; try done.
    intros Holder Hrpc. unfold cleanup_expired_cache. rewrite Hrpc.
    by apply cleanup_removes_old.
  - intros Hfresh Hok.
    by rewrite (get_cached_analysis_hit _ _ _ _ _ _ h r).
Qed.

(** C7: on a cache hit the stored procedure that counts the hit is called
    exactly once, and whether it succeeds or fails the read returns the
    same record, the analysis fields of the stored row; after a failure
    the table is unchanged.  With the procedure as the specification
    describes it, a successful call adds exactly one to the hit count of
    the row read and touches nothing else. *)
Theorem cache_hit_counted_once env now db text language h r :
  generate_text_hash text language = Ok h ->
  NoDup (key_of <$> db) -> r ∈ db -> key_of r = (h, language) ->
  now - days 30 < created_at r -> select_ok env = true ->
  get_cached_analysis increment_rpc env now db text language
  = (Some (analysis_of r),
     if rpc_ok env then increment_rpc (id r) db else db)
  /\ forall i x,
       db !! i = Some x ->
       (get_cached_analysis increment_cache_hit env now db text language).2
         !! i
       = Some (if rpc_ok env && bool_decide (id x = id r) then hit x else x).
Proof.
  intros Hh Hnd Hin Hk Hfresh Hok. split.
  - by apply (get_cached_analysis_hit _ _ _ _ _ _ h).
  - intros i x Hx.
    rewrite (get_cached_analysis_hit _ _ _ _ _ _ h r) by done. cbn [snd].
    destruct (rpc_ok env); cbn [andb]; [|done].
    by apply increment_cache_hit_lookup.
Qed.

(** C10: a write that goes through stores, under the key of the text and
    language, a row with hit count 0, [created_at] and [last_accessed] set
    to the clock readings of the write, and the id of the row that was
    there before, if any: the hit count and the creation instant of that
    row are gone, and a read within 30 days of the new write hits again,
    however old the replaced row was. *)
Theorem analysis_cache_write_resets_entry env now1 now2 db text language
    analysis_result h origin connections analogy :
  generate_text_hash text language = Ok h ->
  ar_cultural_origin analysis_result = Some origin ->
  ar_cross_cultural_connections analysis_result = Some connections ->
  ar_modern_analogy analysis_result = Some analogy ->
  upsert_ok env = true ->
  NoDup (key_of <$> db) ->
  exists row db',
    save_analysis_cache env now1 now2 db text language analysis_result
    = (Some row, db')
    /\ find_key (h, language) db' = Some row
    /\ NoDup (key_of <$> db')
    /\ key_of row = (h, language)
    /\ hit_count row = 0
    /\ created_at row = now1
    /\ last_accessed row = now2
    /\ original_text row = firstn 5000 text
    /\ (forall old, find_key (h, language) db = Some old -> id row = id old)
    /\ (forall read now,
          select_ok read = true -> now - days 30 < now1 ->
          (get_cached_analysis increment_rpc read now db' text language).1
          = Some (analysis_of row)).
Proof.
  intros Hh Ho Hc Ha Hok Hnd.
  unfold save_analysis_cache. rewrite Hh, Ho, Hc, Ha. cbn.
  rewrite Hok. cbn [negb].
  set (cache_data := CacheRow _ _ _ _ _ _ _ _ _ _ _ _ _ _).
  change (h, language) with (key_of cache_data).
  rewrite find_key_upsert. eexists _, _. split; [reflexivity|].
  split; [apply find_key_upsert|]. split; [by apply upsert_NoDup|].
  repeat split.
  - intros old ->. reflexivity.
  - intros read now Hread Hfresh.
    pose proof (find_key_upsert cache_data db) as Hf.
    apply find_key_elem in Hf as [Hin Hk].
    erewrite (get_cached_analysis_hit _ _ _ _ _ _ h); eauto.
    by apply upsert_NoDup.
Qed.

End AnalysisCacheClaims.

(** ** The orchestrator and the entity cache *)

Section EntityCacheClaims.

Import Database Nlp.

(** The row that [enrich_entity] writes for a fresh enrichment. *)
Lemma enrich_entity_miss (read write : store_env) (now : Z)
    (db : gmap (pystr * pystr) entity_row) live entity_text entity_type
    (use_cache : bool) :
  (if use_cache then get_cached_entity read db entity_text entity_type
   else None) = None ->
  enrich_entity read write now db live entity_text entity_type use_cache
  = (FromProviders live,
     if truthy (en_summary live)
     then (save_entity_cache write db
             (cache_row_of live entity_text entity_type now)).2
     else db).
Proof. intros Hmiss. unfold enrich_entity. by rewrite Hmiss. Qed.

(** C8: on a miss of the entity cache the fresh enrichment record is
    returned to the caller whatever its summary; the write to the cache
    is issued exactly when the summary is non-empty, and then, if the
    store accepts it, the cache holds the record under the key of the
    entity; with an empty or missing summary the cache is left as it was,
    so that the next lookup of an entity that was not cached asks the live
    providers again. *)
Theorem enrichment_cached_iff_summary (read write : store_env) (now : Z)
    (db : gmap (pystr * pystr) entity_row) live entity_text entity_type
    (use_cache : bool) :
  (if use_cache then get_cached_entity read db entity_text entity_type
   else None) = None ->
  let outcome :=
    enrich_entity read write now db live entity_text entity_type use_cache in
  outcome.1 = FromProviders live
  /\ (truthy (en_summary live) = true ->
      outcome.2
      = (save_entity_cache write db
           (cache_row_of live entity_text entity_type now)).2
      /\ (upsert_ok write = true ->
          outcome.2 !! (entity_text, entity_type)
          = Some (cache_row_of live entity_text entity_type now)))
  /\ (truthy (en_summary live) = false ->
      outcome.2 = db
      /\ (db !! (entity_text, entity_type) = None ->
          forall read' write' now' live',
            (enrich_entity read' write' now' outcome.2 live' entity_text
               entity_type true).1 = FromProviders live'))
  /\ (outcome.2 <> db -> truthy (en_summary live) = true).
Proof.
  intros Hmiss outcome. subst outcome. rewrite enrich_entity_miss by done.
  cbn [fst snd]. split; [done|].
  destruct (truthy (en_summary live)) eqn:Hs.
  - split.
    + intros _. split; [done|]. intros Hok. unfold save_entity_cache.
      rewrite Hok. cbn [snd]. unfold cache_row_of. cbn.
      apply lookup_insert_eq.
    + split; [discriminate|done].
  - split; [discriminate|]. split; [|done]. intros _. split; [done|].
    intros Hnone read' write' now' live'.
    rewrite enrich_entity_miss; [done|].
    unfold get_cached_entity. rewrite Hnone. by destruct (select_ok read').
Qed.

End EntityCacheClaims.

(** ** The caches on sample data *)

Section CacheSamples.

Import Database Nlp Sample.

Local Open Scope Z_scope.

Lemma aqueduct_hash_value :
  generate_text_hash (H:=plain) aqueduct english = Ok aqueduct_hash.
Proof. vm_compute. reflexivity. Qed.

Lemma cached_at_row t : cached_at t = [aqueduct_row t].
Proof. reflexivity. Qed.

Lemma text_hash_normalises_text_not_language_witness :
  (forallb isspace (lit "  ") = true /\ forallb isspace (lit " ") = true
   /\ generate_text_hash (H:=latin) (lit "  " ++ ecole_capital ++ lit " ")
        english
      = generate_text_hash (H:=latin) ecole_capital english)
  /\ (forallb isspace [] = true
      /\ Forall2 same_letter ecole_capital (0xC9%N :: lit "COLE")
      /\ generate_text_hash (H:=latin) (lit "  " ++ ecole_capital ++ lit " ")
           english
         = generate_text_hash (H:=latin)
             ([] ++ (0xC9%N :: lit "COLE") ++ []) english)
  /\ (unicode_lower (Interpreter:=latin) 0x131%N = [0x131%N]
      /\ generate_text_hash (H:=latin) istanbul_capitals (lit "tr")
         <> generate_text_hash (H:=latin) istanbul_small (lit "tr")).
Proof.
  assert (S0 : forallb isspace [] = true) by reflexivity.
  assert (S1 : forallb isspace (lit "  ") = true) by reflexivity.
  assert (S2 : forallb isspace (lit " ") = true) by reflexivity.
  assert (L : Forall2 same_letter ecole_capital (0xC9%N :: lit "COLE")).
  { repeat constructor. }
  assert (I : unicode_lower (Interpreter:=latin) 0x131%N = [0x131%N])
    by reflexivity.
  split; [|split].
  - split; [exact S1|]. split; [exact S2|].
    exact (proj1 (proj2 (text_hash_normalises_text_not_language (H:=latin)))
             (lit "  ") (lit " ") ecole_capital english S1 S2).
  - split; [exact S0|]. split; [exact L|].
    exact (proj1 (proj2 (proj2
             (text_hash_normalises_text_not_language (H:=latin))))
             (lit "  ") (lit " ") [] [] ecole_capital (0xC9%N :: lit "COLE")
             english S1 S2 S0 S0 L).
  - split; [exact I|].
    exact (proj2 (proj2 (proj1 (proj2 (proj2 (proj2 (proj2
             (text_hash_normalises_text_not_language (H:=latin)))))) I))).
Defined.

(** Two texts that differ in letter case only are hashed apart: a name in
    capitals and the same name in small letters, written with the dotless
    i (U+0131) whose capital is the letter I.  All the other letters are
    ASCII letters in their two cases.  [lower] turns the I into the dotted
    i and leaves the dotless i as it is.  On a letter of Latin-1 the two
    cases are hashed alike. *)
Lemma dotless_i_hashed_apart :
  Forall2 (fun a b => same_letter a b \/ (a = 0x49 /\ b = 0x131)%N)
    istanbul_capitals istanbul_small
  /\ lower (H:=latin) (strip istanbul_capitals) = lit "istanbul"
  /\ lower (H:=latin) (strip istanbul_small) = istanbul_small
  /\ generate_text_hash (H:=latin) istanbul_capitals (lit "tr")
     = Ok (lit "25c23c24e62090214da3632b6dff3ca3a9497ba2a1f7831226462fb160a3a759")
  /\ generate_text_hash (H:=latin) istanbul_small (lit "tr")
     = Ok (lit "e2021ba7c9c29ea489a8434016a084beb7bbaedc130839d9c34c7b06b61b2dc2")
  /\ generate_text_hash (H:=latin) istanbul_capitals (lit "tr")
     <> generate_text_hash (H:=latin) istanbul_small (lit "tr")
  /\ generate_text_hash (H:=latin) ecole_capital (lit "tr")
     = generate_text_hash (H:=latin) ecole_small (lit "tr")
  /\ generate_text_hash (H:=latin) ecole_small (lit "tr")
     = Ok (lit "f7d6659e147f8f12a6994d7f41d6c4360f5edbdbd59944046b0d875af32d1769").
Proof.
  split.
  { constructor; [by right|]. repeat constructor. }
  split; [reflexivity|]. split; [reflexivity|].
  split; [vm_compute; reflexivity|]. split; [vm_compute; reflexivity|].
  split; [vm_compute; discriminate|].
  split; vm_compute; reflexivity.
Qed.

Lemma expired_entry_absent_but_kept_witness :
  generate_text_hash (H:=plain) aqueduct english = Ok aqueduct_hash
  /\ NoDup (key_of <$> cached_at 0)
  /\ aqueduct_row 0 ∈ cached_at 0
  /\ key_of (aqueduct_row 0) = (aqueduct_hash, english)
  /\ (created_at (aqueduct_row 0) <= days 31 - days 30 ->
      get_cached_analysis (H:=plain) increment_cache_hit store_up (days 31)
        (cached_at 0) aqueduct english = (None, cached_at 0)
      /\ aqueduct_row 0
         ∈ (get_cached_analysis (H:=plain) increment_cache_hit store_up
              (days 31) (cached_at 0) aqueduct english).2
      /\ total_cached_entries
           (get_cached_analysis (H:=plain) increment_cache_hit store_up
              (days 31) (cached_at 0) aqueduct english).2
         = total_cached_entries (cached_at 0)
      /\ (created_at (aqueduct_row 0) < days 31 - days 30 ->
          rpc_ok store_up = true ->
          aqueduct_row 0
          ∉ (cleanup_expired_cache store_up (days 31) (cached_at 0) 30).2))
  /\ (days 31 - days 30 < created_at (aqueduct_row 0) ->
      select_ok store_up = true ->
      (get_cached_analysis (H:=plain) increment_cache_hit store_up (days 31)
         (cached_at 0) aqueduct english).1
      = Some (analysis_of (aqueduct_row 0))).
Proof.
  assert (Hd : NoDup (key_of <$> cached_at 0)) by apply NoDup_singleton.
  assert (Hin : aqueduct_row 0 ∈ cached_at 0) by left.
  assert (Hk : key_of (aqueduct_row 0) = (aqueduct_hash, english))
    by reflexivity.
  split; [exact aqueduct_hash_value|]. split; [exact Hd|].
  split; [exact Hin|]. split; [exact Hk|].
  exact (expired_entry_absent_but_kept (H:=plain) increment_cache_hit
           store_up (days 31) (cached_at 0) aqueduct english aqueduct_hash
           (aqueduct_row 0) aqueduct_hash_value Hd Hin Hk).
Defined.

(** An entry that is exactly 30 days old is reported absent; one
    microsecond earlier it is still served. *)
Lemma entry_exactly_thirty_days_old_absent :
  aqueduct_row 0 ∈ cached_at 0
  /\ days 30 - created_at (aqueduct_row 0) = days 30
  /\ (get_cached_analysis (H:=plain) increment_cache_hit store_up (days 30)
        (cached_at 0) aqueduct english).1 = None
  /\ (get_cached_analysis (H:=plain) increment_cache_hit store_up (days 30)
        (cached_at 0) aqueduct english).1
     <> Some (analysis_of (aqueduct_row 0))
  /\ (get_cached_analysis (H:=plain) increment_cache_hit store_up
        (days 30 - 1) (cached_at 0) aqueduct english).1
     = Some (analysis_of (aqueduct_row 0)).
Proof.
  split; [left|]. split; [reflexivity|].
  assert ((get_cached_analysis (H:=plain) increment_cache_hit store_up
             (days 30) (cached_at 0) aqueduct english).1 = None) as Hnone
    by (vm_compute; reflexivity).
  split; [exact Hnone|]. split; [by rewrite Hnone|].
  vm_compute. reflexivity.
Qed.

Lemma cache_hit_counted_once_witness :
  generate_text_hash (H:=plain) aqueduct english = Ok aqueduct_hash
  /\ NoDup (key_of <$> cached_at 0)
  /\ aqueduct_row 0 ∈ cached_at 0
  /\ key_of (aqueduct_row 0) = (aqueduct_hash, english)
  /\ days 7 - days 30 < created_at (aqueduct_row 0)
  /\ select_ok rpc_down = true
  /\ get_cached_analysis (H:=plain) increment_cache_hit rpc_down (days 7)
       (cached_at 0) aqueduct english
     = (Some (analysis_of (aqueduct_row 0)),
        if rpc_ok rpc_down
        then increment_cache_hit (id (aqueduct_row 0)) (cached_at 0)
        else cached_at 0)
  /\ forall i x,
       cached_at 0 !! i = Some x ->
       (get_cached_analysis (H:=plain) increment_cache_hit rpc_down (days 7)
          (cached_at 0) aqueduct english).2 !! i
       = Some (if rpc_ok rpc_down
                  && bool_decide (id x = id (aqueduct_row 0))
               then hit x else x).
Proof.
  assert (Hd : NoDup (key_of <$> cached_at 0)) by apply NoDup_singleton.
  assert (Hin : aqueduct_row 0 ∈ cached_at 0) by left.
  assert (Hk : key_of (aqueduct_row 0) = (aqueduct_hash, english))
    by reflexivity.
  assert (Hf : days 7 - days 30 < created_at (aqueduct_row 0))
    by reflexivity.
  assert (Hs : select_ok rpc_down = true) by reflexivity.
  split; [exact aqueduct_hash_value|]. split; [exact Hd|].
  split; [exact Hin|]. split; [exact Hk|]. split; [exact Hf|].
  split; [exact Hs|].
  exact (cache_hit_counted_once (H:=plain) increment_cache_hit rpc_down
           (days 7) (cached_at 0) aqueduct english aqueduct_hash
           (aqueduct_row 0) aqueduct_hash_value Hd Hin Hk Hf Hs).
Defined.

(** A hit with the counter up: the row read has one more hit. *)
Lemma cache_hit_sample :
  get_cached_analysis (H:=plain) increment_cache_hit store_up (days 7)
    (cached_at 0) aqueduct english
  = (Some (analysis_of (aqueduct_row 0)), [hit (aqueduct_row 0)]).
Proof. vm_compute. reflexivity. Qed.

Lemma analysis_cache_write_resets_entry_witness :
  generate_text_hash (H:=plain) aqueduct english = Ok aqueduct_hash
  /\ ar_cultural_origin an_analysis = Some (PStr (lit "Roman engineering"))
  /\ ar_cross_cultural_connections an_analysis
     = Some (PStr (lit "Persian qanats"))
  /\ ar_modern_analogy an_analysis = Some (PStr (lit "a water main"))
  /\ upsert_ok store_up = true
  /\ NoDup (key_of <$> [hit (hit (aqueduct_row 0))])
  /\ exists row db',
       save_analysis_cache (H:=plain) store_up (days 40) (days 40 + 1)
         [hit (hit (aqueduct_row 0))] aqueduct english an_analysis
       = (Some row, db')
       /\ find_key (aqueduct_hash, english) db' = Some row
       /\ NoDup (key_of <$> db')
       /\ key_of row = (aqueduct_hash, english)
       /\ hit_count row = 0
       /\ created_at row = days 40
       /\ last_accessed row = days 40 + 1
       /\ original_text row = firstn 5000 aqueduct
       /\ (forall old,
             find_key (aqueduct_hash, english) [hit (hit (aqueduct_row 0))]
             = Some old -> id row = id old)
       /\ (forall read now,
             select_ok read = true -> now - days 30 < days 40 ->
             (get_cached_analysis (H:=plain) increment_cache_hit read now db'
                aqueduct english).1 = Some (analysis_of row)).
Proof.
  assert (Hd : NoDup (key_of <$> [hit (hit (aqueduct_row 0))]))
    by apply NoDup_singleton.
  split; [exact aqueduct_hash_value|]. split; [reflexivity|].
  split; [reflexivity|]. split; [reflexivity|]. split; [reflexivity|].
  split; [exact Hd|].
  exact (analysis_cache_write_resets_entry (H:=plain) increment_cache_hit
           store_up (days 40) (days 40 + 1) [hit (hit (aqueduct_row 0))]
           aqueduct english an_analysis aqueduct_hash _ _ _
           aqueduct_hash_value eq_refl eq_refl eq_refl eq_refl Hd).
Defined.

(** Saving again over an entry with two hits, created at instant 0. *)
Lemma resave_sample :
  save_analysis_cache (H:=plain) store_up (days 40) (days 40 + 1)
    [hit (hit (aqueduct_row 0))] aqueduct english an_analysis
  = (Some (CacheRow 1 aqueduct_hash english aqueduct
             (PStr (lit "Roman engineering")) (PStr (lit "Persian qanats"))
             (PStr (lit "a water main")) (PList [PStr (lit "312 BC")])
             (PList []) (PList []) (PDict []) 0 (days 40) (days 40 + 1)),
     [CacheRow 1 aqueduct_hash english aqueduct
        (PStr (lit "Roman engineering")) (PStr (lit "Persian qanats"))
        (PStr (lit "a water main")) (PList [PStr (lit "312 BC")])
        (PList []) (PList []) (PDict []) 0 (days 40) (days 40 + 1)]).
Proof. vm_compute. reflexivity. Qed.

Lemma enrichment_cached_iff_summary_witness :
  (if true
   then get_cached_entity store_up ∅ (lit "Hamlet") (lit "WORK_OF_ART")
   else None) = None
  /\ let outcome :=
       enrich_entity store_up store_up 0 ∅ found (lit "Hamlet")
         (lit "WORK_OF_ART") true in
     outcome.1 = FromProviders found
     /\ outcome.2 !! (lit "Hamlet", lit "WORK_OF_ART")
        = Some (cache_row_of found (lit "Hamlet") (lit "WORK_OF_ART") 0).
Proof.
  assert (Hmiss : (if true
                   then get_cached_entity store_up ∅ (lit "Hamlet")
                          (lit "WORK_OF_ART")
                   else None) = None) by reflexivity.
  split; [exact Hmiss|].
  pose proof (enrichment_cached_iff_summary store_up store_up 0 ∅ found
                (lit "Hamlet") (lit "WORK_OF_ART") true Hmiss)
    as (Hret & Hwritten & _).
  split; [exact Hret|].
  exact (proj2 (Hwritten eq_refl) eq_refl).
Defined.

(** A record without summary is returned and not written. *)
Lemma enrichment_without_summary_sample :
  enrich_entity store_up store_up 0 ∅ not_found (lit "Zzyzx")
    (lit "GPE") true
  = (FromProviders not_found, ∅).
Proof. reflexivity. Qed.

End CacheSamples.

(** * Properties of the code around the claims *)

(** ** What the aggregator never does *)

Section AggregatorLimits.

Import MultiSource Merge.

Context `{Interpreter}.
Variable self : service.
Variable net : network.
Variables entity_name entity_type : pystr.

Local Abbreviation r := (responses_of self net entity_name entity_type).

Lemma in_responders (r : responses) name :
  name ∈ responders r ->
  (name = "Google Knowledge Graph"%string /\ kg r <> None)
  \/ (name = "DBpedia"%string /\ dbpedia r <> None)
  \/ (name = "Wikidata"%string /\ wikidata r <> None)
  \/ (name = "OpenLibrary"%string /\ openlibrary r <> None).
Proof.
  unfold responders, name_if.
  destruct (kg r), (dbpedia r), (wikidata r), (openlibrary r); cbn;
    rewrite ?elem_of_cons, ?elem_of_nil; intuition (auto; congruence).
Qed.

(** X1: without an API key the Knowledge Graph is never consulted,
    whatever the network would answer: it is not among the sources, and
    the record has neither an image URL nor a Knowledge Graph score. *)
Theorem knowledge_graph_skipped_without_key parallel completion now :
  truthy (kg_api_key self) = false ->
  (parallel = true ->
   completion ≡ₚ (tasks self net entity_name entity_type).*1) ->
  match get_comprehensive_info self net entity_name entity_type parallel
          completion now with
  | Ok c =>
      (("Google Knowledge Graph"%string) ∉ sources_consulted c)
      /\ image_url c = None
      /\ kg_confidence_score c = None
  | Raise e => abstract_rejected r e
  end.
Proof.
  intros Hkey Hdone. rewrite get_comprehensive_info_closed_form by done.
  destruct (summary_of r) as [s|e] eqn:Hs; cbn; [|by apply summary_of_raise].
  assert (Hkg : kg r = None).
  { unfold responses_of. cbn [kg]. unfold get_knowledge_graph_info.
    by rewrite Hkey. }
  unfold image_url_of. rewrite Hkg. split; [|done].
  intros Hin. apply in_responders in Hin.
  destruct Hin as [[_ Hk]|[[Hn _]|[[Hn _]|[Hn _]]]]; done.
Qed.

(** X2: the literary catalogue is consulted only for a work of art or for
    a name that contains "book", "novel" or "play" once lowered; the
    record carries literary information exactly when OpenLibrary is among
    its sources. *)
Theorem openlibrary_only_for_literary parallel completion now :
  (parallel = true ->
   completion ≡ₚ (tasks self net entity_name entity_type).*1) ->
  match get_comprehensive_info self net entity_name entity_type parallel
          completion now with
  | Ok c =>
      (("OpenLibrary"%string) ∈ sources_consulted c
       <-> literary_info c <> None)
      /\ (("OpenLibrary"%string) ∈ sources_consulted c ->
          entity_type = lit "WORK_OF_ART"
          \/ exists keyword,
               keyword ∈ [lit "book"; lit "novel"; lit "play"]
               /\ contains keyword (lower entity_name) = true)
  | Raise e => abstract_rejected r e
  end.
Proof.
  intros Hdone. rewrite get_comprehensive_info_closed_form by done.
  destruct (summary_of r) as [s|e] eqn:Hs; cbn; [|by apply summary_of_raise].
  assert (Hol : ("OpenLibrary"%string) ∈ responders r
                <-> openlibrary r <> None).
  { split.
    - intros Hin. apply in_responders in Hin.
      destruct Hin as [[Hn _]|[[Hn _]|[[Hn _]|[_ Ho]]]]; done.
    - intros Hsome. unfold responders, name_if.
      destruct (openlibrary r); [|done]. set_solver. }
  split; [exact Hol|]. rewrite Hol.
  unfold responses_of. cbn [openlibrary]. unfold literary.
  destruct (bool_decide (entity_type = lit "WORK_OF_ART")) eqn:Ht.
  { intros _. left. by apply bool_decide_eq_true in Ht. }
  cbn [orb].
  destruct (existsb _ _) eqn:Hk; [|done].
  intros _. right. apply existsb_exists in Hk as (k & Hin & Hk).
  exists k. split; [|done]. by apply list_elem_of_In.
Qed.

(** X3: when no request is answered with status 200, the lookup returns
    the record of an unknown entity, whatever the bodies of the replies:
    no source, confidence "none" and the sentinel summary. *)
Theorem nothing_without_status_200 parallel completion now :
  (forall status json, kg_reply net = Reply status json -> status <> 200%Z) ->
  (forall status json,
     dbpedia_reply net = Reply status json -> status <> 200%Z) ->
  (forall status json,
     wikidata_search_reply net = Reply status json -> status <> 200%Z) ->
  (forall status json,
     openlibrary_reply net = Reply status json -> status <> 200%Z) ->
  (parallel = true ->
   completion ≡ₚ (tasks self net entity_name entity_type).*1) ->
  get_comprehensive_info self net entity_name entity_type parallel
    completion now
  = Ok (Combined entity_name entity_type no_information PNone PNone []
          "none" now None None None None None).
Proof.
  intros Hkg Hdb Hwd Hol Hdone.
  rewrite get_comprehensive_info_closed_form by done.
  assert (Hstatus : forall reply,
            (forall status json, reply = Reply status json -> status <> 200%Z) ->
            forall A (k : Z * option pyval -> result (option A)),
              try_or_none (response ← response_of reply;
                           if negb (response.1 =? 200)%Z then Ok None
                           else k response) = None).
  { intros [|status json] Hr A k; [done|]. cbn.
    destruct (Z.eqb_spec status 200) as [->|]; [|done].
    by destruct (Hr 200%Z json). }
  assert (Hr : r = Responses None None None None).
  { unfold responses_of, get_knowledge_graph_info, get_dbpedia_info,
      get_wikidata_enhanced, get_openlibrary_info.
    cbv zeta.
    rewrite !Hstatus by done.
    by destruct (truthy (kg_api_key self)), (literary _ _). }
  by rewrite Hr.
Qed.

End AggregatorLimits.

(** ** Splitting and joining text *)

Section TextFacts.

Import Text.

Lemma is_prefix_app p s : is_prefix p s = true -> s = p ++ drop (length p) s.
Proof.
  revert s. induction p as [|a p IH]; intros [|b s]; cbn; try done.
  intros [Hab Hp]%andb_prop. apply N.eqb_eq in Hab as ->.
  f_equal. by apply IH.
Qed.

Lemma is_prefix_here p s : is_prefix p (p ++ s) = true.
Proof. induction p as [|a p IH]; cbn; [done|]. by rewrite N.eqb_refl. Qed.

Lemma partition_app sep s before after :
  partition sep s = Some (before, after) -> s = before ++ sep ++ after.
Proof.
  revert before after. induction s as [|c s IH]; intros before after.
  - cbn. destruct (is_prefix sep []) eqn:Hp; [|done].
    intros [= <- <-]. by apply is_prefix_app in Hp.
  - cbn [partition]. destruct (is_prefix sep (c :: s)) eqn:Hp.
    + intros [= <- <-]. by apply is_prefix_app in Hp.
    + destruct (partition sep s) as [[b a]|]; [|done].
      intros [= <- <-]. cbn. f_equal. by apply IH.
Qed.

Lemma split_within_cons steps sep s :
  exists piece pieces, split_within steps sep s = piece :: pieces.
Proof.
  destruct steps as [|steps]; cbn; [eauto|].
  destruct (partition sep s) as [[b a]|]; eauto.
Qed.

Lemma join_cons sep piece pieces :
  pieces <> [] -> join sep (piece :: pieces) = piece ++ sep ++ join sep pieces.
Proof. by destruct pieces. Qed.

(** Joining the pieces of a split gives the text back. *)
Lemma join_split_within steps sep s : join sep (split_within steps sep s) = s.
Proof.
  revert s. induction steps as [|steps IH]; intros s; cbn; [done|].
  destruct (partition sep s) as [[b a]|] eqn:Hp; [|done].
  destruct (split_within_cons steps sep a) as (p & ps & Hs).
  rewrite join_cons by (by rewrite Hs). rewrite IH.
  symmetry. by apply partition_app.
Qed.

Lemma join_split sep s : join sep (split sep s) = s.
Proof. apply join_split_within. Qed.

(** With a non-empty separator the steps allowed to [split] suffice: more
    steps give the same pieces. *)
Lemma split_within_enough steps sep s :
  sep <> [] -> (length s <= steps)%nat ->
  split_within steps sep s = split sep s.
Proof.
  intros Hsep. unfold split.
  remember (length s) as n eqn:Hn.
  assert (Hlen : (length s <= n)%nat) by lia. clear Hn.
  revert s steps Hlen.
  induction n as [|n IH]; intros s steps Hlen Hsteps.
  - destruct s; [|cbn in Hlen; lia]. cbn.
    destruct steps as [|steps]; [done|]. cbn.
    by destruct sep.
  - destruct steps as [|steps]; [lia|]. cbn.
    destruct (partition sep s) as [[b a]|] eqn:Hp; [|done].
    f_equal. apply partition_app in Hp.
    assert ((length a <= n)%nat).
    { rewrite Hp, !length_app in Hlen. destruct sep; [done|]. cbn in Hlen. lia. }
    apply IH; [done|lia].
Qed.

Lemma join_firstn sep pieces k :
  exists rest, join sep pieces = join sep (firstn k pieces) ++ rest.
Proof.
  revert k. induction pieces as [|p ps IH]; intros k.
  - exists []. by destruct k.
  - destruct k as [|k]; [by eexists|]. cbn [firstn].
    destruct ps as [|q ps].
    { exists []. rewrite firstn_nil. cbn. by rewrite app_nil_r. }
    destruct k as [|k].
    + cbn. by eexists.
    + destruct (IH (S k)) as [rest Hrest].
      rewrite join_cons by done. rewrite Hrest.
      rewrite join_cons by done. exists rest. by rewrite <- !app_assoc.
Qed.

Lemma upto_firstn {A} n (xs : list A) : exists k, upto n xs = firstn k xs.
Proof. unfold upto. destruct (0 <=? n)%Z; eauto. Qed.

Lemma upto_all {A} n (xs : list A) :
  (Z.of_nat (length xs) <= n)%Z -> upto n xs = xs.
Proof.
  intros Hn. unfold upto.
  destruct (Z.leb_spec 0 n); [|lia]. apply firstn_all2. lia.
Qed.

Lemma endswith_app s suffix : endswith (s ++ suffix) suffix = true.
Proof. unfold endswith. rewrite rev_app_distr. apply is_prefix_here. Qed.

Lemma endswith_last s c : endswith s [c] = true -> exists s', s = s' ++ [c].
Proof.
  unfold endswith. cbn. destruct (rev s) as [|b t] eqn:Hr; [done|].
  rewrite andb_true_r. intros ->%N.eqb_eq.
  exists (rev t). by rewrite <- (rev_involutive s), Hr.
Qed.

End TextFacts.

(** ** The summary shown in a tooltip *)

Section ExtractSummary.

Import Text Wikipedia.

Lemma extract_summary_length full_summary max_sentences :
  (length (_extract_summary full_summary max_sentences) <= 300)%nat.
Proof.
  unfold _extract_summary. destruct (truthy _); cbn [negb]; [|cbn; lia].
  cbv zeta.
  match goal with
  | |- context [if (300 <? length ?s)%nat then _ else _] =>
      destruct (Nat.ltb_spec 300 (length s)); [|done]
  end.
  rewrite length_app, length_firstn.
  change (length (lit "...")) with 3%nat. lia.
Qed.

(** X4: the summary extracted from a page has at most 300 characters,
    whatever the text of the page and the number of sentences asked. *)
Theorem extract_summary_bounded full_summary max_sentences :
  (length (_extract_summary full_summary max_sentences) <= 300)%nat.
Proof. apply extract_summary_length. Qed.

(** X5: the summary of an empty page text is empty; the summary of any
    other text is not empty and ends with a full stop. *)
Theorem extract_summary_ends_with_period full_summary max_sentences :
  _extract_summary [] max_sentences = []
  /\ (full_summary <> [] ->
      endswith (_extract_summary full_summary max_sentences) (lit ".") = true).
Proof.
  split; [done|]. intros Hne. unfold _extract_summary.
  destruct full_summary as [|c t]; [done|]. cbn [truthy negb]. cbv zeta.
  set (s0 := join _ _).
  assert (Hcut : forall s, endswith (firstn 297 s ++ lit "...") (lit ".") = true).
  { intros s. unfold endswith. by rewrite rev_app_distr. }
  destruct (endswith s0 (lit ".")) eqn:He; cbn [negb].
  - by destruct (300 <? length s0)%nat.
  - destruct (300 <? length (s0 ++ lit "."))%nat; [done|].
    apply endswith_app.
Qed.

(** X6: the summary is made of text of the page: it is a prefix of the
    page text, followed by nothing, by a full stop or by an ellipsis. *)
Theorem extract_summary_is_prefix full_summary max_sentences :
  exists kept ending,
    _extract_summary full_summary max_sentences = kept ++ ending
    /\ kept `prefix_of` full_summary
    /\ ending ∈ [[]; lit "."; lit "..."].
Proof.
  unfold _extract_summary. destruct (truthy _); cbn [negb].
  2:{ exists [], []. split; [done|]. split; [apply prefix_nil|set_solver]. }
  cbv zeta.
  destruct (upto_firstn max_sentences (split (lit ". ") full_summary))
    as [k ->].
  destruct (join_firstn (lit ". ") (split (lit ". ") full_summary) k)
    as [rest Hrest].
  rewrite join_split in Hrest.
  set (s0 := join _ _) in *.
  assert (Hs0 : s0 `prefix_of` full_summary) by (by exists rest).
  destruct (endswith s0 (lit ".")) eqn:He; cbn [negb].
  - destruct (300 <? length s0)%nat.
    + exists (firstn 297 s0), (lit "..."). split; [done|].
      split; [|set_solver].
      etrans; [|exact Hs0]. apply prefix_take.
    + exists s0, []. rewrite app_nil_r. split; [done|].
      split; [done|set_solver].
  - destruct (Nat.ltb_spec 300 (length (s0 ++ lit "."))) as [Hlen|Hlen].
    + exists (firstn 297 s0), (lit "..."). split.
      * f_equal. rewrite firstn_app.
        rewrite length_app in Hlen. cbn in Hlen.
        replace (297 - length s0)%nat with 0%nat by lia.
        cbn. by rewrite app_nil_r.
      * split; [|set_solver]. etrans; [|exact Hs0]. apply prefix_take.
    + exists s0, (lit "."). split; [done|]. split; [done|set_solver].
Qed.

(** X7: a text that ends with a full stop, has at most 300 characters and
    no more sentences than asked is its own summary. *)
Theorem extract_summary_keeps_short_text full_summary max_sentences :
  endswith full_summary (lit ".") = true ->
  (length full_summary <= 300)%nat ->
  (Z.of_nat (length (split (lit ". ") full_summary)) <= max_sentences)%Z ->
  _extract_summary full_summary max_sentences = full_summary.
Proof.
  intros Hend Hlen Hcount. unfold _extract_summary.
  destruct full_summary as [|c t]; [done|]. cbn [truthy negb]. cbv zeta.
  rewrite upto_all by done. rewrite join_split, Hend. cbn [negb].
  by destruct (Nat.ltb_spec 300 (length (c :: t))); [lia|].
Qed.

End ExtractSummary.

(** ** Classification of cultural significance *)

Section Classification.

Import MultiSource Text Wikipedia.

Context `{Interpreter}.

Lemma contains_spec sub s :
  contains sub s = true <-> exists before after, s = before ++ sub ++ after.
Proof.
  split.
  - induction s as [|c s IH].
    + cbn. rewrite orb_false_r. intros Hp. apply is_prefix_app in Hp.
      by exists [], (drop (length sub) []).
    + cbn [contains]. intros [Hp|Hc]%orb_prop.
      * apply is_prefix_app in Hp. by exists [], (drop (length sub) (c :: s)).
      * destruct (IH Hc) as (b & a & ->). by exists (c :: b), a.
  - intros (b & a & ->). induction b as [|c b IH].
    + cbn [app]. destruct (sub ++ a) eqn:Hs; cbn [contains];
        rewrite <- Hs, is_prefix_here; done.
    + cbn [app contains]. rewrite IH. apply orb_true_r.
Qed.

Lemma join_elem sep part parts :
  part ∈ parts -> exists before after, join sep parts = before ++ part ++ after.
Proof.
  induction parts as [|p ps IH]; [by intros ?%elem_of_nil|].
  intros [->|Hin]%elem_of_cons.
  - destruct ps as [|q ps]; [exists [], []; cbn; by rewrite app_nil_r|].
    by exists [], (sep ++ join sep (q :: ps)).
  - destruct (IH Hin) as (b & a & Hj). destruct ps as [|q ps].
    { by apply elem_of_nil in Hin. }
    exists (p ++ sep ++ b), a. rewrite join_cons by done. rewrite Hj.
    by rewrite <- !app_assoc.
Qed.

Lemma join_ascii sep parts :
  forallb is_ascii sep = true ->
  Forall (fun part => forallb is_ascii part = true) parts ->
  forallb is_ascii (join sep parts) = true.
Proof.
  intros Hsep. induction 1 as [|p ps Hp Hps IH]; [done|].
  destruct ps as [|q ps]; [done|]. rewrite join_cons by done.
  by rewrite !forallb_app, Hp, Hsep, IH.
Qed.

Lemma any_in_elem words word text :
  word ∈ words -> contains (lit word) text = true -> any_in words text = true.
Proof.
  intros Hin Hc. unfold any_in. apply existsb_exists.
  exists word. split; [by apply list_elem_of_In|done].
Qed.

(** A keyword found in one ASCII category is found in the text that the
    classifier searches. *)
Lemma keyword_in_categories word category categories :
  Forall (fun c => forallb is_ascii c = true) categories ->
  category ∈ categories ->
  contains word (lower category) = true ->
  contains word (lower (join (lit " ") categories)) = true.
Proof.
  intros Hascii Hin Hc. unfold lower in *.
  rewrite join_ascii by done.
  rewrite (proj1 (Forall_forall _ _) Hascii _ Hin) in Hc.
  destruct (join_elem (lit " ") _ _ Hin) as (b & a & ->).
  apply contains_spec in Hc as (b' & a' & Hc).
  apply contains_spec. rewrite !map_app, Hc.
  exists (map ascii_lower b ++ b'), (a' ++ map ascii_lower a).
  by rewrite <- !app_assoc.
Qed.

(** X8: when the categories carry a theme (mythological, historical,
    literary, philosophical or religious), the entity type plays no part
    in the classification of a page. *)
Theorem theme_overrides_entity_type entity_type entity_type' categories :
  _classify_cultural_significance entity_type categories
    ∈ ["mythological"; "historical"; "literary"; "philosophical";
        "religious"]%string ->
  _classify_cultural_significance entity_type' categories
  = _classify_cultural_significance entity_type categories.
Proof.
  unfold _classify_cultural_significance. cbv zeta.
  repeat (match goal with
          | |- context [any_in ?ws ?t] => destruct (any_in ws t); [done|]
          end).
  intros Hin. exfalso. revert Hin.
  repeat (match goal with
          | |- context [bool_decide ?P] => destruct (bool_decide P)
          end);
    rewrite !elem_of_cons, elem_of_nil; intuition discriminate.
Qed.

(** X9: a page with an ASCII category that names mythology or folklore is
    classified as mythological, whatever its other categories and the type
    of the entity. *)
Theorem mythology_category_wins entity_type categories category word :
  Forall (fun c => forallb is_ascii c = true) categories ->
  category ∈ categories ->
  word ∈ ["mythology"; "mythological"; "folklore"]%string ->
  contains (lit word) (lower category) = true ->
  _classify_cultural_significance entity_type categories
  = "mythological"%string.
Proof.
  intros Hascii Hin Hword Hc. unfold _classify_cultural_significance.
  cbv zeta.
  by rewrite (any_in_elem _ word _ Hword
                (keyword_in_categories _ _ _ Hascii Hin Hc)).
Qed.

(** X10: a multi-source record with literary information is classified
    "literary" without its texts being read.  Without literary information
    the classification raises exactly when the description or the summary
    of the record is not a string; [None] is the usual case. *)
Theorem multi_source_classification_needs_texts entity_type multi_data :
  (literary_info multi_data <> None ->
   _classify_from_multi_source entity_type multi_data
   = Ok "literary"%string)
  /\ (_classify_from_multi_source entity_type multi_data = Raise TypeError
      <-> literary_info multi_data = None
          /\ ~ (exists d s, description multi_data = PStr d
                            /\ summary multi_data = PStr s))
  /\ (is_ok (_classify_from_multi_source entity_type multi_data) = false ->
      _classify_from_multi_source entity_type multi_data = Raise TypeError).
Proof.
  unfold _classify_from_multi_source.
  destruct (literary_info multi_data) as [o|] eqn:Hl.
  { rewrite bool_decide_eq_true_2 by eauto.
    split; [done|]. split; [|done]. split; [done|]. by intros [? _]. }
  rewrite bool_decide_eq_false_2 by (by intros [? ?]).
  split; [done|].
  cbv zeta. change (lower (join (lit " ") [])) with (lower []).
  change (lower []) with ([] : pystr). cbn [contains is_prefix lit orb].
  cbn -[any_in lit].
  destruct (description multi_data) as [| | |d| |];
    try (split; [split; [intros _; split; [done|];
                         by intros (? & ? & ? & _)|done]|done]).
  destruct (summary multi_data) as [| | |s| |];
    try (split; [split; [intros _; split; [done|];
                         by intros (? & ? & _ & ?)|done]|done]).
  cbn -[any_in lit].
  assert (Hok : forall r : result string,
            (exists v, r = Ok v) ->
            (r = Raise TypeError <->
             @None ol_record = None
             /\ ~ (exists d0 s0, PStr d = PStr d0 /\ PStr s = PStr s0))
            /\ (is_ok r = false -> r = Raise TypeError)).
  { intros r [v ->]. split; [|done]. split; [done|].
    intros [_ Hn]. destruct Hn. eauto. }
  apply Hok.
  repeat (match goal with
          | |- context [any_in ?ws ?t] => destruct (any_in ws t); [eauto|]
          end).
  repeat (match goal with
          | |- context [bool_decide ?P] => destruct (bool_decide P); [eauto|]
          end).
  eauto.
Qed.

End Classification.

(** ** Enrichment of one entity by the encyclopedia service *)

Section WikipediaEnrich.

Import MultiSource Merge Text Wikipedia.

Context `{Interpreter}.
Variable self : service.
Variable net : network.
Variable completion : list string.
Variable now : pystr.
Variable world : encyclopedia.
Variables entity_name entity_type : pystr.

Local Abbreviation lookup :=
  (get_comprehensive_info self net entity_name entity_type true completion
     now).
Local Abbreviation answer :=
  (enrich_entity self net completion now world entity_name entity_type).
Local Abbreviation fallback :=
  (after_fallback world entity_name entity_type).
Local Abbreviation blank :=
  (EnrichedData entity_name entity_type PNone PNone None "unknown" None
     "low" [] None None None).

Lemma enrich_entity_fallback :
  answer false = fallback blank.
Proof. reflexivity. Qed.

(** X11: when the multi-source lookup raises, or consults no source, the
    enrichment is the one of the encyclopedia alone: nothing of the failed
    lookup reaches the caller. *)
Theorem failed_lookup_falls_back_to_encyclopedia :
  match get_comprehensive_info self net entity_name entity_type true
          completion now with
  | Ok multi_data => sources_consulted multi_data = []
  | Raise _ => True
  end ->
  enrich_entity self net completion now world entity_name entity_type true
  = enrich_entity self net completion now world entity_name entity_type
      false.
Proof.
  unfold enrich_entity, multi_source_attempt.
  destruct lookup as [multi_data|e]; [|done].
  by intros ->.
Qed.

(** X12: when the multi-source record has sources and its classification
    succeeds, the enrichment is made of that record alone and the
    encyclopedia is not consulted: the answer is the same whatever the
    pages and replies it would give. *)
Theorem usable_lookup_skips_encyclopedia multi_data significance world' :
  lookup = Ok multi_data ->
  sources_consulted multi_data <> [] ->
  _classify_from_multi_source entity_type multi_data = Ok significance ->
  answer true
  = set_cultural_significance significance
      (update_from_multi multi_data blank)
  /\ enrich_entity self net completion now world' entity_name entity_type
       true
     = answer true.
Proof.
  intros Hlookup Hsources Hclass.
  unfold enrich_entity, multi_source_attempt. rewrite Hlookup, Hclass.
  by destruct (sources_consulted multi_data).
Qed.

(** X13: when the multi-source record has sources but its classification
    raises, the fields already copied from it stay in the enrichment and
    the fallbacks run on top of them: a Wikipedia page replaces the
    summary and adds "Wikipedia" to the sources of the record, with the
    confidence "medium (Wikipedia only)"; without a page and without a
    Wikidata hit the multi-source fields are returned with the
    significance "unknown". *)
Theorem failed_classification_keeps_copied_fields multi_data :
  lookup = Ok multi_data ->
  sources_consulted multi_data <> [] ->
  is_ok (_classify_from_multi_source entity_type multi_data) = false ->
  answer true = fallback (update_from_multi multi_data blank)
  /\ ed_multi (answer true)
     = Some (MultiKeys (description multi_data)
               (default PNone (image_url multi_data))
               (default PNone (wikidata_id multi_data))
               (default PNone (dbpedia_uri multi_data))
               (literary_info multi_data))
  /\ (forall wiki_data,
        get_entity_summary world entity_name entity_type = Some wiki_data ->
        ed_summary (answer true) = PStr (w_summary wiki_data)
        /\ ed_sources_consulted (answer true)
           = sources_consulted multi_data ++ ["Wikipedia"%string]
        /\ ed_confidence (answer true) = "medium (Wikipedia only)"%string)
  /\ (get_entity_summary world entity_name entity_type = None ->
      get_wikidata_info world entity_name = None ->
      ed_summary (answer true)
      = py_or (summary multi_data) (description multi_data)
      /\ ed_sources_consulted (answer true) = sources_consulted multi_data
      /\ ed_confidence (answer true) = confidence multi_data
      /\ ed_cultural_significance (answer true) = "unknown"%string).
Proof.
  intros Hlookup Hsources Hclass.
  assert (Hanswer : answer true
                    = fallback (update_from_multi multi_data blank)).
  { unfold enrich_entity, multi_source_attempt. rewrite Hlookup.
    destruct (sources_consulted multi_data); [done|].
    by destruct (_classify_from_multi_source entity_type multi_data). }
  rewrite Hanswer. split; [done|]. unfold after_fallback.
  split; [|split].
  - destruct (get_entity_summary _ _ _); [done|].
    by destruct (get_wikidata_info _ _).
  - by intros wiki_data ->.
  - by intros -> ->.
Qed.

Lemma enrichment_sources_and_confidence use_multi_source :
  completion ≡ₚ (tasks self net entity_name entity_type).*1 ->
  (ed_sources_consulted (answer use_multi_source) = []
   <-> ed_confidence (answer use_multi_source) = "low"%string)
  /\ (ed_sources_consulted (answer use_multi_source) = [] ->
      ed_summary (answer use_multi_source) = PNone
      /\ ed_url (answer use_multi_source) = PNone
      /\ ed_source (answer use_multi_source) = None
      /\ ed_cultural_significance (answer use_multi_source)
         = "unknown"%string).
Proof.
  intros Hdone.
  assert (Hfallback : forall d,
            (ed_sources_consulted d = [] <-> ed_confidence d = "low"%string) ->
            (ed_sources_consulted d = [] ->
             ed_summary d = PNone /\ ed_url d = PNone /\ ed_source d = None
             /\ ed_cultural_significance d = "unknown"%string) ->
            (ed_sources_consulted (fallback d) = []
             <-> ed_confidence (fallback d) = "low"%string)
            /\ (ed_sources_consulted (fallback d) = [] ->
                ed_summary (fallback d) = PNone
                /\ ed_url (fallback d) = PNone
                /\ ed_source (fallback d) = None
                /\ ed_cultural_significance (fallback d)
                   = "unknown"%string)).
  { intros d Hiff Hnone. unfold after_fallback.
    destruct (get_entity_summary _ _ _) as [w|].
    { cbn. split; [split; [|done]|]; by intros [_ [=]]%app_eq_nil. }
    destruct (get_wikidata_info _ _) as [i|]; [|done].
    cbn. split; [split; [|done]|]; by intros [_ [=]]%app_eq_nil. }
  assert (Hblank : answer false = fallback blank) by reflexivity.
  destruct use_multi_source; [|rewrite Hblank; by apply Hfallback].
  unfold enrich_entity, multi_source_attempt.
  rewrite get_comprehensive_info_closed_form by done.
  destruct (summary_of _) as [s|e]; cbn [mbind result_bind bind];
    [|by apply Hfallback].
  cbn [sources_consulted merged_record].
  set (r := responses_of self net entity_name entity_type).
  destruct (responders r) as [|source sources] eqn:Hr;
    [by apply Hfallback|].
  assert (Hconf : confidence_of (source :: sources) <> "low"%string).
  { destruct sources as [|? [|? ?]]; cbn; [|done..].
    by destruct (_ || _). }
  match goal with
  | |- context [_classify_from_multi_source ?t ?c] =>
      destruct (_classify_from_multi_source t c)
  end.
  - cbn. rewrite Hr. done.
  - apply Hfallback; cbn; rewrite Hr; done.
Qed.


(** X14: once every provider task has completed, the enrichment has no
    source exactly when its confidence is "low", and then nothing was
    found: no summary, no URL, no source label and the significance
    "unknown". *)
Theorem enrichment_without_sources use_multi_source :
  completion ≡ₚ (tasks self net entity_name entity_type).*1 ->
  (ed_sources_consulted (answer use_multi_source) = []
   <-> ed_confidence (answer use_multi_source) = "low"%string)
  /\ (ed_sources_consulted (answer use_multi_source) = [] ->
      ed_summary (answer use_multi_source) = PNone
      /\ ed_url (answer use_multi_source) = PNone
      /\ ed_source (answer use_multi_source) = None
      /\ ed_cultural_significance (answer use_multi_source)
         = "unknown"%string).
Proof. apply enrichment_sources_and_confidence. Qed.

(** X15: a record of [get_entity_summary] carries the name and the type
    that were asked, also when the page was found by the search under
    another title; its summary has at most 300 characters, it keeps at
    most five categories, each with a cultural keyword in its lowered
    name, and its source is "Wikipedia". *)
Theorem entity_summary_record :
  match get_entity_summary world entity_name entity_type with
  | Some wiki_data =>
      w_entity_name wiki_data = entity_name
      /\ w_entity_type wiki_data = entity_type
      /\ (length (w_summary wiki_data) <= 300)%nat
      /\ (length (w_categories wiki_data) <= 5)%nat
      /\ Forall (fun category =>
                   any_in cultural_keywords (lower category) = true)
           (w_categories wiki_data)
      /\ w_source wiki_data = "Wikipedia"%string
  | None => True
  end.
Proof.
  assert (Hrecord : forall (pg : page) (r : option wiki_data),
            try_or_none (
              full_summary ← page_summary pg;
              url ← fullurl pg;
              Ok (Some (WikiData entity_name entity_type
                          (_extract_summary full_summary 3) url
                          (firstn 5 (_get_cultural_categories pg))
                          (_classify_cultural_significance entity_type
                             (_get_cultural_categories pg))
                          "Wikipedia" (wiki_clock world)))) = r ->
            match r with
            | Some wiki_data =>
                w_entity_name wiki_data = entity_name
                /\ w_entity_type wiki_data = entity_type
                /\ (length (w_summary wiki_data) <= 300)%nat
                /\ (length (w_categories wiki_data) <= 5)%nat
                /\ Forall (fun category =>
                             any_in cultural_keywords (lower category) = true)
                     (w_categories wiki_data)
                /\ w_source wiki_data = "Wikipedia"%string
            | None => True
            end).
  { intros pg r <-.
    destruct (page_summary pg) as [full|]; cbn; [|done].
    destruct (fullurl pg) as [url|]; cbn; [|done].
    split; [done|]. split; [done|].
    split; [apply extract_summary_length|].
    split; [rewrite length_firstn; lia|]. split; [|done].
    apply Forall_take. unfold _get_cultural_categories.
    destruct (categories pg) as [keys|]; [|constructor].
    apply Forall_forall. by intros c [Hc _]%list_elem_of_filter. }
  unfold get_entity_summary.
  destruct (wiki_page world (PStr (strip entity_name))) as [pg|]; cbn;
    [|done].
  destruct (page_exists pg) as [[|]|]; cbn;
    [exact (Hrecord pg _ eq_refl)| |done].
  destruct (truthy (_search_wikipedia world (strip entity_name))); cbn;
    [|done].
  destruct (py_first _) as [title|]; cbn; [|done].
  destruct (wiki_page world title) as [pg'|]; cbn; [|done].
  exact (Hrecord pg' _ eq_refl).
Qed.

End WikipediaEnrich.

(** ** Links built from names and titles *)

Section Links.

Import MultiSource.

Context `{Interpreter}.

Lemma underscored_no_space s : 32 ∉ underscored s.
Proof.
  unfold underscored. induction s as [|c s IH]; cbn.
  - apply not_elem_of_nil.
  - apply not_elem_of_cons. split; [|done].
    destruct (N.eqb_spec c 32); [done|congruence].
Qed.

(** X16: the links that the providers build from a name or a title have no
    space in them.  The DBpedia resource URI is its prefix followed by the
    entity name with underscores for spaces, whatever DBpedia answers.  The
    Wikipedia link is made from the site links of Wikidata: without an
    "enwiki" entry the answer is [None]; with one whose title is a string
    it is the prefix followed by that title with underscores for spaces;
    and no other string and no other value is ever returned. *)
Theorem built_links_have_no_space net entity_name :
  match get_dbpedia_info net entity_name with
  | Some d =>
      dbp_resource_uri d
      = lit "http://dbpedia.org/resource/" ++ underscored entity_name
      /\ 32 ∉ dbp_resource_uri d
  | None => True
  end
  /\ (forall sitelinks,
        (py_contains "enwiki" sitelinks = Ok false ->
         _get_wikipedia_url_from_sitelinks sitelinks = Ok PNone)
        /\ (forall enwiki title,
              py_contains "enwiki" sitelinks = Ok true ->
              py_item sitelinks "enwiki" = Ok enwiki ->
              py_item enwiki "title" = Ok (PStr title) ->
              _get_wikipedia_url_from_sitelinks sitelinks
              = Ok (PStr (lit "https://en.wikipedia.org/wiki/"
                          ++ underscored title)))
        /\ match _get_wikipedia_url_from_sitelinks sitelinks with
           | Ok (PStr link) =>
               (exists enwiki title,
                  py_contains "enwiki" sitelinks = Ok true
                  /\ py_item sitelinks "enwiki" = Ok enwiki
                  /\ py_item enwiki "title" = Ok (PStr title)
                  /\ link = lit "https://en.wikipedia.org/wiki/"
                            ++ underscored title)
               /\ 32 ∉ link
           | Ok other =>
               other = PNone /\ py_contains "enwiki" sitelinks = Ok false
           | Raise _ => py_contains "enwiki" sitelinks <> Ok false
           end)
  /\ _get_wikipedia_url_from_sitelinks
       (PDict [(lit "enwiki",
                PDict [(lit "site", PStr (lit "enwiki"));
                       (lit "title", PStr (lit "Mahatma Gandhi"))])])
     = Ok (PStr (lit "https://en.wikipedia.org/wiki/Mahatma_Gandhi"))
  /\ _get_wikipedia_url_from_sitelinks
       (PDict [(lit "hiwiki", PDict [(lit "title", PStr (lit "Gandhi"))])])
     = Ok PNone.
Proof.
  assert (Hprefix : forall prefix s,
            32 ∉ lit prefix -> 32 ∉ (lit prefix ++ underscored s)).
  { intros prefix s Hp. rewrite elem_of_app.
    intros [?|?]; [done|]. by eapply underscored_no_space. }
  split; [|split; [|split; by vm_compute]].
  - unfold get_dbpedia_info. cbv zeta.
    match goal with
    | |- match try_or_none ?body with _ => _ end =>
        assert (Hbody : forall r, body = r ->
                  match try_or_none r with
                  | Some d =>
                      dbp_resource_uri d
                      = lit "http://dbpedia.org/resource/"
                        ++ underscored entity_name
                      /\ 32 ∉ dbp_resource_uri d
                  | None => True
                  end); [|by apply Hbody]
    end.
    intros r <-. unfold mbind, result_bind.
    repeat bind_cases; cbn [try_or_none dbp_resource_uri]; try done.
    split; [done|]. apply Hprefix.
    refine (bool_decide_unpack _ _). by vm_compute.
  - intros sitelinks. unfold _get_wikipedia_url_from_sitelinks.
    unfold mbind, result_bind.
    destruct (py_contains "enwiki" sitelinks) as [[|]|]; cbn [bind].
    + split; [done|]. split.
      { intros enwiki title _ He Ht. rewrite He. cbn [bind].
        rewrite Ht. reflexivity. }
      destruct (py_item sitelinks "enwiki") as [enwiki|] eqn:He;
        cbn [bind]; [|done].
      destruct (py_item enwiki "title") as [title|] eqn:Ht; cbn [bind];
        [|done].
      destruct title as [| | |t| |]; cbn [bind py_underscored]; try done.
      split; [by exists enwiki, t|]. apply Hprefix.
      refine (bool_decide_unpack _ _). by vm_compute.
    + split; [done|]. split; [done|]. done.
    + split; [done|]. split; [done|]. done.
Qed.

End Links.

(** ** Detection of entities *)

Section Detection.

Import MultiSource Database Wikipedia Pipeline.

Context `{Interpreter}.

Lemma visit_cases state ent :
  (visit state ent = state
   /\ (eligible ent -> entity_key (candidate ent) ∈ state.2))
  \/ (visit state ent
      = (state.1 ++ [candidate ent], {[entity_key (candidate ent)]} ∪ state.2)
      /\ eligible ent /\ entity_key (candidate ent) ∉ state.2).
Proof.
  destruct state as [entities seen]. unfold visit, eligible. cbn [fst snd].
  destruct (bool_decide_reflect (label_ ent ∈ cultural_entity_types));
    cbn [negb]; [|left; split; [done|]; by intros [? _]].
  destruct (Nat.ltb_spec (length (strip (sp_text ent))) min_entity_length).
  { left. split; [done|]. intros (_ & ? & _). lia. }
  destruct (bool_decide_reflect (lower (strip (sp_text ent)) ∈ exclude_words)).
  { left. split; [done|]. by intros (_ & _ & ?). }
  destruct (bool_decide_reflect
              ((lower (strip (sp_text ent)), label_ ent) ∈ seen)).
  { by left. }
  right. done.
Qed.

Lemma visit_tidy state ent : tidy state -> tidy (visit state ent).
Proof.
  intros [Hseen Hnd].
  destruct (visit_cases state ent) as [[-> _]|(-> & _ & Hnew)]; [done|].
  split; cbn [fst snd].
  - intros key. rewrite fmap_app, elem_of_app, elem_of_union, Hseen.
    cbn. rewrite elem_of_singleton, list_elem_of_singleton. tauto.
  - rewrite fmap_app. apply NoDup_app. split; [done|]. split.
    + intros key Hin. cbn. rewrite list_elem_of_singleton. intros ->.
      by apply Hnew, Hseen.
    + cbn. apply NoDup_singleton.
Qed.

Lemma visits_tidy ents state : tidy state -> tidy (foldl visit state ents).
Proof.
  revert state. induction ents as [|ent ents IH]; intros state Hs; [done|].
  cbn. by apply IH, visit_tidy.
Qed.

Lemma visits_kept ents state :
  exists kept,
    kept `sublist_of` ents /\ Forall eligible kept
    /\ (foldl visit state ents).1 = state.1 ++ (candidate <$> kept).
Proof.
  revert state. induction ents as [|ent ents IH]; intros state.
  { exists []. cbn. by rewrite app_nil_r. }
  cbn [foldl].
  destruct (IH (visit state ent)) as (kept & Hsub & Hel & ->).
  destruct (visit_cases state ent) as [[-> _]|(-> & Hent & _)].
  - exists kept. split; [by apply sublist_cons|done].
  - exists (ent :: kept). split; [by apply sublist_skip|].
    split; [by constructor|]. cbn [fst]. by rewrite <- app_assoc.
Qed.

Lemma visits_grow ents state key :
  key ∈ state.2 -> key ∈ (foldl visit state ents).2.
Proof.
  revert state. induction ents as [|ent ents IH]; intros state Hin; [done|].
  cbn. apply IH.
  destruct (visit_cases state ent) as [[-> _]|(-> & _ & _)]; [done|].
  cbn. set_solver.
Qed.

Lemma visits_complete ents state ent :
  ent ∈ ents -> eligible ent ->
  entity_key (candidate ent) ∈ (foldl visit state ents).2.
Proof.
  revert state. induction ents as [|ent' ents IH]; intros state.
  { by intros ?%elem_of_nil. }
  intros [->|Hin]%elem_of_cons Hel; cbn; [|by apply IH].
  apply visits_grow.
  destruct (visit_cases state ent') as [[-> Hseen]|(-> & _ & _)]; [by auto|].
  cbn. set_solver.
Qed.

Lemma tidy_empty : tidy ([], ∅).
Proof.
  split; [|constructor]. intros key. cbn.
  rewrite elem_of_nil. set_solver.
Qed.

Lemma extract_entities_distinct self text :
  NoDup (entity_key <$> extract_entities self text).
Proof.
  unfold extract_entities. destruct (nlp self) as [model|]; [|constructor].
  destruct (model text) as [ents|e]; [|constructor].
  apply (visits_tidy ents _ tidy_empty).
Qed.

(** X17: no two detected entities have the same lowered text and the same
    type; in particular no two have the same text and type, the key of the
    entity cache. *)
Theorem detected_entities_distinct self text :
  NoDup (entity_key <$> extract_entities self text)
  /\ NoDup ((fun entity => (e_text entity, e_type entity))
             <$> extract_entities self text).
Proof.
  split; [apply extract_entities_distinct|].
  pose proof (extract_entities_distinct self text) as Hnd.
  apply (NoDup_fmap_1 (fun k : pystr * pystr => (lower k.1, k.2))).
  by rewrite <- list_fmap_compose.
Qed.

(** X18: the detected entities come from the spans of the language model,
    in their order and with their positions; each has a culturally
    relevant type, a stripped text of at least three characters, and is
    not a common word.  Without a model, or when the model raises, nothing
    is detected. *)
Theorem detected_entities_are_eligible_spans self text :
  match nlp self with
  | None => extract_entities self text = []
  | Some model =>
      match model text with
      | Raise _ => extract_entities self text = []
      | Ok ents =>
          exists kept,
            kept `sublist_of` ents
            /\ Forall eligible kept
            /\ extract_entities self text = candidate <$> kept
      end
  end.
Proof.
  unfold extract_entities. destruct (nlp self) as [model|]; [|done].
  destruct (model text) as [ents|e]; [|done].
  destruct (visits_kept ents ([], ∅)) as (kept & Hsub & Hel & ->). eauto.
Qed.

(** X19: every span worth keeping is detected, itself or an earlier span
    with the same lowered text and the same type. *)
Theorem eligible_spans_are_detected self text model ents ent :
  nlp self = Some model -> model text = Ok ents ->
  ent ∈ ents -> eligible ent ->
  exists entity,
    entity ∈ extract_entities self text
    /\ entity_key entity = entity_key (candidate ent).
Proof.
  intros Hnlp Hdoc Hin Hel. unfold extract_entities. rewrite Hnlp, Hdoc.
  pose proof (visits_complete ents ([], ∅) ent Hin Hel) as Hkey.
  apply (visits_tidy ents _ tidy_empty) in Hkey.
  apply list_elem_of_fmap in Hkey as (entity & Hk & Hentity). eauto.
Qed.

End Detection.

(** ** The analysis of a text *)

Section AnalysisFacts.

Import MultiSource Database Wikipedia Pipeline.

Context `{Interpreter}.
Variable self : nlp_service.
Variable multi_source_service : service.
Variable moments : nat -> moment.

Local Abbreviation enrich := (enrich_entity multi_source_service).
Local Abbreviation each := (enrich_each multi_source_service moments).
Local Abbreviation analyze :=
  (analyze_text_with_entities self multi_source_service moments).
Local Abbreviation cache_key :=
  (fun entity : entity => (e_text entity, e_type entity)).

Lemma enrich_each_cons i entity entities db :
  each i (entity :: entities) db
  = (with_enrichment entity
       (enrich (moments i) db (e_text entity) (e_type entity) true).1
     :: (each (S i) entities
           (enrich (moments i) db (e_text entity) (e_type entity) true).2).1,
     (each (S i) entities
        (enrich (moments i) db (e_text entity) (e_type entity) true).2).2).
Proof.
  cbn [enrich_each].
  destruct (enrich _ _ _ _ _) as [enrichment db'].
  by destruct (each _ _ _).
Qed.

Lemma enrich_each_detected i entities db :
  detected <$> (each i entities db).1 = entities.
Proof.
  revert i db. induction entities as [|entity entities IH]; intros i db.
  { done. }
  rewrite enrich_each_cons. cbn [fst fmap list_fmap]. f_equal; [|apply IH].
  by destruct (enrich _ _ _ _ _).1.
Qed.

(** The cache is read under the key of the entity, and written under that
    key only. *)
Lemma enrich_reads_one_key m db db' entity_text entity_type :
  db !! (entity_text, entity_type) = db' !! (entity_text, entity_type) ->
  (enrich m db entity_text entity_type true).1
  = (enrich m db' entity_text entity_type true).1.
Proof.
  intros Hk. unfold enrich_entity, Nlp.enrich_entity, get_cached_entity.
  rewrite Hk. destruct (select_ok (read m)); [|done].
  by destruct (db' !! _).
Qed.

Lemma enrich_writes_one_key m db entity_text entity_type use_cache key :
  key <> (entity_text, entity_type) ->
  (enrich m db entity_text entity_type use_cache).2 !! key = db !! key.
Proof.
  intros Hk. unfold enrich_entity, Nlp.enrich_entity.
  destruct (if use_cache then _ else _); [done|]. cbn [snd].
  destruct (truthy _); [|done].
  unfold save_entity_cache. destruct (upsert_ok _); [|done]. cbn.
  by rewrite lookup_insert_ne.
Qed.

Lemma enrich_each_as_found entities i db db0 j entity :
  NoDup (cache_key <$> entities) ->
  (forall e, e ∈ entities -> db !! cache_key e = db0 !! cache_key e) ->
  entities !! j = Some entity ->
  (each i entities db).1 !! j
  = Some (with_enrichment entity
            (enrich (moments (i + j)) db0 (e_text entity) (e_type entity)
               true).1).
Proof.
  revert i db j. induction entities as [|e entities IH]; intros i db j.
  { done. }
  rewrite fmap_cons, NoDup_cons. intros [Hnew Hnd] Hsame.
  rewrite enrich_each_cons. cbn [fst]. destruct j as [|j].
  - intros [= ->]. cbn. rewrite Nat.add_0_r. do 2 f_equal.
    apply enrich_reads_one_key. apply (Hsame entity). left.
  - cbn [lookup list_lookup]. intros Hj.
    rewrite (IH (S i) _ j Hnd); [by rewrite Nat.add_succ_r| |done].
    intros e' Hin. rewrite enrich_writes_one_key.
    + apply Hsame. by right.
    + intros Heq. apply Hnew. rewrite <- Heq.
      apply list_elem_of_fmap. eauto.
Qed.

Lemma enrich_table_one_key m db db' entity_text entity_type :
  db !! (entity_text, entity_type) = db' !! (entity_text, entity_type) ->
  (enrich m db entity_text entity_type true).2 !! (entity_text, entity_type)
  = (enrich m db' entity_text entity_type true).2
      !! (entity_text, entity_type).
Proof.
  intros Hk. unfold enrich_entity.
  generalize (as_enrichment
                (Wikipedia.enrich_entity multi_source_service (net m)
                   (completion m) (stamp m) (world m) entity_text
                   entity_type true)).
  intros live. unfold Nlp.enrich_entity, get_cached_entity, save_entity_cache.
  rewrite Hk.
  destruct (select_ok (read m)), (db' !! (entity_text, entity_type)) eqn:Hdb',
    (truthy (Nlp.en_summary live)), (upsert_ok (write m));
    cbn; rewrite ?lookup_insert_eq; congruence.
Qed.

Lemma enrich_each_other_keys entities i db key :
  key ∉ cache_key <$> entities -> (each i entities db).2 !! key = db !! key.
Proof.
  revert i db. induction entities as [|e entities IH]; intros i db; [done|].
  rewrite fmap_cons, not_elem_of_cons. intros [Hne Hnotin].
  rewrite enrich_each_cons. cbn [snd]. rewrite IH by done.
  by apply enrich_writes_one_key.
Qed.

(** After the loop the cache holds, under the key of an entity, what the
    lookup of that entity left there. *)
Lemma enrich_each_table entities i db j entity :
  NoDup (cache_key <$> entities) ->
  entities !! j = Some entity ->
  (each i entities db).2 !! cache_key entity
  = (enrich (moments (i + j)) db (e_text entity) (e_type entity) true).2
      !! cache_key entity.
Proof.
  revert i db j. induction entities as [|e entities IH]; intros i db j.
  { done. }
  rewrite fmap_cons, NoDup_cons. intros [Hnew Hnd].
  rewrite enrich_each_cons. cbn [snd]. destruct j as [|j].
  - intros [= ->]. rewrite Nat.add_0_r. by apply enrich_each_other_keys.
  - cbn [lookup list_lookup]. intros Hj.
    rewrite (IH (S i) _ j Hnd Hj), Nat.add_succ_r.
    apply enrich_table_one_key. apply enrich_writes_one_key.
    intros Heq. apply Hnew. change (cache_key entity = cache_key e) in Heq.
    rewrite <- Heq. apply list_elem_of_fmap. eexists. split; [done|].
    by eapply list_elem_of_lookup_2.
Qed.

Lemma NoDup_fmap_take {A B} (f : A -> B) n l :
  NoDup (f <$> l) -> NoDup (f <$> take n l).
Proof.
  intros Hnd. rewrite fmap_take.
  eapply sublist_NoDup; [done|apply sublist_take].
Qed.

Lemma cache_keys_distinct text :
  NoDup (cache_key <$> extract_entities self text).
Proof.
  pose proof (extract_entities_distinct self text) as Hnd.
  apply (NoDup_fmap_1 (fun k : pystr * pystr => (lower k.1, k.2))).
  by rewrite <- list_fmap_compose.
Qed.

Lemma analysis_listing db text enrich_all :
  let result := (analyze db text enrich_all).1 in
  let max_enrich := if enrich_all then 10%nat else 5%nat in
  detected <$> detected_entities result = extract_entities self text
  /\ total_detected result = length (detected_entities result)
  /\ enriched_count result = Nat.min (total_detected result) max_enrich
  /\ forall i shown,
       detected_entities result !! i = Some shown ->
       (max_enrich <= i)%nat ->
       shown = without_enrichment (detected shown).
Proof.
  cbv zeta. unfold analyze_text_with_entities.
  set (max_enrich := if enrich_all then 10%nat else 5%nat).
  destruct (extract_entities self text) as [|e es] eqn:Hes; [done|].
  rewrite <- Hes. set (entities := extract_entities self text).
  pose proof (enrich_each_detected 0 (firstn max_enrich entities) db) as Hd.
  destruct (each 0 (firstn max_enrich entities) db) as [shown db'].
  cbn [fst snd detected_entities total_detected enriched_count] in *.
  assert (Hlen : length shown = Nat.min max_enrich (length entities)).
  { by rewrite <- (length_fmap detected), Hd, length_firstn. }
  assert (Hall : detected
                 <$> (if (max_enrich <? length entities)%nat
                      then shown
                           ++ (without_enrichment <$> skipn max_enrich entities)
                      else shown) = entities).
  { destruct (Nat.ltb_spec max_enrich (length entities)).
    - rewrite fmap_app, Hd, <- list_fmap_compose.
      assert (Hid : forall l : list entity,
                detected ∘ without_enrichment <$> l = l).
      { induction l as [|x l IHl]; [done|]. cbn. by rewrite IHl. }
      rewrite Hid. apply firstn_skipn.
    - rewrite Hd. apply firstn_all2. lia. }
  split; [done|]. split; [by rewrite <- Hall at 1; rewrite length_fmap|].
  split; [done|].
  intros i x Hi Hmax.
  destruct (Nat.ltb_spec max_enrich (length entities)).
  - rewrite lookup_app_r in Hi by lia.
    apply list_lookup_fmap_Some in Hi as (e' & -> & _). done.
  - apply lookup_lt_Some in Hi. lia.
Qed.

(** X20: the analysis lists every detected entity once, in the order of
    detection: the count of detected entities is the length of the list,
    the count of enriched ones is that length capped by the limit (10, or
    5 for the highlights), and the entities past the limit carry no
    enrichment. *)
Theorem analysis_lists_every_entity db text enrich_all :
  let result := (analyze db text enrich_all).1 in
  let max_enrich := if enrich_all then 10%nat else 5%nat in
  detected <$> detected_entities result = extract_entities self text
  /\ total_detected result = length (detected_entities result)
  /\ enriched_count result = Nat.min (total_detected result) max_enrich
  /\ forall i shown,
       detected_entities result !! i = Some shown ->
       (max_enrich <= i)%nat ->
       shown = without_enrichment (detected shown).
Proof. apply analysis_listing. Qed.

Lemma analysis_shows db text (enrich_all : bool) i entity :
  firstn (if enrich_all then 10%nat else 5%nat)
    (extract_entities self text) !! i
  = Some entity ->
  detected_entities (analyze db text enrich_all).1 !! i
  = Some (with_enrichment entity
            (enrich (moments i) db (e_text entity) (e_type entity) true).1).
Proof.
  unfold analyze_text_with_entities.
  set (max_enrich := if enrich_all then 10%nat else 5%nat).
  intros Hi.
  pose proof (cache_keys_distinct text) as Hnd.
  destruct (extract_entities self text) as [|e es] eqn:Hes.
  { by rewrite firstn_nil in Hi. }
  rewrite <- Hes in *. set (entities := extract_entities self text) in *.
  assert (Hfirst : NoDup (cache_key <$> firstn max_enrich entities)).
  { by apply NoDup_fmap_take. }
  pose proof (enrich_each_as_found _ 0 db db i entity Hfirst
                (fun _ _ => eq_refl) Hi) as Hshown.
  pose proof (enrich_each_detected 0 (firstn max_enrich entities) db) as Hd.
  destruct (each 0 (firstn max_enrich entities) db) as [shown db'].
  cbn [fst snd detected_entities] in *.
  destruct (max_enrich <? length entities)%nat; [|done].
  apply lookup_app_l_Some. done.
Qed.


(** X21: within one analysis no entity is served from an entry that the
    same analysis wrote: the enrichment shown for each entity is the one
    that its lookup gives on the cache as the analysis found it. *)
Theorem analysis_reads_cache_as_found db text (enrich_all : bool) i entity :
  firstn (if enrich_all then 10%nat else 5%nat)
    (extract_entities self text) !! i
  = Some entity ->
  detected_entities (analyze db text enrich_all).1 !! i
  = Some (with_enrichment entity
            (enrich (moments i) db (e_text entity) (e_type entity) true).1).
Proof. apply analysis_shows. Qed.

Lemma analysis_table db text (enrich_all : bool) i entity :
  firstn (if enrich_all then 10%nat else 5%nat)
    (extract_entities self text) !! i
  = Some entity ->
  (analyze db text enrich_all).2 !! cache_key entity
  = (enrich (moments i) db (e_text entity) (e_type entity) true).2
      !! cache_key entity.
Proof.
  unfold analyze_text_with_entities.
  set (max_enrich := if enrich_all then 10%nat else 5%nat).
  intros Hi.
  pose proof (cache_keys_distinct text) as Hnd.
  destruct (extract_entities self text) as [|e es] eqn:Hes.
  { by rewrite firstn_nil in Hi. }
  rewrite <- Hes in *. set (entities := extract_entities self text) in *.
  pose proof (enrich_each_table _ 0 db i entity
                (NoDup_fmap_take _ max_enrich _ Hnd) Hi) as Htable.
  by destruct (each 0 (firstn max_enrich entities) db) as [shown db'].
Qed.

(** X22: the highlights follow the detection: there is one highlight for
    each detected entity, in the order of detection, with the positions,
    the text and the type of the entity and its text for title; from the
    sixth on the tooltips carry no enrichment. *)
Theorem highlights_follow_detection db text :
  let highlights :=
    (get_entity_highlights self multi_source_service moments db text).1 in
  (fun h => (hl_start h, hl_end h, hl_text h, hl_type h, tooltip_title h))
    <$> highlights
  = (fun e => (e_start e, e_end e, e_text e, e_type e, e_text e))
      <$> extract_entities self text
  /\ forall i h,
       highlights !! i = Some h -> (5 <= i)%nat ->
       tooltip_summary h = PNone /\ tooltip_url h = PNone
       /\ tooltip_source h = PNone
       /\ tooltip_significance h = PStr (lit "unknown").
Proof.
  cbv zeta. unfold get_entity_highlights.
  destruct (analysis_listing db text false) as (Hdetected & _ & _ & Hpast).
  destruct (analyze db text false) as [result db']. cbn [fst] in *.
  split.
  - rewrite <- Hdetected, <- !list_fmap_compose. done.
  - intros i h Hi Hfive.
    apply list_lookup_fmap_Some in Hi as (shown & -> & Hshown).
    rewrite (Hpast i shown Hshown Hfive). done.
Qed.

End AnalysisFacts.

Section RepeatedAnalysis.

Import MultiSource Database Wikipedia Pipeline.

Context `{Interpreter}.
Variable self : nlp_service.
Variable multi_source_service : service.

(** X23: an entity that the analysis of a text looked up and cached (it
    was not in the cache, it came with a summary and the store accepted
    the write) is served from the cache, as the row then written, by the
    next analysis of that text, whatever the sources would say by then,
    provided that the store answers the read. *)
Theorem cached_entity_is_served_next_time moments moments' db text
    (enrich_all : bool) i entity :
  let max_enrich := if enrich_all then 10%nat else 5%nat in
  let fresh :=
    as_enrichment
      (Wikipedia.enrich_entity multi_source_service (net (moments i))
         (completion (moments i)) (stamp (moments i)) (world (moments i))
         (e_text entity) (e_type entity) true) in
  firstn max_enrich (extract_entities self text) !! i = Some entity ->
  db !! (e_text entity, e_type entity) = None ->
  truthy (Nlp.en_summary fresh) = true ->
  upsert_ok (write (moments i)) = true ->
  select_ok (read (moments' i)) = true ->
  detected_entities
    (analyze_text_with_entities self multi_source_service moments'
       (analyze_text_with_entities self multi_source_service moments db text
          enrich_all).2
       text enrich_all).1 !! i
  = Some (with_enrichment entity
            (Nlp.FromCache
               (Nlp.cache_row_of fresh (e_text entity) (e_type entity)
                  (clock (moments i))))).
Proof.
  intros max_enrich fresh Hi Hmiss Hsummary Hwrite Hread.
  pose proof (analysis_table self multi_source_service moments db text
                enrich_all i entity Hi) as Htable.
  cbn beta in Htable.
  assert (Hrow : (enrich_entity multi_source_service (moments i) db
                    (e_text entity) (e_type entity) true).2
                   !! (e_text entity, e_type entity)
                 = Some (Nlp.cache_row_of fresh (e_text entity)
                           (e_type entity) (clock (moments i)))).
  { unfold enrich_entity. rewrite enrich_entity_miss.
    2:{ unfold get_cached_entity. rewrite Hmiss.
        destruct (select_ok (read (moments i))); reflexivity. }
    fold fresh. rewrite Hsummary. unfold save_entity_cache.
    rewrite Hwrite. cbn. apply lookup_insert_eq. }
  rewrite Hrow in Htable.
  rewrite (analysis_shows self multi_source_service moments' _ text
             enrich_all i entity Hi).
  do 2 f_equal. unfold enrich_entity, Nlp.enrich_entity, get_cached_entity.
  by rewrite Hread, Htable.
Qed.

End RepeatedAnalysis.

(** ** More on the two caches *)

Section CacheFacts.

Import Database EntityStore.

Local Open Scope Z_scope.

Context `{Interpreter}.

Lemma find_key_upsert_other cache_data db key :
  key <> key_of cache_data ->
  find_key key (upsert cache_data db) = find_key key db.
Proof.
  intros Hkey. unfold find_key.
  induction db as [|r db IH]; cbn [upsert].
  - rewrite filter_cons, decide_False by done. done.
  - destruct (bool_decide_reflect
                (text_hash r = text_hash cache_data
                 ∧ language r = language cache_data)) as [[Hh Hl]|Hne].
    + rewrite !filter_cons.
      rewrite (decide_False (P := key_of (with_id _ _) = key)).
      2:{ unfold key_of. cbn. intros <-. by apply Hkey. }
      rewrite (decide_False (P := key_of r = key)); [done|].
      unfold key_of. rewrite Hh, Hl. intros <-. by apply Hkey.
    + rewrite !filter_cons. destruct (decide (key_of r = key)); [done|].
      apply IH.
Qed.

(** X24: a write to the analysis cache touches the entry of its own text
    hash and language only: the entry stored under any other key is the
    same before and after, whether the write goes through or not. *)
Theorem analysis_cache_write_leaves_other_keys env now1 now2 db text
    language analysis_result h key :
  generate_text_hash text language = Ok h ->
  key <> (h, language) ->
  find_key key
    (save_analysis_cache env now1 now2 db text language analysis_result).2
  = find_key key db.
Proof.
  intros Hh Hkey. unfold save_analysis_cache. rewrite Hh. cbn.
  destruct (item (ar_cultural_origin analysis_result)); [|done].
  destruct (item (ar_cross_cultural_connections analysis_result)); [|done].
  destruct (item (ar_modern_analogy analysis_result)); [|done].
  cbn. destruct (upsert_ok env); [|done]. cbn.
  by apply find_key_upsert_other.
Qed.

(** X25: a write to the analysis cache returns no record exactly when the
    text cannot be encoded, when one of the three required fields of the
    analysis is missing, or when the store refuses the write; the table is
    then as it was. *)
Theorem analysis_cache_write_fails_quietly env now1 now2 db text language
    analysis_result :
  let outcome :=
    save_analysis_cache env now1 now2 db text language analysis_result in
  (outcome.1 = None
   <-> is_ok (generate_text_hash text language) = false
       \/ ar_cultural_origin analysis_result = None
       \/ ar_cross_cultural_connections analysis_result = None
       \/ ar_modern_analogy analysis_result = None
       \/ upsert_ok env = false)
  /\ (outcome.1 = None -> outcome.2 = db).
Proof.
  cbv zeta. unfold save_analysis_cache.
  destruct (generate_text_hash text language) as [h|e]; cbn.
  2:{ split; [|done]. split; [by left|done]. }
  destruct (ar_cultural_origin analysis_result); cbn.
  2:{ split; [|done]. split; [by right; left|done]. }
  destruct (ar_cross_cultural_connections analysis_result); cbn.
  2:{ split; [|done]. split; [by right; right; left|done]. }
  destruct (ar_modern_analogy analysis_result); cbn.
  2:{ split; [|done]. split; [by right; right; right; left|done]. }
  destruct (upsert_ok env); cbn.
  2:{ split; [|done]. split; [by right; right; right; right|done]. }
  rewrite find_key_upsert. split; [|done].
  split; [done|]. intros [?|[?|[?|[?|?]]]]; done.
Qed.

(** X26: when the purge of the entity cache is carried out, it removes the
    rows created before the cutoff, [days_old] days before now, and keeps
    the others as they are, a row created exactly at the cutoff included;
    when [days_old] is more than [timedelta] accepts, or the store does
    not carry the deletion out, nothing is removed. *)
Theorem purge_removes_rows_before_cutoff delete_ok now db days_old :
  (Z.abs days_old <= 999999999 ->
   datetime_min <= now - days days_old <= datetime_max ->
   delete_ok = true ->
   forall key,
     clear_old_entity_cache delete_ok now db days_old !! key
     = match db !! key with
       | Some row =>
           if bool_decide (er_created_at row < now - days days_old)
           then None else Some row
       | None => None
       end)
  /\ (999999999 < Z.abs days_old \/ delete_ok = false ->
      clear_old_entity_cache delete_ok now db days_old = db).
Proof.
  unfold clear_old_entity_cache, days_before. split.
  - intros Hdays [Hmin Hmax] -> key.
    rewrite (proj2 (Z.leb_le _ _) Hdays).
    rewrite (proj2 (Z.leb_le _ _) Hmin), (proj2 (Z.leb_le _ _) Hmax).
    cbn [andb]. rewrite map_lookup_filter.
    destruct (db !! key) as [row|]; [|done]. cbn.
    destruct (bool_decide_reflect (er_created_at row < now - days days_old)).
    + by rewrite option_guard_False by (intros Hn; by apply Hn).
    + by rewrite option_guard_True.
  - intros [Hdays| ->].
    + by rewrite (proj2 (Z.leb_gt _ _) Hdays).
    + by destruct (if Z.abs days_old <=? 999999999 then _ else _).
Qed.

End CacheFacts.

(** ** What is found and what is cached *)

Section FoundAndCached.

Import MultiSource Merge Database Wikipedia Pipeline.

Context `{Interpreter}.
Variable multi_source_service : service.

(** X27: an entity for which no source has anything is returned as it is
    and not written to the cache, so that the next lookup asks the
    sources again. *)
Theorem unknown_entity_is_not_cached m db entity_text entity_type
    (use_cache : bool) :
  completion m
  ≡ₚ (tasks multi_source_service (net m) entity_text entity_type).*1 ->
  (if use_cache then get_cached_entity (read m) db entity_text entity_type
   else None) = None ->
  ed_sources_consulted
    (Wikipedia.enrich_entity multi_source_service (net m) (completion m)
       (stamp m) (world m) entity_text entity_type true) = [] ->
  enrich_entity multi_source_service m db entity_text entity_type use_cache
  = (Nlp.FromProviders
       (as_enrichment
          (Wikipedia.enrich_entity multi_source_service (net m)
             (completion m) (stamp m) (world m) entity_text entity_type
             true)),
     db).
Proof.
  intros Hdone Hmiss Hnone. unfold enrich_entity.
  rewrite enrich_entity_miss by done. f_equal.
  destruct (enrichment_sources_and_confidence multi_source_service (net m)
              (completion m) (stamp m) (world m) entity_text entity_type
              true Hdone) as [_ Hfields].
  destruct (Hfields Hnone) as (Hs & _). cbn. by rewrite Hs.
Qed.

End FoundAndCached.

(** ** The text endpoints *)

Section EndpointFacts.

Import MultiSource Database Wikipedia Pipeline Api.

Local Open Scope Z_scope.

Context `{Interpreter}.
Variable Row : Type.
Variable insert : analysis_data -> result (list Row).
Variable increment_rpc : Z -> list cache_row -> list cache_row.
Variable self : nlp_service.
Variable multi_source_service : service.

Local Abbreviation analyze :=
  (analyze_text Row insert increment_rpc self multi_source_service).
Local Abbreviation read_cache := (get_cached_analysis increment_rpc).

Lemma too_short_length text :
  too_short text = true <-> (length (strip text) < 10)%nat.
Proof.
  unfold too_short. destruct text as [|c t].
  - cbn. split; [lia|done].
  - cbn [truthy negb orb]. apply Nat.ltb_lt.
Qed.

Lemma read_cache_miss env now cache text language :
  (read_cache env now cache text language).1 = None ->
  (read_cache env now cache text language).2 = cache.
Proof.
  unfold get_cached_analysis.
  destruct (generate_text_hash text language); [|done].
  destruct (select_ok env); cbn [negb]; [|done].
  by destruct (select_fresh _ _ _ _).
Qed.

Lemma analyze_text_cache now text language current_user cache entities :
  too_short text = false ->
  (analyze now text language current_user cache entities).1.2
  = (cached_or_fresh increment_rpc now cache text
       (language_or_en language)).2.
Proof.
  intros Hlong. unfold analyze_text. rewrite Hlong.
  destruct (cached_or_fresh _ _ _ _ _) as [[a|e] cache']; [|done].
  destruct (analyze_text_with_entities _ _ _ _ _ _) as [found entities'].
  by destruct (_ ← item _; _).
Qed.

(** X28: each of the three text endpoints answers with status 400 exactly
    when the text, stripped of surrounding white space, has fewer than 10
    characters; the caches are then left as they were. *)
Theorem short_text_is_rejected now text language current_user cache
    entities :
  ((analyze now text language current_user cache entities).1.1
   = HTTPException 400
   <-> (length (strip text) < 10)%nat)
  /\ ((extract_entities self multi_source_service now text entities).1
      = HTTPException 400
      <-> (length (strip text) < 10)%nat)
  /\ ((get_entity_highlights self multi_source_service now text entities).1
      = HTTPException 400
      <-> (length (strip text) < 10)%nat)
  /\ ((length (strip text) < 10)%nat ->
      analyze now text language current_user cache entities
      = (HTTPException 400, cache, entities)
      /\ (extract_entities self multi_source_service now text entities).2
         = entities
      /\ (get_entity_highlights self multi_source_service now text
            entities).2 = entities).
Proof.
  rewrite <- !too_short_length.
  unfold analyze_text, extract_entities, get_entity_highlights.
  destruct (too_short text); [by repeat split|].
  split; [|split; [|split]]; [| | |done].
  - split; [|done].
    destruct (cached_or_fresh _ _ _ _ _) as [[a|e] cache']; [|done].
    destruct (analyze_text_with_entities _ _ _ _ _ _) as [found entities'].
    by destruct (_ ← item _; _).
  - split; [|done].
    by destruct (analyze_text_with_entities _ _ _ _ _ _).
  - split; [|done].
    by destruct (Pipeline.get_entity_highlights _ _ _ _ _).
Qed.

(** X29: when the analysis cache has a fresh entry for the text, the
    language model plays no part in the request and the request writes no
    analysis to the cache: the answer and the caches are the same whatever
    the model would return and whatever the store would do with a write,
    and the table of the cache is the one that the read leaves. *)
Theorem cache_hit_skips_language_model now text language current_user cache
    entities cached model' store written :
  (read_cache (cache_read now) (read_at now) cache text
     (language_or_en language)).1 = Some cached ->
  analyze now text language current_user cache entities
  = analyze
      (Circumstances (cache_read now) (read_at now) model' store written
         (moments now) (created now))
      text language current_user cache entities
  /\ (too_short text = false ->
      (analyze now text language current_user cache entities).1.2
      = (read_cache (cache_read now) (read_at now) cache text
           (language_or_en language)).2).
Proof.
  intros Hhit. split.
  - unfold analyze_text. destruct (too_short text); [done|].
    unfold cached_or_fresh. cbn [cache_read read_at moments created].
    destruct (read_cache _ _ _ _ _) as [[c|] cache']; [done|].
    discriminate.
  - intros Hlong. rewrite analyze_text_cache by done.
    unfold cached_or_fresh.
    destruct (read_cache _ _ _ _ _) as [[c|] cache']; [done|].
    discriminate.
Qed.

(** X30: after a request that missed the cache and whose analysis, with
    its three required fields, was written to the cache, a read of the
    same text, or of any text with the same normalisation, in the same
    language and within 30 days of the write, returns the fields of that
    analysis; the key of the cache uses "en" when the request names no
    language. *)
Theorem fresh_analysis_is_cached now text language current_user cache
    entities h analysis_result origin connections analogy :
  too_short text = false ->
  generate_text_hash text (language_or_en language) = Ok h ->
  NoDup (key_of <$> cache) ->
  (read_cache (cache_read now) (read_at now) cache text
     (language_or_en language)).1 = None ->
  gemini now = Ok analysis_result ->
  ar_cultural_origin analysis_result = Some origin ->
  ar_cross_cultural_connections analysis_result = Some connections ->
  ar_modern_analogy analysis_result = Some analogy ->
  upsert_ok (cache_write now) = true ->
  forall env later text',
    lower (strip text') = lower (strip text) ->
    select_ok env = true ->
    later - days 30 < (written_at now).1 ->
    (read_cache env later
       (analyze now text language current_user cache entities).1.2
       text' (language_or_en language)).1
    = Some (Analysis origin connections analogy
              (get_or (PList []) (ar_timeline_events analysis_result))
              (get_or (PList []) (ar_geographic_locations analysis_result))
              (get_or (PList []) (ar_key_concepts analysis_result))
              (get_or (PDict []) (ar_external_resources analysis_result))).
Proof.
  intros Hlong Hh Hnd Hmiss Hmodel Ho Hc Ha Hok env later text' Hnorm Henv
    Hfresh.
  rewrite analyze_text_cache by done. unfold cached_or_fresh.
  pose proof (read_cache_miss _ _ _ _ _ Hmiss) as Htable.
  destruct (read_cache (cache_read now) _ _ _ _) as [found cache0].
  cbn [fst snd] in Hmiss, Htable. subst found cache0.
  rewrite Hmodel. cbn [snd].
  unfold save_analysis_cache. rewrite Hh, Ho, Hc, Ha. cbn.
  rewrite Hok. cbn [negb snd].
  set (cache_data := CacheRow _ _ _ _ _ _ _ _ _ _ _ _ _ _).
  pose proof (find_key_upsert cache_data cache) as Hfound.
  apply find_key_elem in Hfound as [Hin Hkey].
  assert (Hh' : generate_text_hash text' (language_or_en language) = Ok h).
  { rewrite <- Hh. unfold generate_text_hash. by rewrite Hnorm. }
  by rewrite (get_cached_analysis_hit increment_rpc env later _ text' _ h _
                Hh' (upsert_NoDup _ _ Hnd) Hin Hkey Hfresh Henv).
Qed.

End EndpointFacts.

(** ** The properties above on sample data *)

Section AggregatorCases.

Import MultiSource Merge Text Database EntityStore Wikipedia Pipeline Api.
Import Sample Cases.

Local Open Scope Z_scope.

Lemma knowledge_graph_skipped_without_key_witness :
  truthy (kg_api_key no_key) = false
  /\ match get_comprehensive_info (H:=plain) no_key all_four (lit "Hamlet")
             (lit "WORK_OF_ART") false [] clock with
     | Ok c =>
         (("Google Knowledge Graph"%string) ∉ sources_consulted c)
         /\ image_url c = None
         /\ kg_confidence_score c = None
     | Raise e =>
         abstract_rejected
           (responses_of (H:=plain) no_key all_four (lit "Hamlet")
              (lit "WORK_OF_ART")) e
     end.
Proof.
  assert (Hkey : truthy (kg_api_key no_key) = false) by reflexivity.
  assert (Hdone : false = true ->
            [] ≡ₚ (tasks (H:=plain) no_key all_four (lit "Hamlet")
                     (lit "WORK_OF_ART")).*1) by discriminate.
  split; [exact Hkey|].
  exact (knowledge_graph_skipped_without_key (H:=plain) no_key all_four
           (lit "Hamlet") (lit "WORK_OF_ART") false [] clock Hkey Hdone).
Defined.

Lemma openlibrary_only_for_literary_witness :
  match get_comprehensive_info (H:=plain) no_key all_four
          (lit "The Jungle Book") (lit "MISC") false [] clock with
  | Ok c =>
      (("OpenLibrary"%string) ∈ sources_consulted c
       <-> literary_info c <> None)
      /\ (("OpenLibrary"%string) ∈ sources_consulted c ->
          lit "MISC" = lit "WORK_OF_ART"
          \/ exists keyword,
               keyword ∈ [lit "book"; lit "novel"; lit "play"]
               /\ contains keyword (lower (H:=plain) (lit "The Jungle Book"))
                  = true)
  | Raise e =>
      abstract_rejected
        (responses_of (H:=plain) no_key all_four (lit "The Jungle Book")
           (lit "MISC")) e
  end.
Proof.
  assert (Hdone : false = true ->
            [] ≡ₚ (tasks (H:=plain) no_key all_four (lit "The Jungle Book")
                     (lit "MISC")).*1) by discriminate.
  exact (openlibrary_only_for_literary (H:=plain) no_key all_four
           (lit "The Jungle Book") (lit "MISC") false [] clock Hdone).
Defined.

Lemma nothing_without_status_200_witness :
  get_comprehensive_info (H:=plain) with_key unreachable (lit "Hamlet")
    (lit "WORK_OF_ART") false [] clock
  = Ok (Combined (lit "Hamlet") (lit "WORK_OF_ART") no_information PNone
          PNone [] "none" clock None None None None None).
Proof.
  assert (Hdone : false = true ->
            [] ≡ₚ (tasks (H:=plain) with_key unreachable (lit "Hamlet")
                     (lit "WORK_OF_ART")).*1) by discriminate.
  apply (nothing_without_status_200 (H:=plain) with_key unreachable
           (lit "Hamlet") (lit "WORK_OF_ART") false [] clock);
    [discriminate|by intros ? ? [= <- _]|by intros ? ? [= <- _]
    |by intros ? ? [= <- _]|exact Hdone].
Defined.

Lemma extract_summary_ends_with_period_witness :
  lit "Rome fell" <> []
  /\ _extract_summary (lit "Rome fell") 3 = lit "Rome fell."
  /\ endswith (_extract_summary (lit "Rome fell") 3) (lit ".") = true.
Proof.
  assert (Hne : lit "Rome fell" <> []) by discriminate.
  split; [exact Hne|]. split; [reflexivity|].
  exact (proj2 (extract_summary_ends_with_period (lit "Rome fell") 3) Hne).
Defined.

Lemma extract_summary_keeps_short_text_witness :
  endswith (lit "Rome fell. It rose again.") (lit ".") = true
  /\ (length (lit "Rome fell. It rose again.") <= 300)%nat
  /\ split (lit ". ") (lit "Rome fell. It rose again.")
     = [lit "Rome fell"; lit "It rose again."]
  /\ _extract_summary (lit "Rome fell. It rose again.") 3
     = lit "Rome fell. It rose again.".
Proof.
  assert (Hend : endswith (lit "Rome fell. It rose again.") (lit ".") = true)
    by reflexivity.
  assert (Hlen : (length (lit "Rome fell. It rose again.") <= 300)%nat)
    by (vm_compute; lia).
  assert (Hcount : Z.of_nat
                     (length (split (lit ". ")
                                (lit "Rome fell. It rose again."))) <= 3)
    by (vm_compute; discriminate).
  split; [exact Hend|]. split; [exact Hlen|]. split; [reflexivity|].
  exact (extract_summary_keeps_short_text (lit "Rome fell. It rose again.")
           3 Hend Hlen Hcount).
Defined.

Lemma theme_overrides_entity_type_witness :
  _classify_cultural_significance (H:=plain) (lit "PERSON")
    [lit "Greek mythology"]
  = "mythological"%string
  /\ _classify_cultural_significance (H:=plain) (lit "GPE")
       [lit "Greek mythology"]
     = _classify_cultural_significance (H:=plain) (lit "PERSON")
         [lit "Greek mythology"].
Proof.
  assert (Hin : _classify_cultural_significance (H:=plain) (lit "PERSON")
                  [lit "Greek mythology"]
                ∈ ["mythological"; "historical"; "literary";
                    "philosophical"; "religious"]%string)
    by (vm_compute; left).
  split; [reflexivity|].
  exact (theme_overrides_entity_type (H:=plain) (lit "PERSON") (lit "GPE")
           [lit "Greek mythology"] Hin).
Defined.

Lemma mythology_category_wins_witness :
  contains (lit "folklore") (lower (H:=plain) (lit "Irish Folklore")) = true
  /\ _classify_cultural_significance (H:=plain) (lit "ORG")
       [lit "Ancient Ireland"; lit "Irish Folklore"]
     = "mythological"%string.
Proof.
  assert (Hascii : Forall (fun c => forallb is_ascii c = true)
                     [lit "Ancient Ireland"; lit "Irish Folklore"])
    by (repeat constructor).
  assert (Hin : lit "Irish Folklore"
                ∈ [lit "Ancient Ireland"; lit "Irish Folklore"])
    by (right; left).
  assert (Hword : "folklore"%string
                  ∈ ["mythology"; "mythological"; "folklore"]%string)
    by (right; right; left).
  assert (Hc : contains (lit "folklore")
                 (lower (H:=plain) (lit "Irish Folklore")) = true)
    by reflexivity.
  split; [exact Hc|].
  exact (mythology_category_wins (H:=plain) (lit "ORG") _ _ _ Hascii Hin
           Hword Hc).
Defined.

End AggregatorCases.

Section EnrichmentCases.

Import MultiSource Merge Text Database EntityStore Wikipedia Pipeline Api.
Import Sample Cases.

Local Open Scope Z_scope.

Lemma failed_lookup_falls_back_to_encyclopedia_witness :
  get_comprehensive_info (H:=plain) no_key null_abstract (lit "Hamlet")
    (lit "MISC") true ["kg"; "dbpedia"; "wikidata"] clock
  = Raise TypeError
  /\ Wikipedia.enrich_entity (H:=plain) no_key null_abstract
       ["kg"; "dbpedia"; "wikidata"] clock with_page (lit "Hamlet")
       (lit "MISC") true
     = Wikipedia.enrich_entity (H:=plain) no_key null_abstract
         ["kg"; "dbpedia"; "wikidata"] clock with_page (lit "Hamlet")
         (lit "MISC") false.
Proof.
  assert (Hraise : get_comprehensive_info (H:=plain) no_key null_abstract
                     (lit "Hamlet") (lit "MISC") true
                     ["kg"; "dbpedia"; "wikidata"] clock
                   = Raise TypeError) by (vm_compute; reflexivity).
  split; [exact Hraise|].
  apply (failed_lookup_falls_back_to_encyclopedia (H:=plain) no_key
           null_abstract ["kg"; "dbpedia"; "wikidata"] clock with_page
           (lit "Hamlet") (lit "MISC")).
  rewrite Hraise. exact I.
Defined.

Lemma usable_lookup_skips_encyclopedia_witness :
  get_comprehensive_info (H:=plain) with_key kg_and_wikidata
    (lit "Mahatma Gandhi") (lit "PERSON") true ["wikidata"; "kg"; "dbpedia"]
    clock = Ok gandhi_from_two
  /\ _classify_from_multi_source (H:=plain) (lit "PERSON") gandhi_from_two
     = Ok "biographical"%string
  /\ Wikipedia.enrich_entity (H:=plain) with_key kg_and_wikidata
       ["wikidata"; "kg"; "dbpedia"] clock with_page (lit "Mahatma Gandhi")
       (lit "PERSON") true
     = set_cultural_significance "biographical"
         (update_from_multi (H:=plain) gandhi_from_two
            (blank (lit "Mahatma Gandhi") (lit "PERSON")))
  /\ Wikipedia.enrich_entity (H:=plain) with_key kg_and_wikidata
       ["wikidata"; "kg"; "dbpedia"] clock offline (lit "Mahatma Gandhi")
       (lit "PERSON") true
     = Wikipedia.enrich_entity (H:=plain) with_key kg_and_wikidata
         ["wikidata"; "kg"; "dbpedia"] clock with_page
         (lit "Mahatma Gandhi") (lit "PERSON") true.
Proof.
  assert (Hlookup : get_comprehensive_info (H:=plain) with_key
                      kg_and_wikidata (lit "Mahatma Gandhi") (lit "PERSON")
                      true ["wikidata"; "kg"; "dbpedia"] clock
                    = Ok gandhi_from_two) by (vm_compute; reflexivity).
  assert (Hsources : sources_consulted gandhi_from_two <> [])
    by discriminate.
  assert (Hclass : _classify_from_multi_source (H:=plain) (lit "PERSON")
                     gandhi_from_two = Ok "biographical"%string)
    by (vm_compute; reflexivity).
  split; [exact Hlookup|]. split; [exact Hclass|].
  exact (usable_lookup_skips_encyclopedia (H:=plain) with_key
           kg_and_wikidata ["wikidata"; "kg"; "dbpedia"] clock with_page
           (lit "Mahatma Gandhi") (lit "PERSON") gandhi_from_two
           "biographical" offline Hlookup Hsources Hclass).
Defined.

Lemma failed_classification_keeps_copied_fields_witness :
  get_comprehensive_info (H:=plain) no_key only_dbpedia (lit "Hamlet")
    (lit "MISC") true ["kg"; "dbpedia"; "wikidata"] clock
  = Ok hamlet_from_dbpedia
  /\ sources_consulted hamlet_from_dbpedia = ["DBpedia"%string]
  /\ description hamlet_from_dbpedia = PNone
  /\ _classify_from_multi_source (H:=plain) (lit "MISC") hamlet_from_dbpedia
     = Raise TypeError
  /\ ed_sources_consulted
       (Wikipedia.enrich_entity (H:=plain) no_key only_dbpedia
          ["kg"; "dbpedia"; "wikidata"] clock with_page (lit "Hamlet")
          (lit "MISC") true)
     = ["DBpedia"; "Wikipedia"]%string
  /\ ed_confidence
       (Wikipedia.enrich_entity (H:=plain) no_key only_dbpedia
          ["kg"; "dbpedia"; "wikidata"] clock with_page (lit "Hamlet")
          (lit "MISC") true)
     = "medium (Wikipedia only)"%string.
Proof.
  assert (Hlookup : get_comprehensive_info (H:=plain) no_key only_dbpedia
                      (lit "Hamlet") (lit "MISC") true
                      ["kg"; "dbpedia"; "wikidata"] clock
                    = Ok hamlet_from_dbpedia) by (vm_compute; reflexivity).
  assert (Hsources : sources_consulted hamlet_from_dbpedia <> [])
    by discriminate.
  assert (Hclass : is_ok (_classify_from_multi_source (H:=plain) (lit "MISC")
                            hamlet_from_dbpedia) = false)
    by (vm_compute; reflexivity).
  split; [exact Hlookup|]. split; [reflexivity|]. split; [reflexivity|].
  split; [vm_compute; reflexivity|].
  destruct (failed_classification_keeps_copied_fields (H:=plain) no_key
              only_dbpedia ["kg"; "dbpedia"; "wikidata"] clock with_page
              (lit "Hamlet") (lit "MISC") hamlet_from_dbpedia Hlookup
              Hsources Hclass) as (_ & _ & Hpage & _).
  destruct (get_entity_summary (H:=plain) with_page (lit "Hamlet")
              (lit "MISC")) as [wiki_data|] eqn:Hwiki;
    [|vm_compute in Hwiki; discriminate].
  destruct (Hpage wiki_data eq_refl) as (_ & Hs & Hc).
  split; [exact Hs|exact Hc].
Defined.

Lemma enrichment_without_sources_witness :
  ["kg"; "dbpedia"; "wikidata"]%string
  ≡ₚ (tasks (H:=plain) no_key silent (lit "Hamlet") (lit "MISC")).*1
  /\ ed_sources_consulted
       (Wikipedia.enrich_entity (H:=plain) no_key silent
          ["kg"; "dbpedia"; "wikidata"] clock offline (lit "Hamlet")
          (lit "MISC") true) = []
  /\ ed_summary
       (Wikipedia.enrich_entity (H:=plain) no_key silent
          ["kg"; "dbpedia"; "wikidata"] clock offline (lit "Hamlet")
          (lit "MISC") true) = PNone.
Proof.
  assert (Hdone : ["kg"; "dbpedia"; "wikidata"]%string
            ≡ₚ (tasks (H:=plain) no_key silent (lit "Hamlet")
                  (lit "MISC")).*1) by (vm_compute; reflexivity).
  assert (Hnone : ed_sources_consulted
                    (Wikipedia.enrich_entity (H:=plain) no_key silent
                       ["kg"; "dbpedia"; "wikidata"] clock offline
                       (lit "Hamlet") (lit "MISC") true) = [])
    by (vm_compute; reflexivity).
  split; [exact Hdone|]. split; [exact Hnone|].
  exact (proj1 (proj2 (enrichment_without_sources (H:=plain) no_key silent
                         ["kg"; "dbpedia"; "wikidata"] clock offline
                         (lit "Hamlet") (lit "MISC") true Hdone) Hnone)).
Defined.

Lemma eligible_spans_are_detected_witness :
  eligible (H:=plain) (Span (lit " rome") (lit "GPE") 20 25)
  /\ exists entity,
       entity ∈ Pipeline.extract_entities (H:=plain) reader a_text
       /\ entity_key (H:=plain) entity = (lit "rome", lit "GPE").
Proof.
  assert (Hel : eligible (H:=plain) (Span (lit " rome") (lit "GPE") 20 25)).
  { split; [|split].
    - refine (bool_decide_unpack _ _). by vm_compute.
    - vm_compute. lia.
    - refine (bool_decide_unpack _ _). by vm_compute. }
  split; [exact Hel|].
  refine (eligible_spans_are_detected (H:=plain) reader a_text _ _
            (Span (lit " rome") (lit "GPE") 20 25) eq_refl eq_refl _ Hel).
  right; right; left.
Defined.

Lemma analysis_reads_cache_as_found_witness :
  firstn 10 (Pipeline.extract_entities (H:=plain) reader a_text) !! 0%nat
  = Some rome
  /\ detected_entities
       (analyze_text_with_entities (H:=plain) reader with_key
          (fun _ => lucky) ∅ a_text true).1 !! 0%nat
     = Some (with_enrichment rome
               (Pipeline.enrich_entity (H:=plain) with_key lucky ∅
                  (lit "Rome") (lit "GPE") true).1).
Proof.
  assert (Hi : firstn 10 (Pipeline.extract_entities (H:=plain) reader a_text)
                 !! 0%nat = Some rome) by (vm_compute; reflexivity).
  split; [exact Hi|].
  exact (analysis_reads_cache_as_found (H:=plain) reader with_key
           (fun _ => lucky) ∅ a_text true 0 rome Hi).
Defined.

Lemma cached_entity_is_served_next_time_witness :
  truthy (Nlp.en_summary rome_enrichment) = true
  /\ detected_entities
       (analyze_text_with_entities (H:=plain) reader with_key
          (fun _ => unlucky)
          (analyze_text_with_entities (H:=plain) reader with_key
             (fun _ => lucky) ∅ a_text true).2
          a_text true).1 !! 0%nat
     = Some (with_enrichment rome
               (Nlp.FromCache
                  (Nlp.cache_row_of rome_enrichment (lit "Rome") (lit "GPE")
                     1000))).
Proof.
  assert (Hi : firstn 10 (Pipeline.extract_entities (H:=plain) reader a_text)
                 !! 0%nat = Some rome) by (vm_compute; reflexivity).
  assert (Hsummary : truthy (Nlp.en_summary rome_enrichment) = true)
    by (vm_compute; reflexivity).
  split; [exact Hsummary|].
  exact (cached_entity_is_served_next_time (H:=plain) reader with_key
           (fun _ => lucky) (fun _ => unlucky) ∅ a_text true 0 rome Hi
           (lookup_empty _) Hsummary eq_refl eq_refl).
Defined.

Lemma unknown_entity_is_not_cached_witness :
  ed_sources_consulted
    (Wikipedia.enrich_entity (H:=plain) no_key silent
       ["kg"; "dbpedia"; "wikidata"] stamp offline (lit "Rome") (lit "GPE")
       true) = []
  /\ (Pipeline.enrich_entity (H:=plain) no_key unlucky ∅ (lit "Rome")
        (lit "GPE") true).2 = ∅.
Proof.
  assert (Hdone : completion unlucky
            ≡ₚ (tasks (H:=plain) no_key (net unlucky) (lit "Rome")
                  (lit "GPE")).*1) by (vm_compute; reflexivity).
  assert (Hmiss : (if true
                   then get_cached_entity (read unlucky) ∅ (lit "Rome")
                          (lit "GPE")
                   else None) = None) by reflexivity.
  assert (Hnone : ed_sources_consulted
                    (Wikipedia.enrich_entity (H:=plain) no_key
                       (net unlucky) (completion unlucky)
                       (Pipeline.stamp unlucky)
                       (world unlucky) (lit "Rome") (lit "GPE") true) = [])
    by (vm_compute; reflexivity).
  split; [exact Hnone|].
  exact (f_equal snd
           (unknown_entity_is_not_cached (H:=plain) no_key unlucky ∅
              (lit "Rome") (lit "GPE") true Hdone Hmiss Hnone)).
Defined.

End EnrichmentCases.

Section CacheCases.

Import MultiSource Merge Text Database EntityStore Wikipedia Pipeline Api.
Import Sample Cases.

Local Open Scope Z_scope.

Lemma analysis_cache_write_leaves_other_keys_witness :
  (aqueduct_hash, lit "fr") <> (aqueduct_hash, english)
  /\ find_key (aqueduct_hash, lit "fr")
       (save_analysis_cache (H:=plain) store_up (days 2) (days 2)
          (cached_at 0) aqueduct english an_analysis).2
     = find_key (aqueduct_hash, lit "fr") (cached_at 0).
Proof.
  assert (Hkey : (aqueduct_hash, lit "fr") <> (aqueduct_hash, english))
    by (intros [=]).
  split; [exact Hkey|].
  exact (analysis_cache_write_leaves_other_keys (H:=plain) store_up (days 2)
           (days 2) (cached_at 0) aqueduct english an_analysis aqueduct_hash
           (aqueduct_hash, lit "fr") aqueduct_hash_value Hkey).
Defined.

Lemma purge_removes_rows_before_cutoff_witness :
  let old := Nlp.cache_row_of found (lit "Hamlet") (lit "WORK_OF_ART") 0 in
  let recent :=
    Nlp.cache_row_of found (lit "Rome") (lit "GPE") (days 10) in
  let db : gmap (pystr * pystr) entity_row :=
    <[(lit "Hamlet", lit "WORK_OF_ART") := old]>
      (<[(lit "Rome", lit "GPE") := recent]> ∅) in
  clear_old_entity_cache true (days 40) db 30
    !! (lit "Hamlet", lit "WORK_OF_ART") = None
  /\ clear_old_entity_cache true (days 40) db 30 !! (lit "Rome", lit "GPE")
     = Some recent.
Proof.
  cbv zeta.
  pose proof (proj1 (purge_removes_rows_before_cutoff true (days 40)
                       (<[(lit "Hamlet", lit "WORK_OF_ART")
                          := Nlp.cache_row_of found (lit "Hamlet")
                               (lit "WORK_OF_ART") 0]>
                          (<[(lit "Rome", lit "GPE")
                             := Nlp.cache_row_of found (lit "Rome")
                                  (lit "GPE") (days 10)]> ∅)) 30))
    as Hpurge.
  assert (Hdays : Z.abs 30 <= 999999999) by (vm_compute; discriminate).
  assert (Hrange : datetime_min <= days 40 - days 30 <= datetime_max).
  { split; vm_compute; discriminate. }
  specialize (Hpurge Hdays Hrange eq_refl). split.
  - rewrite Hpurge. by rewrite lookup_insert_eq.
  - rewrite Hpurge. rewrite lookup_insert_ne by (intros [=]).
    by rewrite lookup_insert_eq.
Defined.

Lemma cache_hit_skips_language_model_witness :
  (get_cached_analysis (H:=plain) increment_cache_hit store_up (days 1)
     (cached_at 0) aqueduct (language_or_en None)).1
  = Some (analysis_of (aqueduct_row 0))
  /\ analyze_text (H:=plain) Z one_row increment_cache_hit reader with_key
       model_down aqueduct None a_user (cached_at 0) ∅
     = analyze_text (H:=plain) Z one_row increment_cache_hit reader with_key
         model_up aqueduct None a_user (cached_at 0) ∅.
Proof.
  assert (Hhit : (get_cached_analysis (H:=plain) increment_cache_hit
                    (cache_read model_down) (read_at model_down)
                    (cached_at 0) aqueduct (language_or_en None)).1
                 = Some (analysis_of (aqueduct_row 0)))
    by (vm_compute; reflexivity).
  split; [exact Hhit|].
  exact (proj1 (cache_hit_skips_language_model (H:=plain) Z one_row
                  increment_cache_hit reader with_key model_down aqueduct
                  None a_user (cached_at 0) ∅ _ (Ok an_analysis) store_up
                  (days 1, days 1) Hhit)).
Defined.

Lemma fresh_analysis_is_cached_witness :
  (get_cached_analysis (H:=plain) increment_cache_hit store_up (days 1) []
     aqueduct (language_or_en None)).1 = None
  /\ (get_cached_analysis (H:=plain) increment_cache_hit rpc_down (days 20)
        (analyze_text (H:=plain) Z one_row increment_cache_hit reader
           with_key model_up aqueduct None a_user [] ∅).1.2
        (lit "  Ancient ROMAN Aqueduct ") (language_or_en None)).1
     = Some (Analysis (PStr (lit "Roman engineering"))
               (PStr (lit "Persian qanats")) (PStr (lit "a water main"))
               (PList [PStr (lit "312 BC")]) (PList []) (PList [])
               (PDict [])).
Proof.
  assert (Hlong : too_short aqueduct = false) by reflexivity.
  assert (Hmiss : (get_cached_analysis (H:=plain) increment_cache_hit
                     (cache_read model_up) (read_at model_up) [] aqueduct
                     (language_or_en None)).1 = None)
    by (vm_compute; reflexivity).
  assert (Hnorm : lower (H:=plain) (strip (lit "  Ancient ROMAN Aqueduct "))
                  = lower (H:=plain) (strip aqueduct))
    by (vm_compute; reflexivity).
  assert (Hfresh : days 20 - days 30 < (written_at model_up).1)
    by (vm_compute; reflexivity).
  split; [exact Hmiss|].
  exact (fresh_analysis_is_cached (H:=plain) Z one_row increment_cache_hit
           reader with_key model_up aqueduct None a_user [] ∅ aqueduct_hash
           an_analysis _ _ _ Hlong aqueduct_hash_value (NoDup_nil_2 (A:=pystr * pystr)) Hmiss
           eq_refl eq_refl eq_refl eq_refl eq_refl rpc_down (days 20)
           (lit "  Ancient ROMAN Aqueduct ") Hnorm eq_refl Hfresh).
Defined.

End CacheCases.
